(** * genvideosora: the video-generation backend of [src/main.py]

    A shallow embedding of the FastAPI service: the request translator
    [generate_video], the poll/download routine [wait_for_video_completion]
    and the file server [serve_video], over an explicit model of what the
    Python code touches (the wall clock, the upstream HTTP service, the
    local filesystem), followed by the properties the specification states
    about them.

    Conventions.
    - [time.time()] readings are rationals ([Q]): Python floats are
      idealised, rounding is not modelled.
    - Python [str] values are [string]s, read as UTF-8 byte strings.
      [repr] is modelled up to U+00FF; beyond, which code points it
      escapes is a table of the interpreter's Unicode database, and text
      that has such code points is outside the model.
    - JSON numbers are integers; JSON floats are outside the model.
    - A Python [dict] is an association list in insertion order.
    - The debug [print]s and the landing page [read_root] are left out. *)

From stdpp Require Import gmap strings list.
From Stdlib Require Import QArith Qminmax Lqa ZArith DecimalString Ascii Strings.Byte.

Set Warnings "-register-all".

Open Scope string_scope.
Open Scope list_scope.
Open Scope Z_scope.

(* ===================================================================== *)
(** * Python values *)
(* ===================================================================== *)

Module Py.

(** What [response.json()] can return, and what the handlers put in dicts. *)
Inductive value : Type :=
| VNone
| VBool (b : bool)
| VInt (n : Z)
| VStr (s : string)
| VList (l : list value)
| VDict (d : list (string * value)).

Abbreviation dict := (list (string * value)).

(** [d.get(k)] on an association list. *)
Fixpoint lookup (k : string) (d : dict) : option value :=
  match d with
  | [] => None
  | (k', v) :: d' => if String.eqb k k' then Some v else lookup k d'
  end.

(** [d[k] = v]: overwrite in place when the key is present, append otherwise. *)
Fixpoint set (k : string) (v : value) (d : dict) : dict :=
  match d with
  | [] => [(k, v)]
  | (k', v') :: d' =>
      if String.eqb k k' then (k, v) :: d' else (k', v') :: set k v d'
  end.

Definition keys (d : dict) : list string := map fst d.

(** [bool(v)]. *)
Definition truthy (v : value) : bool :=
  match v with
  | VNone => false
  | VBool b => b
  | VInt n => negb (n =? 0)
  | VStr s => negb (String.eqb s EmptyString)
  | VList l => match l with [] => false | _ => true end
  | VDict d => match d with [] => false | _ => true end
  end.

(** [str(n)] for an [int]. *)
Definition str_int (n : Z) : string := NilZero.string_of_int (Z.to_int n).

Definition squote : ascii := ascii_of_nat 39.
Definition dquote : ascii := ascii_of_nat 34.
Definition bslash : ascii := ascii_of_nat 92.

Definition hex_digit (n : nat) : ascii :=
  if (n <? 10)%nat then ascii_of_nat (48 + n) else ascii_of_nat (87 + n).

Fixpoint contains (c : ascii) (s : string) : bool :=
  match s with
  | EmptyString => false
  | String c' s' => if Ascii.eqb c c' then true else contains c s'
  end.

(** One ASCII character of [repr(s)], inside the quote [q]; a byte above
    127 is part of a longer sequence and is copied. *)
Definition repr_char (q c : ascii) : string :=
  let n := nat_of_ascii c in
  if Ascii.eqb c bslash then String bslash (String bslash EmptyString)
  else if Ascii.eqb c q then String bslash (String q EmptyString)
  else if (n =? 10)%nat then String bslash "n"
  else if (n =? 13)%nat then String bslash "r"
  else if (n =? 9)%nat then String bslash "t"
  else if ((n <? 32) || (n =? 127))%nat
       then String bslash (String "x" (String (hex_digit (n / 16))
                                  (String (hex_digit (n mod 16)) EmptyString)))
  else String c EmptyString.

(** The second byte of a two-byte sequence that starts with [0xC2] and
    encodes a code point [repr] escapes: the controls U+0080 to U+009F,
    the no-break space U+00A0 and the soft hyphen U+00AD. *)
Definition latin1_escaped (c : ascii) : bool :=
  let n := nat_of_ascii c in
  ((128 <=? n) && (n <=? 160) || (n =? 173))%nat.

(** The characters of [repr(s)], inside the quote [q]: ASCII by
    [repr_char]; a code point of U+0080 to U+00FF that is not printable
    as [\xHH]; every other sequence as it is. *)
Fixpoint repr_chars (q : ascii) (s : string) : string :=
  match s with
  | EmptyString => EmptyString
  | String c s' =>
      match s' with
      | String c' s'' =>
          if (nat_of_ascii c =? 194)%nat && latin1_escaped c'
          then String bslash (String "x" (String (hex_digit (nat_of_ascii c' / 16))
                                 (String (hex_digit (nat_of_ascii c' mod 16))
                                    (repr_chars q s''))))
          else repr_char q c +:+ repr_chars q s'
      | EmptyString => repr_char q c
      end
  end.

(** [repr(s)] for a [str]: single quotes, unless the text has a single
    quote and no double quote. *)
Definition repr_str (s : string) : string :=
  let q := if contains squote s && negb (contains dquote s) then dquote else squote in
  String q (repr_chars q s +:+ String q EmptyString).

Definition join (sep : string) (l : list string) : string := String.concat sep l.

(** [repr(v)]. *)
Fixpoint repr (v : value) : string :=
  match v with
  | VNone => "None"
  | VBool true => "True"
  | VBool false => "False"
  | VInt n => str_int n
  | VStr s => repr_str s
  | VList l => "[" +:+ join ", " (map repr l) +:+ "]"
  | VDict d =>
      "{" +:+ join ", " (map (fun kv => repr_str (fst kv) +:+ ": " +:+ repr (snd kv)) d) +:+ "}"
  end.

(** [str(v)], which is what an f-string field [{v}] renders. *)
Definition str (v : value) : string :=
  match v with
  | VStr s => s
  | _ => repr v
  end.

(** The name Python gives the type of [v] in an [AttributeError]. *)
Definition type_name (v : value) : string :=
  match v with
  | VNone => "NoneType"
  | VBool _ => "bool"
  | VInt _ => "int"
  | VStr _ => "str"
  | VList _ => "list"
  | VDict _ => "dict"
  end.

(** [s[:n]]. *)
Definition take (n : nat) (s : string) : string := String.substring 0 n s.

End Py.

(* ===================================================================== *)
(** * [pathlib] paths *)
(* ===================================================================== *)

Module PathLib.

(** A [pathlib.Path] on POSIX: whether it is rooted, and its parts. The
    parts hold no empty name and no ["."], as [pathlib] drops both when it
    parses (the special root of exactly two slashes is not modelled). *)
Record Path : Type := { absolute : bool; parts : list string }.

(** [s.split("/")]. *)
Fixpoint components (s : string) : list string :=
  match s with
  | EmptyString => [EmptyString]
  | String c s' =>
      if Ascii.eqb c "/" then EmptyString :: components s'
      else match components s' with
           | h :: t => String c h :: t
           | [] => [String c EmptyString]
           end
  end.

Definition kept (c : string) : bool :=
  negb (String.eqb c EmptyString) && negb (String.eqb c ".").

(** [Path(s)]. *)
Definition of_str (s : string) : Path :=
  {| absolute := String.prefix "/" s; parts := List.filter kept (components s) |}.

(** [p / s]: a rooted right operand replaces the left one. *)
Definition truediv (p : Path) (s : string) : Path :=
  let q := of_str s in
  if absolute q then q
  else {| absolute := absolute p; parts := parts p ++ parts q |}.

(** [str(p)]. *)
Definition str (p : Path) : string :=
  if absolute p then "/" +:+ Py.join "/" (parts p)
  else match parts p with
       | [] => "."
       | _ => Py.join "/" (parts p)
       end.

End PathLib.

(* ===================================================================== *)
(** * The local filesystem *)
(* ===================================================================== *)

Module Fs.

Inductive node : Type :=
| File (content : list byte)
| Dir.

(** Absolute, resolved names (the list of directory entries from the
    root) to what is stored there. The root is always a directory.
    Symbolic links are not modelled. *)
Abbreviation tree := (gmap (list string) node).

Inductive errno : Type := ENOENT | ENOTDIR | EISDIR | EEXIST.

Definition node_at (fs : tree) (key : list string) : option node :=
  match key with
  | [] => Some Dir
  | _ => fs !! key
  end.

(** Follow the components [comps] from the directory [cur], as the kernel
    does: each step needs a directory to step from. *)
Fixpoint walk (fs : tree) (cur : list string) (comps : list string)
  : errno + list string :=
  match comps with
  | [] => inr cur
  | c :: rest =>
      match node_at fs cur with
      | None => inl ENOENT
      | Some (File _) => inl ENOTDIR
      | Some Dir =>
          if String.eqb c EmptyString || String.eqb c "." then walk fs cur rest
          else if String.eqb c ".." then walk fs (removelast cur) rest
          else walk fs (cur ++ [c]) rest
      end
  end.

Definition origin (cwd : list string) (s : string) : list string :=
  if String.prefix "/" s then [] else cwd.

(** [os.stat(s)] from the working directory [cwd]. *)
Definition stat (fs : tree) (cwd : list string) (s : string)
  : errno + (list string * node) :=
  if String.eqb s EmptyString then inl ENOENT
  else match walk fs (origin cwd s) (PathLib.components s) with
       | inl e => inl e
       | inr key => match node_at fs key with
                    | None => inl ENOENT
                    | Some n => inr (key, n)
                    end
       end.

(** [Path.exists()]. *)
Definition exists_ (fs : tree) (cwd : list string) (s : string) : bool :=
  match stat fs cwd s with inr _ => true | inl _ => false end.

(** [open(s, "wb")]: the entry is created, or truncated when it is a
    file already. Returns the resolved name of the open file. *)
Definition open_wb (fs : tree) (cwd : list string) (s : string)
  : errno + (list string * tree) :=
  if String.eqb s EmptyString then inl ENOENT
  else
    let comps := PathLib.components s in
    match walk fs (origin cwd s) (removelast comps) with
    | inl e => inl e
    | inr d =>
        match node_at fs d with
        | None => inl ENOENT
        | Some (File _) => inl ENOTDIR
        | Some Dir =>
            let c := List.last comps EmptyString in
            if String.eqb c EmptyString || String.eqb c "." || String.eqb c ".."
            then inl EISDIR
            else match fs !! (d ++ [c]) with
                 | Some Dir => inl EISDIR
                 | _ => inr (d ++ [c], <[d ++ [c] := File []]> fs)
                 end
        end
    end.

(** [f.write(data)] on the file opened under [key]. *)
Definition write (fs : tree) (key : list string) (data : list byte) : tree :=
  match fs !! key with
  | Some (File old) => <[key := File (old ++ data)]> fs
  | _ => fs
  end.

(** [Path(s).mkdir(exist_ok=True)]. *)
Definition mkdir_exist_ok (fs : tree) (cwd : list string) (s : string)
  : errno + tree :=
  match stat fs cwd s with
  | inr (_, Dir) => inr fs
  | inr (_, File _) => inl EEXIST
  | inl _ =>
      let comps := PathLib.components s in
      match walk fs (origin cwd s) (removelast comps) with
      | inl e => inl e
      | inr d =>
          match node_at fs d with
          | Some Dir => inr (<[d ++ [List.last comps EmptyString] := Dir]> fs)
          | Some (File _) => inl ENOTDIR
          | None => inl ENOENT
          end
      end
  end.

(** The text of the [OSError] Python raises for [e] on the path [s]. *)
Definition strerror (e : errno) (s : string) : string :=
  match e with
  | ENOENT => "[Errno 2] No such file or directory: "
  | ENOTDIR => "[Errno 20] Not a directory: "
  | EISDIR => "[Errno 21] Is a directory: "
  | EEXIST => "[Errno 17] File exists: "
  end +:+ Py.repr_str s.

End Fs.

(* ===================================================================== *)
(** * The runtime: exceptions, HTTP, the clock *)
(* ===================================================================== *)

(** The exceptions the handlers see: FastAPI's [HTTPException], and every
    other [Exception] with the text [str(e)] gives. *)
Inductive exn : Type :=
| HTTPException (status_code : Z) (detail : string)
| Exception (text : string).

(** How a call ends. [OutOfFuel] is the model running out of loop
    iterations; it is not a Python outcome. *)
Inductive result (A : Type) : Type :=
| Return (a : A)
| Raise (e : exn)
| OutOfFuel.
Arguments Return {A} a.
Arguments Raise {A} e.
Arguments OutOfFuel {A}.

(** An [httpx.Response] that has been read: [json] is what
    [response.json()] returns, or the text of the error it raises. *)
Record Response : Type := {
  status_code : Z;
  text : string;
  json : string + Py.value
}.

(** A streamed [httpx.Response]: [aiter_bytes n] lists the chunks
    [aiter_bytes(chunk_size=n)] yields, [abort] is the error the stream
    raises after them (if any), and [decoded] is what
    [(await aread()).decode()] gives: the text, or the error it raises. *)
Record StreamResponse : Type := {
  stream_status_code : Z;
  aiter_bytes : Z -> list (list byte);
  abort : option string;
  decoded : string + string
}.

(** What a request comes to, and how long it took: a response, or a
    transport error ([httpx.HTTPError]) with its text. *)
Inductive reply (A : Type) : Type :=
| Answered (latency : Q) (r : A)
| Failed (latency : Q) (msg : string).
Arguments Answered {A} latency r.
Arguments Failed {A} latency msg.

Abbreviation headers_t := (list (string * string)).

(** What the process does to the outside, in order. *)
Inductive event : Type :=
| EvGet (url : string) (headers : headers_t)
| EvStream (url : string) (headers : headers_t)
| EvPost (url : string) (headers : headers_t) (body : Py.value)
| EvSleep (delay : Q).

(** The outside: the upstream service and the scheduler. Every answer may
    depend on how many events came before it. [oversleep] is by how much
    [asyncio.sleep] overruns the delay it was asked for. *)
Record Outside : Type := {
  on_get : nat -> string -> reply Response;
  on_post : nat -> string -> Py.value -> reply Response;
  on_stream : nat -> string -> reply StreamResponse;
  oversleep : nat -> Q
}.

Record World : Type := {
  clock : Q;
  cwd : list string;
  fs : Fs.tree;
  trace : list event
}.

Definition tick (dt : Q) (e : event) (w : World) : World :=
  {| clock := (clock w + dt)%Q; cwd := cwd w; fs := fs w; trace := trace w ++ [e] |}.

Definition with_fs (t : Fs.tree) (w : World) : World :=
  {| clock := clock w; cwd := cwd w; fs := t; trace := trace w |}.

(** Computations over the world that may raise. *)
Definition M (A : Type) : Type := World -> result A * World.

Definition ret {A} (a : A) : M A := fun w => (Return a, w).
Definition raise {A} (e : exn) : M A := fun w => (Raise e, w).
Definition bind {A B} (m : M A) (k : A -> M B) : M B :=
  fun w => match m w with
           | (Return a, w') => k a w'
           | (Raise e, w') => (Raise e, w')
           | (OutOfFuel, w') => (OutOfFuel, w')
           end.

(** [try: m except e: h e]. *)
Definition try_except {A} (m : M A) (h : exn -> M A) : M A :=
  fun w => match m w with
           | (Raise e, w') => h e w'
           | r => r
           end.

Declare Scope py_scope.
Delimit Scope py_scope with py.
Notation "x <- m ;; k" := (bind m (fun x => k))
  (at level 100, m at next level, right associativity) : py_scope.
Notation "m ;;; k" := (bind m (fun _ => k))
  (at level 100, right associativity) : py_scope.
Open Scope py_scope.

Section Runtime.

Variable out : Outside.

(** [time.time()]. *)
Definition time_time : M Q := fun w => (Return (clock w), w).

Definition settle {A} (e : event) (r : reply A) (w : World) : result A * World :=
  match r with
  | Answered dt a => (Return a, tick dt e w)
  | Failed dt msg => (Raise (Exception msg), tick dt e w)
  end.

(** [await client.get(url, headers=headers)]. *)
Definition client_get (url : string) (headers : headers_t) : M Response :=
  fun w => settle (EvGet url headers) (on_get out (length (trace w)) url) w.

(** [await client.post(url, headers=headers, json=body)]. *)
Definition client_post (url : string) (headers : headers_t) (body : Py.value)
  : M Response :=
  fun w => settle (EvPost url headers body) (on_post out (length (trace w)) url body) w.

(** [client.stream("GET", url, headers=headers, follow_redirects=True)]. *)
Definition client_stream (url : string) (headers : headers_t) : M StreamResponse :=
  fun w => settle (EvStream url headers) (on_stream out (length (trace w)) url) w.

(** [await asyncio.sleep(delay)]: a delay that is not positive yields
    without waiting. *)
Definition asyncio_sleep (delay : Q) : M unit :=
  fun w => (Return tt,
            tick (Qmax 0 delay + oversleep out (length (trace w))) (EvSleep delay) w).

(** [response.json()]. *)
Definition response_json (r : Response) : M Py.value :=
  match json r with
  | inr v => ret v
  | inl msg => raise (Exception msg)
  end.

Definition no_attribute (v : Py.value) (attr : string) : exn :=
  Exception ("'" +:+ Py.type_name v +:+ "' object has no attribute '" +:+ attr +:+ "'").

(** [v.get(k, default)]: only a dict has [get]. *)
Definition py_get (v : Py.value) (k : string) (default : Py.value) : M Py.value :=
  match v with
  | Py.VDict d => ret (match Py.lookup k d with Some x => x | None => default end)
  | _ => raise (no_attribute v "get")
  end.

(** [v[k] = x]. *)
Definition py_setitem (v : Py.value) (k : string) (x : Py.value) : M Py.value :=
  match v with
  | Py.VDict d => ret (Py.VDict (Py.set k x d))
  | _ => raise (Exception ("'" +:+ Py.type_name v
                           +:+ "' object does not support item assignment"))
  end.

(** [v == s] for a string literal [s]. *)
Definition eq_str (v : Py.value) (s : string) : bool :=
  match v with
  | Py.VStr s' => String.eqb s' s
  | _ => false
  end.

(** [open(s, "wb")]. *)
Definition open_wb (s : string) : M (list string) :=
  fun w => match Fs.open_wb (fs w) (cwd w) s with
           | inr (key, t) => (Return key, with_fs t w)
           | inl e => (Raise (Exception (Fs.strerror e s)), w)
           end.

(** [f.write(data)]. *)
Definition f_write (f : list string) (data : list byte) : M unit :=
  fun w => (Return tt, with_fs (Fs.write (fs w) f data) w).

End Runtime.

(* ===================================================================== *)
(** * The service ([src/main.py]) *)
(* ===================================================================== *)

Definition OPENAI_API_BASE : string := "https://api.openai.com/v1".

Definition VIDEOS_DIR : PathLib.Path := PathLib.of_str "videos".

(** [VIDEOS_DIR.mkdir(exist_ok=True)], run when the module is loaded. *)
Definition startup (w : World) : result unit * World :=
  match Fs.mkdir_exist_ok (fs w) (cwd w) (PathLib.str VIDEOS_DIR) with
  | inr t => (Return tt, with_fs t w)
  | inl e => (Raise (Exception (Fs.strerror e (PathLib.str VIDEOS_DIR))), w)
  end.

Record VideoRequest : Type := {
  prompt : string;
  model : string;
  size : string;
  duration : Z
}.

(** The request pydantic builds when the body gives the prompt only. *)
Definition VideoRequest_default (p : string) : VideoRequest :=
  {| prompt := p; model := "sora-2"; size := "720x1280"; duration := 8 |}.

Record VideoResponse : Type := {
  video_url : string;
  status : string;
  message : string
}.

(** Starlette's [FileResponse], as [serve_video] builds it. *)
Record FileResponse : Type := {
  path : string;
  media_type : string;
  filename : string
}.

Section Service.

(** [os.getenv("OPENAI_API_KEY")], read once when the module is loaded. *)
Variable OPENAI_API_KEY : option string.
Variable out : Outside.

(** [not OPENAI_API_KEY]. *)
Definition key_missing : bool :=
  match OPENAI_API_KEY with
  | None => true
  | Some k => String.eqb k EmptyString
  end.

(** [f"Bearer {OPENAI_API_KEY}"]. *)
Definition bearer : string :=
  "Bearer " +:+ match OPENAI_API_KEY with Some k => k | None => "None" end.

(** The poll delay of line 117: [min(5, 1 + (now - start_time) / 30)]. *)
Definition poll_delay (start_time now : Q) : Q :=
  Qmin 5 (1 + (now - start_time) / 30).

(** The [async for] of lines 94-97: every non-empty chunk is written and
    counted. Returns [total_bytes]. *)
Fixpoint save_chunks (f : list string) (chunks : list (list byte)) (total_bytes : Z)
  : M Z :=
  match chunks with
  | [] => ret total_bytes
  | chunk :: rest =>
      match chunk with
      | [] => save_chunks f rest total_bytes
      | _ => f_write f chunk ;;;
             save_chunks f rest (total_bytes + Z.of_nat (length chunk))
      end
  end.

(** Lines 76-110: the branch taken once the status is [completed]. The
    debug prints are not modelled. *)
Definition download (video_id video_data : Py.value) (headers : headers_t)
  : M Py.value :=
  let video_filename := Py.str video_id +:+ ".mp4" in
  let video_path := PathLib.truediv VIDEOS_DIR video_filename in
  content_response <-
    client_stream out (OPENAI_API_BASE +:+ "/videos/" +:+ Py.str video_id +:+ "/content")
                  headers ;;
  if stream_status_code content_response =? 200 then
    f <- open_wb (PathLib.str video_path) ;;
    total_bytes <- save_chunks f (aiter_bytes content_response 8192) 0 ;;
    match abort content_response with
    | Some msg => raise (Exception msg)
    | None =>
        video_data <- py_setitem video_data "local_path" (Py.VStr (PathLib.str video_path)) ;;
        video_data <- py_setitem video_data "video_filename" (Py.VStr video_filename) ;;
        ret video_data
    end
  else
    match decoded content_response with
    | inl msg => raise (Exception msg)
    | inr error_text =>
        raise (HTTPException (stream_status_code content_response)
                 ("Failed to download video content: " +:+ error_text))
    end.

(** The [while] loop of lines 59-117, [fuel] bounding its iterations. *)
Fixpoint poll_loop (fuel : nat) (video_id : Py.value) (max_wait : Z)
    (headers : headers_t) (start_time : Q) : M Py.value :=
  match fuel with
  | O => fun w => (OutOfFuel, w)
  | S fuel' =>
      now <- time_time ;;
      if Qlt_le_dec (now - start_time) (inject_Z max_wait) then
        response <- client_get out (OPENAI_API_BASE +:+ "/videos/" +:+ Py.str video_id)
                               headers ;;
        if negb (status_code response =? 200) then
          raise (HTTPException (status_code response)
                   ("Failed to check video status: " +:+ text response))
        else
          video_data <- response_json response ;;
          status <- py_get video_data "status" Py.VNone ;;
          if eq_str status "completed" then
            download video_id video_data headers
          else if eq_str status "failed" then
            error_obj <- py_get video_data "error" (Py.VDict []) ;;
            error <- py_get error_obj "message" (Py.VStr "Unknown error") ;;
            raise (HTTPException 500 ("Video generation failed: " +:+ Py.str error))
          else
            now <- time_time ;;
            asyncio_sleep out (poll_delay start_time now) ;;;
            poll_loop fuel' video_id max_wait headers start_time
      else
        raise (HTTPException 408 "Video generation timeout")
  end.

(** [wait_for_video_completion(video_id, max_wait)]. *)
Definition wait_for_video_completion (fuel : nat) (video_id : Py.value) (max_wait : Z)
  : M Py.value :=
  let headers := [("Authorization", bearer)] in
  start_time <- time_time ;;
  poll_loop fuel video_id max_wait headers start_time.

(** Lines 141-149: the JSON body sent upstream. *)
Definition payload_of (request : VideoRequest) : Py.dict :=
  let payload := [("model", Py.VStr (model request));
                  ("prompt", Py.VStr (prompt request));
                  ("size", Py.VStr (size request))] in
  if negb (duration request =? 0)
  then Py.set "seconds" (Py.VStr (Py.str_int (duration request))) payload
  else payload.

(** Lines 160-165: the message taken from an error response; when
    anything in the [try] raises, the raw body stays. *)
Definition create_error_detail (response : Response) : Py.value :=
  match json response with
  | inr (Py.VDict error_json) =>
      match Py.lookup "error" error_json with
      | None => Py.VStr (text response)
      | Some (Py.VDict e) =>
          match Py.lookup "message" e with
          | Some m => m
          | None => Py.VStr (text response)
          end
      | Some _ => Py.VStr (text response)
      end
  | _ => Py.VStr (text response)
  end.

(** Lines 128-200: the body of the [try]. *)
Definition generate_video_try (fuel : nat) (request : VideoRequest) : M VideoResponse :=
  if key_missing then
    raise (HTTPException 500 "OPENAI_API_KEY not configured. Please set it in .env file")
  else
    let headers := [("Authorization", bearer); ("Content-Type", "application/json")] in
    let payload := payload_of request in
    response <- client_post out (OPENAI_API_BASE +:+ "/videos") headers (Py.VDict payload) ;;
    if negb ((status_code response =? 200) || (status_code response =? 201)) then
      raise (HTTPException (status_code response)
               ("Failed to create video: " +:+ Py.str (create_error_detail response)))
    else
      video_data <- response_json response ;;
      video_id <- py_get video_data "id" Py.VNone ;;
      if negb (Py.truthy video_id) then
        raise (HTTPException 500 "No video ID returned")
      else
        completed_video <- wait_for_video_completion fuel video_id 600 ;;
        video_filename <- py_get completed_video "video_filename" Py.VNone ;;
        if negb (Py.truthy video_filename) then
          raise (HTTPException 500
                   ("No video file found. Response: "
                    +:+ Py.take 500 (Py.str completed_video)))
        else
          ret {| video_url := "/videos/" +:+ Py.str video_filename;
                 status := "success";
                 message := "Video generated successfully" |}.

(** [generate_video(request)]: an [HTTPException] passes through, any
    other exception becomes a 500. *)
Definition generate_video (fuel : nat) (request : VideoRequest) : M VideoResponse :=
  try_except (generate_video_try fuel request)
    (fun e => match e with
              | HTTPException _ _ => raise e
              | Exception error_message =>
                  raise (HTTPException 500 ("Error generating video: " +:+ error_message))
              end).

(** [health_check()]. *)
Definition health_check : Py.value :=
  Py.VDict [("status", Py.VStr "ok"); ("api_key_configured", Py.VBool (negb key_missing))].

(** [serve_video(video_filename)]. *)
Definition serve_video (video_filename : string) : M FileResponse :=
  let video_path := PathLib.truediv VIDEOS_DIR video_filename in
  fun w =>
    if negb (Fs.exists_ (fs w) (cwd w) (PathLib.str video_path)) then
      (Raise (HTTPException 404 "Video not found"), w)
    else
      (Return {| path := PathLib.str video_path;
                 media_type := "video/mp4";
                 filename := video_filename |}, w).

End Service.

(* ===================================================================== *)
(** * The framework around the handlers *)
(* ===================================================================== *)

(** What goes back to the browser. *)
Record HttpResponse : Type := {
  http_status : Z;
  content_type : string;
  body : list byte
}.

(** Starlette sending a [FileResponse]: the path is looked up again, and
    only a regular file is sent. *)
Definition send_file (r : FileResponse) : M HttpResponse :=
  fun w =>
    match Fs.stat (fs w) (cwd w) (path r) with
    | inr (_, Fs.File content) =>
        (Return {| http_status := 200; content_type := media_type r; body := content |}, w)
    | inr (_, Fs.Dir) =>
        (Raise (Exception ("File at path " +:+ path r +:+ " is not a file.")), w)
    | inl _ =>
        (Raise (Exception ("File at path " +:+ path r +:+ " does not exist.")), w)
    end.

(** The path parameter of [@app.get("/videos/{video_filename}")]:
    Starlette's [str] convertor matches [[^/]+], one segment that is not
    empty. *)
Definition route_matches (video_filename : string) : bool :=
  negb (String.eqb video_filename EmptyString) &&
  negb (Py.contains "/" video_filename).

(** [GET /videos/<video_filename>]: the handler runs when the route
    matches; when no route matches, the router answers 404. *)
Definition GET_videos (video_filename : string) : M HttpResponse :=
  if route_matches video_filename then
    r <- serve_video video_filename ;; send_file r
  else
    raise (HTTPException 404 "Not Found").

(** The status line FastAPI answers with: an [HTTPException] carries its
    own, any other exception is a 500. *)
Definition http_status_of {A} (ok : A -> Z) (r : result A) : option Z :=
  match r with
  | Return a => Some (ok a)
  | Raise (HTTPException sc _) => Some sc
  | Raise (Exception _) => Some 500
  | OutOfFuel => None
  end.

Definition is_server_error (sc : Z) : bool := (500 <=? sc) && (sc <? 600).

(* ===================================================================== *)
(** * Vocabulary of the properties *)
(* ===================================================================== *)

(** The URL that is polled, and the URL the content is fetched from. *)
Definition status_url (video_id : Py.value) : string :=
  OPENAI_API_BASE +:+ "/videos/" +:+ Py.str video_id.

Definition content_url (video_id : Py.value) : string :=
  OPENAI_API_BASE +:+ "/videos/" +:+ Py.str video_id +:+ "/content".

Definition create_url : string := OPENAI_API_BASE +:+ "/videos".

Definition poll_headers (key : option string) : headers_t :=
  [("Authorization", bearer key)].

Definition create_headers (key : option string) : headers_t :=
  [("Authorization", bearer key); ("Content-Type", "application/json")].

(** The job status a poll reports: the ["status"] entry of a 200 answer
    whose body is a JSON object. *)
Definition polled_status (r : Response) : option Py.value :=
  if status_code r =? 200 then
    match json r with
    | inr (Py.VDict d) =>
        Some (match Py.lookup "status" d with Some s => s | None => Py.VNone end)
    | _ => None
    end
  else None.

(** A poll that reports a job that is neither completed nor failed. *)
Definition pending (r : Response) : bool :=
  match polled_status r with
  | Some s => negb (eq_str s "completed") && negb (eq_str s "failed")
  | None => false
  end.

(** A poll that reports a completed job. *)
Definition completed (r : Response) : bool :=
  match polled_status r with
  | Some s => eq_str s "completed"
  | None => false
  end.

(** A poll that reports a failed job whose error object carries the
    message [m]. *)
Definition failed_with (m : string) (r : Response) : Prop :=
  status_code r = 200 /\
  exists d e, json r = inr (Py.VDict d) /\
    Py.lookup "status" d = Some (Py.VStr "failed") /\
    Py.lookup "error" d = Some (Py.VDict e) /\
    Py.lookup "message" e = Some (Py.VStr m).

(** The world once a status poll has been answered after [latency]. *)
Definition after_poll (video_id : Py.value) (headers : headers_t) (latency : Q)
    (w : World) : World :=
  tick latency (EvGet (status_url video_id) headers) w.

(** The world once [asyncio.sleep(delay)] has returned. *)
Definition after_sleep (out : Outside) (delay : Q) (w : World) : World :=
  tick (Qmax 0 delay + oversleep out (length (trace w))) (EvSleep delay) w.

(** The events that lead from the world [w] to the world [w']. *)
Definition new_events (w w' : World) : list event :=
  drop (length (trace w)) (trace w').

(** The file name a job's video is stored under. *)
Definition job_filename (video_id : Py.value) : string := Py.str video_id +:+ ".mp4".

(** Where [serve_video] and [download] look for [video_filename]. *)
Definition video_path_str (video_filename : string) : string :=
  PathLib.str (PathLib.truediv VIDEOS_DIR video_filename).

(** [name] names a regular file, seen from the videos directory. *)
Definition names_video_file (name : string) (w : World) : Prop :=
  exists file content,
    Fs.stat (fs w) (cwd w) (video_path_str name) = inr (file, Fs.File content).

Definition is_stream (e : event) : bool :=
  match e with EvStream _ _ => true | _ => false end.

Definition is_get (e : event) : bool :=
  match e with EvGet _ _ => true | _ => false end.

(** The resolutions and durations the request model documents. *)
Definition supported_sizes : list string :=
  ["720x1280"; "1280x720"; "1024x1792"; "1792x1024"].

Definition supported_durations : list Z := [4; 8; 12].

(** [w'] is [w] after some more events; the working directory stays. *)
Definition grows (w w' : World) : Prop :=
  cwd w' = cwd w /\ exists evs, trace w' = trace w ++ evs.

(** A computation that leaves the events so far alone. *)
Definition appends {A} (m : M A) : Prop := forall w, grows w (snd (m w)).

(* ===================================================================== *)
(** * A sample deployment, for concrete runs *)
(* ===================================================================== *)

Module Sample.

(** The process runs in [/srv/app], where [videos/] exists. *)
Definition disk : Fs.tree :=
  <[ ["srv"; "app"; "videos"] := Fs.Dir ]>
    (<[ ["srv"; "app"] := Fs.Dir ]> (<[ ["srv"] := Fs.Dir ]> ∅)).

Definition world : World :=
  {| clock := 0; cwd := ["srv"; "app"]; fs := disk; trace := [] |}.

(** The same, with one video stored already. *)
Definition stocked : World :=
  {| clock := 0; cwd := ["srv"; "app"];
     fs := <[ ["srv"; "app"; "videos"; "video_1.mp4"] := Fs.File [x66; x74; x79; x70] ]> disk;
     trace := [] |}.

Definition job (state : Py.dict) : Response :=
  {| status_code := 200; text := "{}";
     json := inr (Py.VDict (("id", Py.VStr "video_1") :: state)) |}.

Definition queued : Response := job [("status", Py.VStr "queued")].

Definition done : Response := job [("status", Py.VStr "completed")].

Definition broken : Response :=
  job [("status", Py.VStr "failed");
       ("error", Py.VDict [("message", Py.VStr "moderation blocked")])].

Definition film : StreamResponse :=
  {| stream_status_code := 200;
     aiter_bytes := fun _ => [[x66; x74; x79]; []; [x70]];
     abort := None;
     decoded := inr EmptyString |}.

(** An upstream that answers the [n]-th event: [queued] first, then
    whatever [later] says. Requests take half a second, sleeps are exact. *)
Definition upstream (later : Response) : Outside :=
  {| on_get := fun n _ => Answered (1 # 2) (if (n <? 2)%nat then queued else later);
     on_post := fun _ _ _ => Answered (1 # 2) queued;
     on_stream := fun _ _ => Answered 2 film;
     oversleep := fun _ => 0%Q |}.

(** An upstream whose job stays queued for ever. *)
Definition stuck : Outside := upstream queued.

Definition key : option string := Some "sk-test".

Definition request : VideoRequest := VideoRequest_default "a cat on a table".

Definition video_1 : Py.value := Py.VStr "video_1".

(** A job whose id has a slash. *)
Definition escaping : Py.value := Py.VStr "../video_1".

(** What [wait_for_video_completion] returns for [video_1] once it is
    stored. *)
Definition stored : Py.value :=
  Py.VDict [("id", Py.VStr "video_1"); ("status", Py.VStr "completed");
            ("local_path", Py.VStr "videos/video_1.mp4");
            ("video_filename", Py.VStr "video_1.mp4")].

(** An answer that is not a 200. *)
Definition unavailable : Response :=
  {| status_code := 503; text := "upstream down"; json := inl "Expecting value" |}.

(** A failed job whose answer gives no reason. *)
Definition silent : Response := job [("status", Py.VStr "failed")].

(** The job is queued, then completed, and its content is answered with
    [content]. *)
Definition serving (content : StreamResponse) : Outside :=
  {| on_get := fun n _ => Answered (1 # 2) (if (n <? 2)%nat then queued else done);
     on_post := fun _ _ _ => Answered (1 # 2) queued;
     on_stream := fun _ _ => Answered 2 content;
     oversleep := fun _ => 0%Q |}.

(** The content is gone. *)
Definition gone : StreamResponse :=
  {| stream_status_code := 404;
     aiter_bytes := fun _ => [];
     abort := None;
     decoded := inr "no such video" |}.

(** The connection drops once one whole chunk has been yielded: what
    arrived after it is still in the buffer of [aiter_bytes] and never
    comes out. *)
Definition cut : StreamResponse :=
  {| stream_status_code := 200;
     aiter_bytes := fun chunk_size => [repeat x00 (Z.to_nat chunk_size)];
     abort := Some "peer closed connection";
     decoded := inr EmptyString |}.

(** The creation request is refused, with [body] as the answer. *)
Definition refusing (body : Response) : Outside :=
  {| on_get := fun _ _ => Answered (1 # 2) queued;
     on_post := fun _ _ _ => Answered (1 # 2) body;
     on_stream := fun _ _ => Answered 2 film;
     oversleep := fun _ => 0%Q |}.

Definition rejected : Response :=
  {| status_code := 400; text := "{...}";
     json := inr (Py.VDict [("error", Py.VDict [("message", Py.VStr "Invalid size")])]) |}.

Definition anonymous : Response :=
  {| status_code := 200; text := "{}"; json := inr (Py.VDict [("status", Py.VStr "queued")]) |}.

(** The network is down. *)
Definition offline : Outside :=
  {| on_get := fun _ _ => Failed 30 "All connection attempts failed";
     on_post := fun _ _ _ => Failed 30 "All connection attempts failed";
     on_stream := fun _ _ => Failed 30 "All connection attempts failed";
     oversleep := fun _ => 0%Q |}.

(** The poller's run for the job [escaping], which the upstream reports
    queued and then completed. *)
Definition escaped_run : result Py.value * World :=
  wait_for_video_completion key (upstream done) 2 escaping 600 world.

(** A process started where there is no [videos/] yet. *)
Definition bare : World :=
  {| clock := 0; cwd := ["srv"; "app"];
     fs := <[ ["srv"; "app"; "main.py"] := Fs.File [x66] ]>
             (<[ ["srv"; "app"] := Fs.Dir ]> (<[ ["srv"] := Fs.Dir ]> ∅));
     trace := [] |}.

End Sample.

(* ===================================================================== *)
(** * Vocabulary for whole runs of the poller *)
(* ===================================================================== *)

(** [rounds out id max_wait h start n w w1]: starting in [w], the loop went
    round [n] times, each time polling a job that was still running and
    sleeping, and is about to test its condition in [w1]. *)
Inductive rounds (out : Outside) (video_id : Py.value) (max_wait : Z)
    (h : headers_t) (start : Q) : nat -> World -> World -> Prop :=
| rounds_none w : rounds out video_id max_wait h start 0 w w
| rounds_next n w latency r w1 :
    (clock w - start < inject_Z max_wait)%Q ->
    on_get out (length (trace w)) (status_url video_id) = Answered latency r ->
    pending r = true ->
    rounds out video_id max_wait h start n
      (after_sleep out (poll_delay start (clock w + latency))
         (after_poll video_id h latency w)) w1 ->
    rounds out video_id max_wait h start (S n) w w1.

(** The iteration that starts in [w] does not lead to another one. *)
Definition last_round (out : Outside) (video_id : Py.value) (max_wait : Z)
    (start : Q) (w : World) : Prop :=
  (clock w - start < inject_Z max_wait)%Q ->
  forall latency r,
    on_get out (length (trace w)) (status_url video_id) = Answered latency r ->
    pending r = false.

(** The number of status polls among some events. *)
Definition count_polls (evs : list event) : nat := length (List.filter is_get evs).

(** Every sleep among the events was asked to last between [lo] and [hi]. *)
Definition sleeps_within (lo hi : Q) (evs : list event) : Prop :=
  Forall (fun e => match e with
                   | EvSleep d => (lo <= d <= hi)%Q
                   | _ => True
                   end) evs.

(** Nothing the outside does takes a negative time. *)
Definition time_moves_forward (out : Outside) (video_id : Py.value) : Prop :=
  (forall n latency r,
     on_get out n (status_url video_id) = Answered latency r -> (0 <= latency)%Q) /\
  (forall n, (0 <= oversleep out n)%Q).

(** An answer to the creation request that carries the job [video_id]. *)
Definition created_with (video_id : Py.value) (r : Response) : Prop :=
  (status_code r = 200 \/ status_code r = 201) /\
  exists d, json r = inr (Py.VDict d) /\
    Py.lookup "id" d = Some video_id /\ Py.truthy video_id = true.

(** What [generate_video] makes of the way the wait ended. *)
Definition surfaced (waited : result Py.value) : result VideoResponse -> Prop :=
  fun res =>
    match waited with
    | Raise (HTTPException sc d) => res = Raise (HTTPException sc d)
    | Raise (Exception t) =>
        res = Raise (HTTPException 500 ("Error generating video: " +:+ t))
    | OutOfFuel => res = OutOfFuel
    | Return _ => True
    end.

(** [ended out id max_wait h start w1 res w']: the last iteration of the
    loop, started in [w1], gives [res] and leaves the world [w']. *)
Inductive ended (out : Outside) (video_id : Py.value) (max_wait : Z)
    (h : headers_t) (start : Q) (w1 : World) : result Py.value -> World -> Prop :=
| ended_timeout :
    (inject_Z max_wait <= clock w1 - start)%Q ->
    ended out video_id max_wait h start w1
      (Raise (HTTPException 408 "Video generation timeout")) w1
| ended_transport latency msg :
    (clock w1 - start < inject_Z max_wait)%Q ->
    on_get out (length (trace w1)) (status_url video_id) = Failed latency msg ->
    ended out video_id max_wait h start w1
      (Raise (Exception msg)) (after_poll video_id h latency w1)
| ended_download latency r d res w' :
    (clock w1 - start < inject_Z max_wait)%Q ->
    on_get out (length (trace w1)) (status_url video_id) = Answered latency r ->
    completed r = true ->
    json r = inr (Py.VDict d) ->
    download out video_id (Py.VDict d) h (after_poll video_id h latency w1) = (res, w') ->
    ended out video_id max_wait h start w1 res w'
| ended_stop latency r e :
    (clock w1 - start < inject_Z max_wait)%Q ->
    on_get out (length (trace w1)) (status_url video_id) = Answered latency r ->
    pending r = false ->
    completed r = false ->
    ended out video_id max_wait h start w1
      (Raise e) (after_poll video_id h latency w1).

(** A name without a slash. *)
Definition plain (s : string) : bool := negb (Py.contains "/"%char s).

(** The [HTTPException]s the poller raises: status and detail. *)
Inductive poller_error : Z -> string -> Prop :=
| poller_timeout :
    poller_error 408 "Video generation timeout"
| poller_poll_refused sc body :
    sc <> 200 ->
    poller_error sc ("Failed to check video status: " +:+ body)
| poller_job_failed reason :
    poller_error 500 ("Video generation failed: " +:+ reason)
| poller_content_refused sc body :
    sc <> 200 ->
    poller_error sc ("Failed to download video content: " +:+ body).

(** The [HTTPException]s [generate_video] raises. *)
Inductive handler_error : Z -> string -> Prop :=
| handler_no_key :
    handler_error 500 "OPENAI_API_KEY not configured. Please set it in .env file"
| handler_creation_refused sc reason :
    sc <> 200 -> sc <> 201 ->
    handler_error sc ("Failed to create video: " +:+ reason)
| handler_no_id :
    handler_error 500 "No video ID returned"
| handler_poller sc detail :
    poller_error sc detail -> handler_error sc detail
| handler_other text :
    handler_error 500 ("Error generating video: " +:+ text).


(* ===================================================================== *)
(** * Traces only grow *)
(* ===================================================================== *)

Lemma grows_refl w : grows w w.
Proof. split; [reflexivity | exists []; symmetry; apply app_nil_r]. Qed.

Lemma grows_trans w1 w2 w3 : grows w1 w2 -> grows w2 w3 -> grows w1 w3.
Proof.
  intros [Hc1 [e1 H1]] [Hc2 [e2 H2]]. split; [congruence |].
  exists (e1 ++ e2). rewrite H2, H1. symmetry; apply app_assoc.
Qed.

Lemma grows_tick dt e w : grows w (tick dt e w).
Proof. split; [reflexivity | exists [e]; reflexivity]. Qed.

Lemma grows_with_fs t w : grows w (with_fs t w).
Proof. split; [reflexivity | exists []; symmetry; apply app_nil_r]. Qed.

Lemma appends_ret {A} (a : A) : appends (ret a).
Proof. intros w; apply grows_refl. Qed.

Lemma appends_raise {A} (e : exn) : appends (@raise A e).
Proof. intros w; apply grows_refl. Qed.

Lemma appends_bind {A B} (m : M A) (k : A -> M B) :
  appends m -> (forall a, appends (k a)) -> appends (bind m k).
Proof.
  intros Hm Hk w. unfold bind. specialize (Hm w).
  destruct (m w) as [[a | e | ] w1]; simpl in *; try assumption.
  eapply grows_trans; [eassumption | apply Hk].
Qed.

Lemma appends_try_except {A} (m : M A) (h : exn -> M A) :
  appends m -> (forall e, appends (h e)) -> appends (try_except m h).
Proof.
  intros Hm Hh w. unfold try_except. specialize (Hm w).
  destruct (m w) as [[a | e | ] w1]; simpl in *; try assumption.
  eapply grows_trans; [eassumption | apply Hh].
Qed.

Lemma appends_settle {A} e (r : reply A) w : grows w (snd (settle e r w)).
Proof. destruct r; apply grows_tick. Qed.

Lemma appends_time_time : appends time_time.
Proof. intros w; apply grows_refl. Qed.

Lemma appends_client_get out url h : appends (client_get out url h).
Proof. intros w; apply appends_settle. Qed.

Lemma appends_client_post out url h b : appends (client_post out url h b).
Proof. intros w; apply appends_settle. Qed.

Lemma appends_client_stream out url h : appends (client_stream out url h).
Proof. intros w; apply appends_settle. Qed.

Lemma appends_asyncio_sleep out d : appends (asyncio_sleep out d).
Proof. intros w; apply grows_tick. Qed.

Lemma appends_response_json r : appends (response_json r).
Proof. unfold response_json; destruct (json r); [apply appends_raise | apply appends_ret]. Qed.

Lemma appends_py_get v k d : appends (py_get v k d).
Proof. destruct v; simpl; first [apply appends_raise | apply appends_ret]. Qed.

Lemma appends_py_setitem v k x : appends (py_setitem v k x).
Proof. destruct v; simpl; first [apply appends_raise | apply appends_ret]. Qed.

Lemma appends_open_wb s : appends (open_wb s).
Proof.
  intros w. unfold open_wb.
  destruct (Fs.open_wb (fs w) (cwd w) s) as [e | [key t]]; simpl;
    [apply grows_refl | apply grows_with_fs].
Qed.

Lemma appends_f_write f data : appends (f_write f data).
Proof. intros w; apply grows_with_fs. Qed.

Create HintDb appends discriminated.
#[export] Hint Resolve appends_ret appends_raise appends_time_time appends_client_get
  appends_client_post appends_client_stream appends_asyncio_sleep
  appends_response_json appends_py_get appends_py_setitem appends_open_wb
  appends_f_write : appends.

(** Splits an [appends] goal along the structure of the computation. *)
Ltac appends_step :=
  match goal with
  | |- appends (bind _ _) => apply appends_bind; [| intros ?]
  | |- appends (try_except _ _) => apply appends_try_except; [| intros ?]
  | |- appends (if ?b then _ else _) => destruct b
  | |- appends (match ?x with _ => _ end) => destruct x
  | |- appends _ => solve [auto with appends]
  end.

Lemma appends_save_chunks f chunks total : appends (save_chunks f chunks total).
Proof.
  revert total; induction chunks as [| chunk rest IH]; intros total; simpl.
  - apply appends_ret.
  - destruct chunk; [apply IH |].
    apply appends_bind; [apply appends_f_write | intros _; apply IH].
Qed.
#[export] Hint Resolve appends_save_chunks : appends.

Lemma appends_download out video_id video_data h :
  appends (download out video_id video_data h).
Proof. unfold download. repeat appends_step. Qed.
#[export] Hint Resolve appends_download : appends.

Lemma appends_poll_loop out fuel video_id max_wait h start :
  appends (poll_loop out fuel video_id max_wait h start).
Proof.
  induction fuel as [| fuel IH]; simpl.
  - intros w; apply grows_refl.
  - repeat appends_step.
Qed.
#[export] Hint Resolve appends_poll_loop : appends.

Lemma appends_wait_for_video_completion key out fuel video_id max_wait :
  appends (wait_for_video_completion key out fuel video_id max_wait).
Proof. unfold wait_for_video_completion. repeat appends_step. Qed.
#[export] Hint Resolve appends_wait_for_video_completion : appends.

Lemma new_events_exact w w' evs :
  trace w' = trace w ++ evs -> new_events w w' = evs.
Proof. intros H. unfold new_events. rewrite H. apply drop_app_length. Qed.

Lemma new_events_self w : new_events w w = [].
Proof. apply new_events_exact. symmetry; apply app_nil_r. Qed.

(** The events of a run that went through the world [w1]. *)
Lemma new_events_via w w1 w' :
  grows w w1 -> grows w1 w' ->
  new_events w w' = new_events w w1 ++ new_events w1 w'.
Proof.
  intros [_ [e1 H1]] [_ [e2 H2]].
  rewrite (new_events_exact w w1 e1 H1), (new_events_exact w1 w' e2 H2).
  apply new_events_exact. rewrite H2, H1. symmetry; apply app_assoc.
Qed.

Lemma appends_snd {A} (m : M A) w r w' : appends m -> m w = (r, w') -> grows w w'.
Proof. intros Hm E. specialize (Hm w). rewrite E in Hm. exact Hm. Qed.

(* ===================================================================== *)
(** * The job submitter: [generate_video] *)
(* ===================================================================== *)

Lemma appends_generate_video_try key out fuel request :
  appends (generate_video_try key out fuel request).
Proof. unfold generate_video_try. repeat appends_step. Qed.

(** The handler of the outer [try] re-raises: it leaves the world alone. *)
Lemma generate_video_world key out fuel request w :
  snd (generate_video key out fuel request w) =
  snd (generate_video_try key out fuel request w).
Proof.
  unfold generate_video, try_except.
  destruct (generate_video_try key out fuel request w) as [[a | [sc d | t] | ] w1];
    reflexivity.
Qed.

(** When [m] adds exactly the event [e], [m] followed by anything that
    only appends starts the new events with [e]. *)
Lemma bind_first_event {A B} (m : M A) (k : A -> M B) w e :
  (forall a, appends (k a)) ->
  trace (snd (m w)) = trace w ++ [e] ->
  exists rest, trace (snd (bind m k w)) = trace w ++ e :: rest.
Proof.
  intros Hk Hm. unfold bind.
  destruct (m w) as [[a | x | ] w1]; simpl in *;
    try (exists []; assumption).
  destruct (Hk a w1) as [_ [evs Hevs]].
  exists evs. rewrite Hevs, Hm, <- app_assoc. reflexivity.
Qed.

Lemma client_post_event out url h b w :
  trace (snd (client_post out url h b w)) = trace w ++ [EvPost url h b].
Proof. unfold client_post, settle. destruct (on_post _ _ _ _); reflexivity. Qed.

(** With a key configured, the first thing [generate_video] does to the
    outside is the POST of [payload_of request]. *)
Lemma generate_video_posts key out fuel request w :
  key_missing key = false ->
  exists rest,
    trace (snd (generate_video key out fuel request w)) =
    trace w ++ EvPost create_url (create_headers key) (Py.VDict (payload_of request)) :: rest.
Proof.
  intros Hkey. rewrite generate_video_world.
  unfold generate_video_try. rewrite Hkey.
  apply bind_first_event; [| apply client_post_event].
  intros response. repeat appends_step.
Qed.

Lemma payload_of_nonzero request :
  duration request <> 0 ->
  payload_of request =
    [("model", Py.VStr (model request));
     ("prompt", Py.VStr (prompt request));
     ("size", Py.VStr (size request));
     ("seconds", Py.VStr (Py.str_int (duration request)))].
Proof.
  intros Hd. unfold payload_of.
  destruct (Z.eqb_spec (duration request) 0) as [E | _]; [contradiction | reflexivity].
Qed.

Lemma payload_of_zero request :
  duration request = 0 ->
  payload_of request =
    [("model", Py.VStr (model request));
     ("prompt", Py.VStr (prompt request));
     ("size", Py.VStr (size request))].
Proof. intros Hd. unfold payload_of. rewrite Hd. reflexivity. Qed.

(** C5: for a supported size and a duration of 4, 8 or 12 seconds, the
    body [generate_video] posts upstream holds exactly the request's
    model, prompt and size, and under the key ["seconds"] the duration as
    a string: ["4"] for 4, ["8"] for 8 and ["12"] for 12. *)
Theorem generate_video_payload_supported key out fuel request w :
  key_missing key = false ->
  In (size request) supported_sizes ->
  In (duration request) supported_durations ->
  exists seconds rest,
    In (duration request, seconds) [(4, "4"); (8, "8"); (12, "12")] /\
    trace (snd (generate_video key out fuel request w)) =
      trace w ++
      EvPost create_url (create_headers key)
        (Py.VDict [("model", Py.VStr (model request));
                   ("prompt", Py.VStr (prompt request));
                   ("size", Py.VStr (size request));
                   ("seconds", Py.VStr seconds)]) :: rest.
Proof.
  intros Hkey _ Hd.
  destruct (generate_video_posts key out fuel request w Hkey) as [rest Hrest].
  exists (Py.str_int (duration request)), rest. split.
  - simpl in Hd. destruct Hd as [<- | [<- | [<- | []]]]; vm_compute; auto.
  - rewrite Hrest, payload_of_nonzero; [reflexivity |].
    simpl in Hd. lia.
Qed.

Lemma generate_video_payload_supported_witness :
  exists seconds rest,
    In (8, seconds) [(4, "4"); (8, "8"); (12, "12")] /\
    trace (snd (generate_video Sample.key (Sample.upstream Sample.done) 5
                  Sample.request Sample.world)) =
      trace Sample.world ++
      EvPost create_url (create_headers Sample.key)
        (Py.VDict [("model", Py.VStr "sora-2");
                   ("prompt", Py.VStr "a cat on a table");
                   ("size", Py.VStr "720x1280");
                   ("seconds", Py.VStr seconds)]) :: rest.
Proof.
  apply (generate_video_payload_supported Sample.key (Sample.upstream Sample.done) 5%nat
           Sample.request Sample.world).
  - reflexivity.
  - simpl; auto.
  - simpl; auto.
Defined.

(** C7: without a configured credential, [generate_video] fails with the
    configuration error, status 500, and the world is as it was: no
    request was sent. *)
Theorem generate_video_without_key key out fuel request w :
  key_missing key = true ->
  generate_video key out fuel request w =
    (Raise (HTTPException 500
              "OPENAI_API_KEY not configured. Please set it in .env file"), w)
  /\ trace (snd (generate_video key out fuel request w)) = trace w.
Proof.
  intros Hkey.
  assert (E : generate_video key out fuel request w =
              (Raise (HTTPException 500
                 "OPENAI_API_KEY not configured. Please set it in .env file"), w)).
  { unfold generate_video, try_except, generate_video_try. rewrite Hkey. reflexivity. }
  rewrite E. split; reflexivity.
Qed.

Lemma generate_video_without_key_witness :
  generate_video None Sample.stuck 5 Sample.request Sample.world =
    (Raise (HTTPException 500
              "OPENAI_API_KEY not configured. Please set it in .env file"), Sample.world)
  /\ trace (snd (generate_video None Sample.stuck 5 Sample.request Sample.world)) =
     trace Sample.world.
Proof.
  apply (generate_video_without_key None Sample.stuck 5%nat Sample.request Sample.world).
  reflexivity.
Defined.

Lemma payload_seconds request :
  Py.lookup "seconds" (payload_of request) =
  if duration request =? 0 then None
  else Some (Py.VStr (Py.str_int (duration request))).
Proof.
  unfold payload_of. destruct (duration request =? 0); reflexivity.
Qed.

(** C10: the posted body has the key ["seconds"] exactly when the
    duration is not zero; for a duration of zero the body is the model,
    the prompt and the size, and nothing else. *)
Theorem generate_video_seconds_omitted key out fuel request w :
  key_missing key = false ->
  exists body rest,
    trace (snd (generate_video key out fuel request w)) =
      trace w ++ EvPost create_url (create_headers key) (Py.VDict body) :: rest
    /\ (Py.lookup "seconds" body = None <-> duration request = 0)
    /\ (duration request = 0 ->
        body = [("model", Py.VStr (model request));
                ("prompt", Py.VStr (prompt request));
                ("size", Py.VStr (size request))])
    /\ (duration request <> 0 ->
        Py.lookup "seconds" body = Some (Py.VStr (Py.str_int (duration request)))).
Proof.
  intros Hkey.
  destruct (generate_video_posts key out fuel request w Hkey) as [rest Hrest].
  exists (payload_of request), rest.
  split; [exact Hrest |].
  rewrite payload_seconds.
  destruct (Z.eqb_spec (duration request) 0) as [E | E].
  - repeat split; auto; try contradiction. intros _. apply payload_of_zero, E.
  - repeat split; auto; try contradiction; try discriminate.
Qed.

Lemma generate_video_seconds_omitted_witness :
  exists body rest,
    trace (snd (generate_video Sample.key (Sample.upstream Sample.done) 5
                  {| prompt := "a cat"; model := "sora-2"; size := "720x1280";
                     duration := 0 |} Sample.world)) =
      trace Sample.world ++
      EvPost create_url (create_headers Sample.key) (Py.VDict body) :: rest
    /\ (Py.lookup "seconds" body = None <-> 0 = 0)
    /\ (0 = 0 ->
        body = [("model", Py.VStr "sora-2");
                ("prompt", Py.VStr "a cat");
                ("size", Py.VStr "720x1280")])
    /\ (0 <> 0 -> Py.lookup "seconds" body = Some (Py.VStr (Py.str_int 0))).
Proof.
  apply (generate_video_seconds_omitted Sample.key (Sample.upstream Sample.done) 5%nat
           {| prompt := "a cat"; model := "sora-2"; size := "720x1280"; duration := 0 |}
           Sample.world).
  reflexivity.
Defined.

(* ===================================================================== *)
(** * The completion poller: one iteration of the loop *)
(* ===================================================================== *)

Lemma poll_loop_unfold out fuel video_id max_wait h start w :
  poll_loop out (S fuel) video_id max_wait h start w =
  if Qlt_le_dec (clock w - start) (inject_Z max_wait) then
    bind (client_get out (status_url video_id) h)
      (fun response =>
         if negb (status_code response =? 200) then
           raise (HTTPException (status_code response)
                    ("Failed to check video status: " +:+ text response))
         else
           video_data <- response_json response ;;
           status <- py_get video_data "status" Py.VNone ;;
           if eq_str status "completed" then download out video_id video_data h
           else if eq_str status "failed" then
             error_obj <- py_get video_data "error" (Py.VDict []) ;;
             error <- py_get error_obj "message" (Py.VStr "Unknown error") ;;
             raise (HTTPException 500 ("Video generation failed: " +:+ Py.str error))
           else
             now <- time_time ;;
             asyncio_sleep out (poll_delay start now) ;;;
             poll_loop out fuel video_id max_wait h start) w
  else (Raise (HTTPException 408 "Video generation timeout"), w).
Proof.
  simpl. unfold bind at 1. unfold time_time at 1.
  destruct (Qlt_le_dec (clock w - start) (inject_Z max_wait)); reflexivity.
Qed.

(** The budget is spent: the loop is left and the timeout raised. *)
Lemma poll_loop_timeout out fuel video_id max_wait h start w :
  (inject_Z max_wait <= clock w - start)%Q ->
  poll_loop out (S fuel) video_id max_wait h start w =
    (Raise (HTTPException 408 "Video generation timeout"), w).
Proof.
  intros Hle. rewrite poll_loop_unfold.
  destruct (Qlt_le_dec (clock w - start) (inject_Z max_wait)) as [Hlt | _];
    [lra | reflexivity].
Qed.

(** The request itself fails. *)
Lemma poll_loop_transport out fuel video_id max_wait h start w latency msg :
  (clock w - start < inject_Z max_wait)%Q ->
  on_get out (length (trace w)) (status_url video_id) = Failed latency msg ->
  poll_loop out (S fuel) video_id max_wait h start w =
    (Raise (Exception msg), after_poll video_id h latency w).
Proof.
  intros Hlt Hget. rewrite poll_loop_unfold.
  destruct (Qlt_le_dec (clock w - start) (inject_Z max_wait)) as [_ | Hle]; [| lra].
  unfold bind, client_get. rewrite Hget. reflexivity.
Qed.

(** The job is still running: sleep, then go round again. *)
Lemma poll_loop_pending out fuel video_id max_wait h start w latency r :
  (clock w - start < inject_Z max_wait)%Q ->
  on_get out (length (trace w)) (status_url video_id) = Answered latency r ->
  pending r = true ->
  poll_loop out (S fuel) video_id max_wait h start w =
  poll_loop out fuel video_id max_wait h start
    (after_sleep out (poll_delay start (clock w + latency))
       (after_poll video_id h latency w)).
Proof.
  intros Hlt Hget Hp. rewrite poll_loop_unfold.
  destruct (Qlt_le_dec (clock w - start) (inject_Z max_wait)) as [_ | Hle]; [| lra].
  unfold bind at 1. unfold client_get. rewrite Hget. simpl settle. cbv iota beta.
  unfold pending, polled_status in Hp.
  destruct (status_code r =? 200); [| discriminate]. simpl negb. cbv iota.
  unfold response_json.
  destruct (json r) as [msg | [ | | | | | d]]; try discriminate.
  unfold bind at 1. unfold ret at 1. cbv iota beta.
  unfold bind at 1. unfold py_get at 1, ret at 1. cbv iota beta.
  apply andb_prop in Hp as [Hc Hf].
  apply negb_true_iff in Hc, Hf. rewrite Hc, Hf.
  reflexivity.
Qed.

(** The job has completed: the download follows at once. *)
Lemma poll_loop_completed out fuel video_id max_wait h start w latency r :
  (clock w - start < inject_Z max_wait)%Q ->
  on_get out (length (trace w)) (status_url video_id) = Answered latency r ->
  completed r = true ->
  exists d, json r = inr (Py.VDict d) /\
    poll_loop out (S fuel) video_id max_wait h start w =
    download out video_id (Py.VDict d) h (after_poll video_id h latency w).
Proof.
  intros Hlt Hget Hp. rewrite poll_loop_unfold.
  destruct (Qlt_le_dec (clock w - start) (inject_Z max_wait)) as [_ | Hle]; [| lra].
  unfold bind at 1. unfold client_get. rewrite Hget. simpl settle. cbv iota beta.
  unfold completed, polled_status in Hp.
  destruct (status_code r =? 200); [| discriminate]. simpl negb. cbv iota.
  unfold response_json.
  destruct (json r) as [msg | [ | | | | | d]]; try discriminate.
  exists d. split; [reflexivity |].
  unfold bind at 1. unfold ret at 1. cbv iota beta.
  unfold bind at 1. unfold py_get at 1, ret at 1. cbv iota beta.
  rewrite Hp. reflexivity.
Qed.

(** Any other answer ends the run with an exception, right after the
    poll; for a failed job it is the 500 that carries the job's message. *)
Lemma poll_loop_stops out fuel video_id max_wait h start w latency r :
  (clock w - start < inject_Z max_wait)%Q ->
  on_get out (length (trace w)) (status_url video_id) = Answered latency r ->
  pending r = false ->
  completed r = false ->
  exists e,
    poll_loop out (S fuel) video_id max_wait h start w =
      (Raise e, after_poll video_id h latency w) /\
    forall m, failed_with m r ->
      e = HTTPException 500 ("Video generation failed: " +:+ m).
Proof.
  intros Hlt Hget Hp Hc. rewrite poll_loop_unfold.
  destruct (Qlt_le_dec (clock w - start) (inject_Z max_wait)) as [_ | Hle]; [| lra].
  unfold bind at 1. unfold client_get. rewrite Hget. simpl settle. cbv iota beta.
  unfold pending, completed, polled_status in Hp, Hc.
  destruct (Z.eqb_spec (status_code r) 200) as [E200 | N200]; simpl negb; cbv iota.
  2:{ eexists; split; [reflexivity |]. intros m [H200 _]. contradiction. }
  unfold response_json.
  destruct (json r) as [msg | v] eqn:Ej.
  { eexists; split; [reflexivity |].
    intros m (_ & d & e & Hd & _). congruence. }
  unfold bind at 1. unfold ret at 1. cbv iota beta.
  destruct v as [ | | | | | d];
    try (eexists; split; [reflexivity |];
         intros m (_ & d' & e & Hd & _); congruence).
  unfold bind at 1. unfold py_get at 1, ret at 1. cbv iota beta.
  rewrite Hc in *. simpl in Hp. apply negb_false_iff in Hp. rewrite Hp.
  destruct (Py.lookup "error" d) as [err |] eqn:Eerr.
  - unfold bind at 1. unfold py_get at 1, ret at 1. rewrite Eerr. cbv iota beta.
    destruct err as [ | | | | | e];
      try (eexists; split; [reflexivity |];
           intros m (_ & d' & e' & Hd & _ & He & _); congruence).
    unfold bind at 1. unfold py_get at 1, ret at 1. cbv iota beta.
    eexists; split; [reflexivity |].
    intros m (_ & d' & e' & Hd & _ & He & Hm).
    assert (d' = d) by congruence; subst d'.
    assert (e' = e) by congruence; subst e'.
    rewrite Hm. reflexivity.
  - unfold bind at 1. unfold py_get at 1, ret at 1. rewrite Eerr. cbv iota beta.
    unfold bind at 1. unfold py_get at 1, ret at 1. cbv iota beta.
    eexists; split; [reflexivity |].
    intros m (_ & d' & e' & Hd & _ & He & _). congruence.
Qed.

Lemma failed_not_pending m r : failed_with m r -> pending r = false.
Proof.
  intros (H200 & d & e & Hd & Hs & _).
  unfold pending, polled_status. rewrite H200, Hd, Hs. reflexivity.
Qed.

Lemma failed_not_completed m r : failed_with m r -> completed r = false.
Proof.
  intros (H200 & d & e & Hd & Hs & _).
  unfold completed, polled_status. rewrite H200, Hd, Hs. reflexivity.
Qed.

Lemma pending_not_completed r : pending r = true -> completed r = false.
Proof.
  unfold pending, completed. destruct (polled_status r); [| reflexivity].
  intros H. apply andb_prop in H as [H _]. apply negb_true_iff, H.
Qed.

(** Saving the chunks always succeeds, and touches the disk only. *)
Lemma save_chunks_returns f chunks total w :
  exists n t, save_chunks f chunks total w = (Return n, with_fs t w).
Proof.
  revert total w; induction chunks as [| c rest IH]; intros total w; simpl.
  - exists total, (fs w). destruct w; reflexivity.
  - destruct c as [| b c]; [apply IH |].
    unfold bind, f_write.
    destruct (IH (total + Z.of_nat (length (b :: c)))
                 (with_fs (Fs.write (fs w) f (b :: c)) w)) as (n & t & E).
    exists n, t. rewrite E. reflexivity.
Qed.

(** The download adds one event, the streamed GET of the content, however
    it ends. *)
Lemma download_trace out video_id video_data h w :
  trace (snd (download out video_id video_data h w)) =
  trace w ++ [EvStream (content_url video_id) h].
Proof.
  unfold download. unfold bind at 1. unfold client_stream.
  fold (content_url video_id).
  destruct (on_stream out (length (trace w)) (content_url video_id))
    as [latency r | latency msg]; simpl settle; cbv iota beta; [| reflexivity].
  set (w1 := tick latency (EvStream (content_url video_id) h) w).
  change (trace w ++ [EvStream (content_url video_id) h]) with (trace w1).
  generalize w1; clear; intros w.
  destruct (stream_status_code r =? 200).
  - unfold bind at 1. unfold open_wb.
    destruct (Fs.open_wb (fs w) (cwd w) _) as [e | [key t]]; [reflexivity |].
    cbv iota beta. unfold bind at 1.
    destruct (save_chunks_returns key (aiter_bytes r 8192) 0 (with_fs t w))
      as (n & t' & E).
    rewrite E. cbv iota beta.
    destruct (abort r); [reflexivity |].
    destruct video_data; reflexivity.
  - destruct (decoded r); reflexivity.
Qed.

(* ===================================================================== *)
(** * The poll interval *)
(* ===================================================================== *)

(** [lra] reads a division by 30 once it is a product. *)
Ltac by_thirty := unfold Qdiv in *; change (/ 30)%Q with (1 # 30)%Q in *.

Lemma poll_delay_bounds start now :
  (0 <= now - start)%Q -> (1 <= poll_delay start now <= 5)%Q.
Proof.
  intros H. unfold poll_delay. split.
  - apply Q.min_glb; by_thirty; lra.
  - apply Q.le_min_l.
Qed.

Lemma poll_delay_linear start now :
  (now - start <= 120)%Q -> (poll_delay start now == 1 + (now - start) / 30)%Q.
Proof. intros H. unfold poll_delay. apply Q.min_r. by_thirty. lra. Qed.

Lemma poll_delay_capped start now :
  (120 <= now - start)%Q -> poll_delay start now = 5%Q.
Proof.
  intros H. unfold poll_delay, Qmin, GenericMinMax.gmin.
  destruct (5 ?= 1 + (now - start) / 30)%Q eqn:E; try reflexivity.
  apply Qgt_alt in E. by_thirty. lra.
Qed.

Lemma wait_for_video_completion_unfold key out fuel video_id max_wait w :
  wait_for_video_completion key out fuel video_id max_wait w =
  poll_loop out fuel video_id max_wait (poll_headers key) (clock w) w.
Proof. reflexivity. Qed.

(** C1: [wait_for_video_completion] is its loop run from the clock
    reading at the call, and in an iteration of that loop whose poll
    reports a job that is neither completed nor failed, the loop sleeps
    for min(5, 1 + elapsed/30) seconds and goes round again, [elapsed]
    being the clock reading after the poll minus the reading taken when
    polling started. The delay is linear in [elapsed] up to 120 seconds
    and constant from there: it is not exponential. *)
Theorem poll_delay_linear_capped key out fuel video_id max_wait start w latency r :
  let h := poll_headers key in
  (clock w - start < inject_Z max_wait)%Q ->
  on_get out (length (trace w)) (status_url video_id) = Answered latency r ->
  pending r = true ->
  let elapsed := (clock w + latency - start)%Q in
  let delay := Qmin 5 (1 + elapsed / 30) in
  (forall w0,
     wait_for_video_completion key out (S fuel) video_id max_wait w0 =
     poll_loop out (S fuel) video_id max_wait h (clock w0) w0)
  /\ poll_loop out (S fuel) video_id max_wait h start w =
    poll_loop out fuel video_id max_wait h start
      (after_sleep out delay (after_poll video_id h latency w))
  /\ trace (after_sleep out delay (after_poll video_id h latency w)) =
       trace w ++ [EvGet (status_url video_id) h; EvSleep delay]
  /\ ((elapsed <= 120)%Q -> (delay == 1 + elapsed / 30)%Q)
  /\ ((120 <= elapsed)%Q -> delay = 5%Q).
Proof.
  intros h Hlt Hget Hp elapsed delay. repeat split.
  - apply (poll_loop_pending out fuel video_id max_wait h start w latency r);
      assumption.
  - simpl. rewrite <- app_assoc. reflexivity.
  - apply (poll_delay_linear start (clock w + latency)).
  - apply (poll_delay_capped start (clock w + latency)).
Qed.

Lemma poll_delay_linear_capped_witness :
  let h := poll_headers Sample.key in
  let elapsed := (clock Sample.world + (1 # 2) - 0)%Q in
  let delay := Qmin 5 (1 + elapsed / 30) in
  (forall w0,
     wait_for_video_completion Sample.key Sample.stuck 1 Sample.video_1 600 w0 =
     poll_loop Sample.stuck 1 Sample.video_1 600 h (clock w0) w0)
  /\ poll_loop Sample.stuck 1 Sample.video_1 600 h 0 Sample.world =
    poll_loop Sample.stuck 0 Sample.video_1 600 h 0
      (after_sleep Sample.stuck delay (after_poll Sample.video_1 h (1 # 2) Sample.world))
  /\ trace (after_sleep Sample.stuck delay
              (after_poll Sample.video_1 h (1 # 2) Sample.world)) =
       trace Sample.world ++ [EvGet (status_url Sample.video_1) h; EvSleep delay]
  /\ ((elapsed <= 120)%Q -> (delay == 1 + elapsed / 30)%Q)
  /\ ((120 <= elapsed)%Q -> delay = 5%Q).
Proof.
  apply (poll_delay_linear_capped Sample.key Sample.stuck 0%nat Sample.video_1 600
           0%Q Sample.world (1 # 2) Sample.queued).
  - reflexivity.
  - reflexivity.
  - reflexivity.
Defined.

(* ===================================================================== *)
(** * The wait budget *)
(* ===================================================================== *)

Section Budget.

Variable out : Outside.
Variable video_id : Py.value.
Variable max_wait : Z.
Variable h : headers_t.
Variable start : Q.

(** [L] bounds how long a poll takes, [J] by how much a sleep overruns. *)
Variables L J : Q.

Hypothesis every_poll_pending :
  forall n, exists latency r,
    on_get out n (status_url video_id) = Answered latency r /\
    pending r = true /\ (0 <= latency <= L)%Q.

Hypothesis sleeps_nearly_exact : forall n, (0 <= oversleep out n <= J)%Q.

(** With fuel for the iterations that are left, the loop ends in the
    timeout, raised once the budget is reached and before it is exceeded
    by more than one poll and one sleep. *)
Lemma poll_loop_times_out fuel :
  forall w,
    (0 <= clock w - start)%Q ->
    (clock w - start < inject_Z max_wait + (L + 5 + J))%Q ->
    (inject_Z max_wait - (clock w - start) + 1 <= inject_Z (Z.of_nat fuel))%Q ->
    (1 <= fuel)%nat ->
    exists w',
      poll_loop out fuel video_id max_wait h start w =
        (Raise (HTTPException 408 "Video generation timeout"), w') /\
      (inject_Z max_wait <= clock w' - start)%Q /\
      (clock w' - start < inject_Z max_wait + (L + 5 + J))%Q /\
      Forall (fun e => is_stream e = false) (new_events w w').
Proof using every_poll_pending sleeps_nearly_exact.
  induction fuel as [| fuel IH]; intros w H0 Hup Hfuel H1; [lia |].
  destruct (Qlt_le_dec (clock w - start) (inject_Z max_wait)) as [Hlt | Hle].
  - destruct (every_poll_pending (length (trace w))) as (latency & r & Hget & Hp & Hl).
    rewrite (poll_loop_pending out fuel video_id max_wait h start w latency r Hlt Hget Hp).
    set (w1 := after_poll video_id h latency w).
    set (d := poll_delay start (clock w + latency)).
    assert (Hd : (1 <= d <= 5)%Q) by (apply poll_delay_bounds; lra).
    assert (Hmax : (Qmax 0 d == d)%Q) by (apply Q.max_r; lra).
    pose proof (sleeps_nearly_exact (length (trace w1))) as Ho.
    assert (Hclock : (clock (after_sleep out d w1)
                      == clock w + latency + d + oversleep out (length (trace w1)))%Q).
    { simpl. rewrite Hmax. ring. }
    assert (Hsucc : (inject_Z (Z.of_nat (S fuel)) == inject_Z (Z.of_nat fuel) + 1)%Q).
    { rewrite Nat2Z.inj_succ. unfold Z.succ. rewrite inject_Z_plus. reflexivity. }
    destruct (IH (after_sleep out d w1)) as (w' & Hrun & Hlo & Hhi & Hev).
    + rewrite Hclock. lra.
    + rewrite Hclock. lra.
    + rewrite Hclock. lra.
    + destruct fuel; [exfalso | lia].
      rewrite Hsucc in Hfuel. change (inject_Z (Z.of_nat 0)) with 0%Q in Hfuel. lra.
    + exists w'. repeat split; try assumption.
      rewrite (new_events_via w (after_sleep out d w1) w').
      * rewrite (new_events_exact w (after_sleep out d w1)
                   [EvGet (status_url video_id) h; EvSleep d])
          by (simpl; rewrite <- app_assoc; reflexivity).
        repeat constructor. exact Hev.
      * eapply grows_trans; apply grows_tick.
      * eapply appends_snd; [apply appends_poll_loop | exact Hrun].
  - exists w. rewrite (poll_loop_timeout out fuel video_id max_wait h start w Hle).
    repeat split; try assumption.
    rewrite new_events_self. constructor.
Qed.

End Budget.

(** C2: when every poll reports a job that is neither completed nor
    failed, [wait_for_video_completion] raises the 408 timeout, whatever
    the fuel beyond [max_wait] iterations. It does so no earlier than
    [max_wait] seconds after polling started, and less than one poll
    ([L]), one sleep (5 seconds) and one overrun ([J]) later than that. No
    download is attempted. *)
Theorem wait_for_video_completion_timeout key out fuel video_id max_wait L J w :
  0 <= max_wait ->
  (forall n, exists latency r,
      on_get out n (status_url video_id) = Answered latency r /\
      pending r = true /\ (0 <= latency <= L)%Q) ->
  (forall n, (0 <= oversleep out n <= J)%Q) ->
  (Z.to_nat max_wait < fuel)%nat ->
  exists w',
    wait_for_video_completion key out fuel video_id max_wait w =
      (Raise (HTTPException 408 "Video generation timeout"), w') /\
    (inject_Z max_wait <= clock w' - clock w)%Q /\
    (clock w' - clock w < inject_Z max_wait + (L + 5 + J))%Q /\
    Forall (fun e => is_stream e = false) (new_events w w').
Proof.
  intros Hmax Hpoll Hsleep Hfuel.
  rewrite wait_for_video_completion_unfold.
  destruct (Hpoll 0%nat) as (l0 & _ & _ & _ & Hl0).
  pose proof (Hsleep 0%nat) as Hj0.
  assert (Hbudget : (0 <= inject_Z max_wait)%Q).
  { change 0%Q with (inject_Z 0). rewrite <- Zle_Qle. exact Hmax. }
  assert (Hf : (inject_Z max_wait + 1 <= inject_Z (Z.of_nat fuel))%Q).
  { change 1%Q with (inject_Z 1). rewrite <- inject_Z_plus, <- Zle_Qle. lia. }
  apply (poll_loop_times_out out video_id max_wait (poll_headers key) (clock w) L J
           Hpoll Hsleep fuel w).
  - lra.
  - lra.
  - lra.
  - lia.
Qed.

Lemma wait_for_video_completion_timeout_witness :
  exists w',
    wait_for_video_completion Sample.key Sample.stuck 3 Sample.video_1 2 Sample.world =
      (Raise (HTTPException 408 "Video generation timeout"), w') /\
    (inject_Z 2 <= clock w' - clock Sample.world)%Q /\
    (clock w' - clock Sample.world < inject_Z 2 + ((1 # 2) + 5 + 0))%Q /\
    Forall (fun e => is_stream e = false) (new_events Sample.world w').
Proof.
  apply (wait_for_video_completion_timeout Sample.key Sample.stuck 3%nat
           Sample.video_1 2 (1 # 2) 0 Sample.world).
  - lia.
  - intros n. exists (1 # 2)%Q, Sample.queued. simpl.
    destruct (n <? 2)%nat; repeat split; discriminate.
  - intros n. simpl. split; discriminate.
  - simpl. lia.
Defined.

(* ===================================================================== *)
(** * Terminal statuses: [failed] and [completed] *)
(* ===================================================================== *)

Lemma after_poll_events video_id h latency w :
  new_events w (after_poll video_id h latency w) = [EvGet (status_url video_id) h].
Proof. apply new_events_exact. reflexivity. Qed.

Lemma after_sleep_events out video_id h latency d w :
  new_events w (after_sleep out d (after_poll video_id h latency w)) =
  [EvGet (status_url video_id) h; EvSleep d].
Proof. apply new_events_exact. simpl. rewrite <- app_assoc. reflexivity. Qed.

Lemma after_sleep_length out video_id h latency d w :
  length (trace (after_sleep out d (after_poll video_id h latency w))) =
  (length (trace w) + 2)%nat.
Proof. simpl. rewrite !length_app. simpl. lia. Qed.

Lemma download_events out video_id video_data h latency w :
  new_events w (snd (download out video_id video_data h
                       (after_poll video_id h latency w))) =
  [EvGet (status_url video_id) h; EvStream (content_url video_id) h].
Proof.
  apply new_events_exact. rewrite download_trace. simpl.
  rewrite <- app_assoc. reflexivity.
Qed.

(** Wherever in a run of the loop a poll is answered with a failed job,
    the run ends in the 500 that carries the job's message, and none of
    its events is a download. *)
Lemma poll_loop_failed_job out video_id max_wait h start m fuel :
  forall w res w' k latency r,
    poll_loop out fuel video_id max_wait h start w = (res, w') ->
    new_events w w' !! k = Some (EvGet (status_url video_id) h) ->
    on_get out (length (trace w) + k) (status_url video_id) = Answered latency r ->
    failed_with m r ->
    res = Raise (HTTPException 500 ("Video generation failed: " +:+ m)) /\
    Forall (fun e => is_stream e = false) (new_events w w').
Proof.
  induction fuel as [| fuel IH]; intros w res w' k latency r Hrun Hk Hget Hfail.
  { simpl in Hrun. injection Hrun as <- <-. rewrite new_events_self in Hk. discriminate. }
  destruct (Qlt_le_dec (clock w - start) (inject_Z max_wait)) as [Hlt | Hle].
  2:{ rewrite poll_loop_timeout in Hrun by exact Hle. injection Hrun as <- <-.
      rewrite new_events_self in Hk. discriminate. }
  destruct (on_get out (length (trace w)) (status_url video_id))
    as [l0 r0 | l0 msg] eqn:Hget0.
  2:{ rewrite (poll_loop_transport _ _ _ _ _ _ _ _ _ Hlt Hget0) in Hrun.
      injection Hrun as <- <-. rewrite after_poll_events in Hk.
      destruct k as [| k]; [| destruct k; discriminate].
      rewrite Nat.add_0_r in Hget. congruence. }
  destruct (pending r0) eqn:Hp.
  { rewrite (poll_loop_pending _ _ _ _ _ _ _ _ _ Hlt Hget0 Hp) in Hrun.
    set (d := poll_delay start (clock w + l0)) in *.
    set (w2 := after_sleep out d (after_poll video_id h l0 w)) in *.
    assert (Hvia : new_events w w' =
                   [EvGet (status_url video_id) h; EvSleep d] ++ new_events w2 w').
    { rewrite (new_events_via w w2 w').
      - unfold w2. rewrite after_sleep_events. reflexivity.
      - eapply grows_trans; apply grows_tick.
      - eapply appends_snd; [apply appends_poll_loop | exact Hrun]. }
    rewrite Hvia in *.
    destruct k as [| [| k]].
    - rewrite Nat.add_0_r in Hget.
      assert (r0 = r) by congruence; subst r0.
      rewrite (failed_not_pending m r Hfail) in Hp. discriminate.
    - discriminate.
    - destruct (IH w2 res w' k latency r Hrun) as [Hres Hev].
      + exact Hk.
      + unfold w2. rewrite after_sleep_length.
        replace (length (trace w) + 2 + k)%nat with (length (trace w) + S (S k))%nat
          by lia.
        exact Hget.
      + exact Hfail.
      + split; [exact Hres |]. repeat constructor. exact Hev. }
  destruct (completed r0) eqn:Hc.
  { destruct (poll_loop_completed _ fuel _ _ h start _ _ _ Hlt Hget0 Hc) as (d & _ & E).
    rewrite E in Hrun.
    assert (Hw' : w' = snd (download out video_id (Py.VDict d) h
                              (after_poll video_id h l0 w)))
      by (rewrite Hrun; reflexivity).
    rewrite Hw', download_events in Hk.
    destruct k as [| [| k]]; try discriminate.
    rewrite Nat.add_0_r in Hget.
    assert (r0 = r) by congruence; subst r0.
    rewrite (failed_not_completed m r Hfail) in Hc. discriminate. }
  destruct (poll_loop_stops _ fuel _ _ h start _ _ _ Hlt Hget0 Hp Hc) as (e & E & He).
  rewrite E in Hrun. injection Hrun as <- <-.
  rewrite after_poll_events in *.
  destruct k as [| k]; [| destruct k; discriminate].
  rewrite Nat.add_0_r in Hget.
  assert (r0 = r) by congruence; subst r0.
  split; [rewrite (He m Hfail); reflexivity | repeat constructor].
Qed.

(** C3: when a status poll of [wait_for_video_completion] (the [k]-th
    event of the run) is answered with a job that has failed with the
    message [m], the call raises an [HTTPException] with status 500 whose
    detail carries [m], and no event of the run is the content download. *)
Theorem failed_job_never_downloads key out fuel video_id max_wait w k latency r m :
  let run := wait_for_video_completion key out fuel video_id max_wait w in
  new_events w (snd run) !! k = Some (EvGet (status_url video_id) (poll_headers key)) ->
  on_get out (length (trace w) + k) (status_url video_id) = Answered latency r ->
  failed_with m r ->
  fst run = Raise (HTTPException 500 ("Video generation failed: " +:+ m)) /\
  Forall (fun e => is_stream e = false) (new_events w (snd run)).
Proof.
  intros run Hk Hget Hfail.
  apply (poll_loop_failed_job out video_id max_wait (poll_headers key) (clock w) m fuel
           w (fst run) (snd run) k latency r);
    try assumption.
  unfold run. rewrite wait_for_video_completion_unfold.
  destruct (poll_loop _ _ _ _ _ _ _); reflexivity.
Qed.

Lemma failed_job_never_downloads_witness :
  let run := wait_for_video_completion Sample.key (Sample.upstream Sample.broken) 5
               Sample.video_1 600 Sample.world in
  fst run = Raise (HTTPException 500 ("Video generation failed: " +:+ "moderation blocked"))
  /\ Forall (fun e => is_stream e = false) (new_events Sample.world (snd run)).
Proof.
  apply (failed_job_never_downloads Sample.key (Sample.upstream Sample.broken) 5%nat
           Sample.video_1 600 Sample.world 2%nat (1 # 2) Sample.broken
           "moderation blocked").
  - vm_compute. reflexivity.
  - reflexivity.
  - split; [reflexivity |].
    exists [("id", Py.VStr "video_1"); ("status", Py.VStr "failed");
            ("error", Py.VDict [("message", Py.VStr "moderation blocked")])],
           [("message", Py.VStr "moderation blocked")].
    repeat split; reflexivity.
Defined.

Lemma polled_queued r :
  polled_status r = Some (Py.VStr "queued") -> pending r = true.
Proof. intros H. unfold pending. rewrite H. reflexivity. Qed.

Lemma polled_completed r :
  polled_status r = Some (Py.VStr "completed") -> completed r = true.
Proof. intros H. unfold completed. rewrite H. reflexivity. Qed.

(** C4: for a job that is [queued] at the first poll and [completed] at
    the second (the budget lasting that long), the run of
    [wait_for_video_completion] is: a poll, the sleep, a poll, and the
    content download; nothing follows the download, so no poll does. *)
Theorem queued_then_completed key out fuel video_id max_wait w l1 r1 l2 r2 :
  let h := poll_headers key in
  let delay := poll_delay (clock w) (clock w + l1) in
  let w2 := after_sleep out delay (after_poll video_id h l1 w) in
  0 < max_wait ->
  on_get out (length (trace w)) (status_url video_id) = Answered l1 r1 ->
  polled_status r1 = Some (Py.VStr "queued") ->
  (clock w2 - clock w < inject_Z max_wait)%Q ->
  on_get out (length (trace w) + 2) (status_url video_id) = Answered l2 r2 ->
  polled_status r2 = Some (Py.VStr "completed") ->
  new_events w
    (snd (wait_for_video_completion key out (S (S fuel)) video_id max_wait w)) =
  [EvGet (status_url video_id) h; EvSleep delay;
   EvGet (status_url video_id) h; EvStream (content_url video_id) h].
Proof.
  intros h delay w2 Hmax Hget1 Hq Hbudget Hget2 Hc.
  rewrite wait_for_video_completion_unfold. fold h.
  assert (H0 : (clock w - clock w < inject_Z max_wait)%Q).
  { assert (0 < inject_Z max_wait)%Q
      by (change 0%Q with (inject_Z 0); rewrite <- Zlt_Qlt; exact Hmax).
    lra. }
  rewrite (poll_loop_pending out (S fuel) video_id max_wait h (clock w) w l1 r1
             H0 Hget1 (polled_queued r1 Hq)).
  fold delay. fold w2.
  assert (Hlen : length (trace w2) = (length (trace w) + 2)%nat)
    by apply after_sleep_length.
  rewrite <- Hlen in Hget2.
  destruct (poll_loop_completed out fuel video_id max_wait h (clock w) w2 l2 r2
              Hbudget Hget2 (polled_completed r2 Hc)) as (d & _ & E).
  rewrite E.
  rewrite (new_events_via w w2).
  - unfold w2 at 1. rewrite after_sleep_events, download_events. reflexivity.
  - eapply grows_trans; apply grows_tick.
  - eapply grows_trans; [apply grows_tick | apply appends_download].
Qed.

Lemma queued_then_completed_witness :
  new_events Sample.world
    (snd (wait_for_video_completion Sample.key (Sample.upstream Sample.done) 2
            Sample.video_1 600 Sample.world)) =
  [EvGet (status_url Sample.video_1) (poll_headers Sample.key);
   EvSleep (poll_delay (clock Sample.world) (clock Sample.world + (1 # 2)));
   EvGet (status_url Sample.video_1) (poll_headers Sample.key);
   EvStream (content_url Sample.video_1) (poll_headers Sample.key)].
Proof.
  apply (queued_then_completed Sample.key (Sample.upstream Sample.done) 0%nat
           Sample.video_1 600 Sample.world (1 # 2) Sample.queued (1 # 2) Sample.done).
  - lia.
  - reflexivity.
  - reflexivity.
  - vm_compute. reflexivity.
  - reflexivity.
  - reflexivity.
Defined.

(* ===================================================================== *)
(** * The disk: what is written is what is found *)
(* ===================================================================== *)

Lemma components_nonempty s : PathLib.components s <> [].
Proof.
  destruct s as [| c s]; simpl; [discriminate |].
  destruct (Ascii.eqb c "/"); [discriminate |].
  destruct (PathLib.components s); discriminate.
Qed.

Lemma walk_app fs l1 : forall cur l2,
  Fs.walk fs cur (l1 ++ l2) =
  match Fs.walk fs cur l1 with
  | inl e => inl e
  | inr d => Fs.walk fs d l2
  end.
Proof.
  induction l1 as [| c l1 IH]; intros cur l2; simpl; [reflexivity |].
  destruct (Fs.node_at fs cur) as [[content |] |]; try reflexivity.
  destruct (String.eqb c EmptyString || String.eqb c "."); [apply IH |].
  destruct (String.eqb c ".."); apply IH.
Qed.

Lemma node_at_insert_ne (fs : Fs.tree) key n cur :
  cur <> key -> Fs.node_at (<[key := n]> fs) cur = Fs.node_at fs cur.
Proof.
  intros Hne. destruct cur as [| c cur]; [reflexivity |].
  simpl. apply lookup_insert_ne. congruence.
Qed.

Lemma node_at_insert_eq (fs : Fs.tree) key n :
  key <> [] -> Fs.node_at (<[key := n]> fs) key = Some n.
Proof.
  intros Hne. destruct key as [| c key]; [contradiction |].
  simpl. apply lookup_insert_eq.
Qed.

(** Storing something where no directory was does not disturb a walk:
    a walk steps through directories only. *)
Lemma walk_insert (fs : Fs.tree) key n comps : forall cur d,
  Fs.node_at fs key <> Some Fs.Dir ->
  Fs.walk fs cur comps = inr d ->
  Fs.walk (<[key := n]> fs) cur comps = inr d.
Proof.
  induction comps as [| c comps IH]; intros cur d Hkey Hwalk; simpl in *;
    [assumption |].
  destruct (Fs.node_at fs cur) as [[content |] |] eqn:Hcur; try discriminate.
  assert (Hne : cur <> key) by (intros ->; congruence).
  rewrite (node_at_insert_ne fs key n cur Hne), Hcur.
  destruct (String.eqb c EmptyString || String.eqb c "."); [apply IH; assumption |].
  destruct (String.eqb c ".."); apply IH; assumption.
Qed.

Lemma stat_file_key fs cwd s key content :
  Fs.stat fs cwd s = inr (key, Fs.File content) ->
  Fs.node_at fs key = Some (Fs.File content) /\ key <> [].
Proof.
  unfold Fs.stat. destruct (String.eqb s EmptyString); [discriminate |].
  destruct (Fs.walk fs (Fs.origin cwd s) (PathLib.components s)) as [e | k];
    [discriminate |].
  destruct (Fs.node_at fs k) as [n |] eqn:Hk; [| discriminate].
  intros H. injection H as <- ->. split; [assumption |].
  intros ->. discriminate.
Qed.

(** Rewriting a file leaves it where it was. *)
Lemma stat_insert_file (fs : Fs.tree) cwd s key old new :
  Fs.stat fs cwd s = inr (key, Fs.File old) ->
  Fs.stat (<[key := Fs.File new]> fs) cwd s = inr (key, Fs.File new).
Proof.
  intros Hstat.
  destruct (stat_file_key fs cwd s key old Hstat) as [Hnode Hne].
  unfold Fs.stat in *. destruct (String.eqb s EmptyString); [discriminate |].
  destruct (Fs.walk fs (Fs.origin cwd s) (PathLib.components s)) as [e | k] eqn:Hw;
    [discriminate |].
  destruct (Fs.node_at fs k) as [n |] eqn:Hk; [| discriminate].
  injection Hstat as -> ->.
  rewrite (walk_insert fs key (Fs.File new) _ _ key) by (congruence || assumption).
  rewrite node_at_insert_eq by assumption. reflexivity.
Qed.

(** A file that has just been opened for writing is found under the same
    path, empty. *)
Lemma open_wb_stat (fs : Fs.tree) cwd s key t :
  Fs.open_wb fs cwd s = inr (key, t) ->
  t = <[key := Fs.File []]> fs /\ Fs.stat t cwd s = inr (key, Fs.File []).
Proof.
  unfold Fs.open_wb, Fs.stat.
  destruct (String.eqb s EmptyString); [discriminate |].
  set (comps := PathLib.components s).
  destruct (Fs.walk fs (Fs.origin cwd s) (removelast comps)) as [e | d] eqn:Hw;
    [discriminate |].
  destruct (Fs.node_at fs d) as [[content |] |] eqn:Hd; try discriminate.
  set (c := List.last comps EmptyString).
  destruct (String.eqb c EmptyString || String.eqb c "." || String.eqb c "..") eqn:Hc;
    [discriminate |].
  apply orb_false_elim in Hc as [Hc Hc3].
  intros H.
  assert (Hfile : Fs.node_at fs (d ++ [c]) <> Some Fs.Dir).
  { destruct (d ++ [c]) as [| c0 key0] eqn:E; [destruct d; discriminate |].
    simpl. intros Hdir. rewrite Hdir in H. discriminate. }
  assert (Hkt : key = d ++ [c] /\ t = <[d ++ [c] := Fs.File []]> fs).
  { destruct (fs !! (d ++ [c])) as [[x |] |]; try discriminate;
      injection H as <- <-; split; reflexivity. }
  destruct Hkt as [-> ->]. split; [reflexivity |].
  assert (Hsplit : comps = removelast comps ++ [c])
    by apply (app_removelast_last EmptyString (components_nonempty s)).
  rewrite Hsplit at 1. rewrite walk_app.
  rewrite (walk_insert fs (d ++ [c]) (Fs.File []) _ _ d Hfile Hw).
  simpl Fs.walk.
  assert (Hne : d <> d ++ [c]).
  { intros E. apply (f_equal (@length string)) in E.
    rewrite length_app in E. simpl in E. lia. }
  rewrite (node_at_insert_ne fs (d ++ [c]) (Fs.File []) d Hne), Hd, Hc, Hc3.
  rewrite node_at_insert_eq by (destruct d; discriminate).
  reflexivity.
Qed.

(** Saving the chunks appends all of them to the open file, and counts
    their bytes. *)
Lemma save_chunks_spec key chunks : forall total w old,
  fs w !! key = Some (Fs.File old) ->
  save_chunks key chunks total w =
    (Return (total + Z.of_nat (length (concat chunks))),
     with_fs (<[key := Fs.File (old ++ concat chunks)]> (fs w)) w).
Proof.
  induction chunks as [| chunk rest IH]; intros total w old Hold; simpl.
  - rewrite app_nil_r, Z.add_0_r. rewrite (insert_id (fs w) key _ Hold).
    destruct w; reflexivity.
  - destruct chunk as [| b chunk]; [apply IH; assumption |].
    unfold bind, f_write. cbv iota beta.
    rewrite (IH _ _ (old ++ b :: chunk)).
    + simpl fs. unfold Fs.write. rewrite Hold. rewrite insert_insert_eq.
      rewrite <- app_assoc. f_equal. f_equal.
      rewrite length_app. simpl length. lia.
    + simpl. unfold Fs.write. rewrite Hold. apply lookup_insert_eq.
Qed.

Lemma lookup_set_eq k v d : Py.lookup k (Py.set k v d) = Some v.
Proof.
  induction d as [| [k' v'] d IH]; simpl.
  - rewrite String.eqb_refl. reflexivity.
  - destruct (String.eqb k k') eqn:E; simpl; [rewrite String.eqb_refl | rewrite E];
      [reflexivity | exact IH].
Qed.

(** What a download that returns has done. *)
Lemma download_returns out video_id video_data h w v w' :
  download out video_id video_data h w = (Return v, w') ->
  exists latency r key,
    on_stream out (length (trace w)) (content_url video_id) = Answered latency r /\
    stream_status_code r = 200 /\
    abort r = None /\
    cwd w' = cwd w /\
    Fs.stat (fs w') (cwd w') (video_path_str (job_filename video_id)) =
      inr (key, Fs.File (concat (aiter_bytes r 8192))) /\
    exists d, v = Py.VDict d /\
      Py.lookup "video_filename" d = Some (Py.VStr (job_filename video_id)).
Proof.
  unfold download. unfold bind at 1. unfold client_stream.
  fold (content_url video_id). fold (job_filename video_id).
  fold (video_path_str (job_filename video_id)).
  destruct (on_stream out (length (trace w)) (content_url video_id))
    as [latency r | latency msg]; simpl settle; cbv iota beta; [| discriminate].
  set (w1 := tick latency (EvStream (content_url video_id) h) w).
  destruct (Z.eqb_spec (stream_status_code r) 200) as [E200 | _].
  2:{ destruct (decoded r); discriminate. }
  unfold bind at 1. unfold open_wb.
  destruct (Fs.open_wb (fs w1) (cwd w1) (video_path_str (job_filename video_id)))
    as [e | [key t]] eqn:Hopen; [discriminate |].
  cbv iota beta.
  destruct (open_wb_stat _ _ _ _ _ Hopen) as [-> Hstat].
  unfold bind at 1.
  rewrite (save_chunks_spec key (aiter_bytes r 8192) 0 _ [])
    by (simpl; apply lookup_insert_eq).
  cbv iota beta. simpl app.
  destruct (abort r) eqn:Hab; [discriminate |].
  destruct video_data as [ | | | | | d]; try discriminate.
  simpl. unfold bind, ret. intros H. injection H as <- <-.
  exists latency, r, key. repeat split; try assumption.
  - simpl. exact (stat_insert_file _ _ _ _ _ _ Hstat).
  - eexists; split; [reflexivity | apply lookup_set_eq].
Qed.

(** The loop returns only out of a download. *)
Lemma poll_loop_returns out video_id max_wait h start fuel : forall w v w',
  poll_loop out fuel video_id max_wait h start w = (Return v, w') ->
  exists w1 d,
    grows w w1 /\ download out video_id (Py.VDict d) h w1 = (Return v, w').
Proof.
  induction fuel as [| fuel IH]; intros w v w' Hrun; [discriminate |].
  destruct (Qlt_le_dec (clock w - start) (inject_Z max_wait)) as [Hlt | Hle].
  2:{ rewrite poll_loop_timeout in Hrun by exact Hle. discriminate. }
  destruct (on_get out (length (trace w)) (status_url video_id))
    as [l0 r0 | l0 msg] eqn:Hget.
  2:{ rewrite (poll_loop_transport _ _ _ _ _ _ _ _ _ Hlt Hget) in Hrun. discriminate. }
  destruct (pending r0) eqn:Hp.
  { rewrite (poll_loop_pending _ _ _ _ _ _ _ _ _ Hlt Hget Hp) in Hrun.
    destruct (IH _ _ _ Hrun) as (w1 & d & Hg & Hd).
    exists w1, d. split; [| exact Hd].
    eapply grows_trans; [| exact Hg].
    eapply grows_trans; apply grows_tick. }
  destruct (completed r0) eqn:Hc.
  { destruct (poll_loop_completed _ fuel _ _ h start _ _ _ Hlt Hget Hc) as (d & _ & E).
    rewrite E in Hrun. exists (after_poll video_id h l0 w), d.
    split; [apply grows_tick | exact Hrun]. }
  destruct (poll_loop_stops _ fuel _ _ h start _ _ _ Hlt Hget Hp Hc) as (e & E & _).
  rewrite E in Hrun. discriminate.
Qed.

(* ===================================================================== *)
(** * Serving videos *)
(* ===================================================================== *)


Lemma serve_video_present name w :
  Fs.exists_ (fs w) (cwd w) (video_path_str name) = true ->
  serve_video name w =
    (Return {| path := video_path_str name; media_type := "video/mp4";
               filename := name |}, w).
Proof.
  intros H. unfold serve_video. fold (video_path_str name). rewrite H. reflexivity.
Qed.

Lemma stat_exists fs cwd s key n :
  Fs.stat fs cwd s = inr (key, n) -> Fs.exists_ fs cwd s = true.
Proof. intros H. unfold Fs.exists_. rewrite H. reflexivity. Qed.

Lemma length_append a b :
  String.length (a +:+ b) = (String.length a + String.length b)%nat.
Proof. induction a as [| c a IH]; simpl; [reflexivity | rewrite IH; reflexivity]. Qed.

Lemma contains_append c a b :
  Py.contains c (a +:+ b) = Py.contains c a || Py.contains c b.
Proof.
  induction a as [| c' a IH]; simpl; [reflexivity |].
  destruct (Ascii.eqb c c'); [reflexivity | exact IH].
Qed.

(** A job's file name is no special name. *)
Lemma job_filename_ordinary video_id :
  String.eqb (job_filename video_id) EmptyString = false /\
  String.eqb (job_filename video_id) "." = false /\
  String.eqb (job_filename video_id) ".." = false.
Proof.
  assert (Hlen : (4 <= String.length (job_filename video_id))%nat)
    by (unfold job_filename; rewrite length_append; simpl; lia).
  repeat split; apply String.eqb_neq; intros E; rewrite E in Hlen; simpl in Hlen; lia.
Qed.

(** The route takes a job's file name exactly when the job's id has no
    slash. *)
Lemma route_matches_job video_id :
  route_matches (job_filename video_id) = negb (Py.contains "/" (Py.str video_id)).
Proof.
  unfold route_matches.
  destruct (job_filename_ordinary video_id) as (He & _ & _). rewrite He.
  unfold job_filename. rewrite contains_append.
  change (Py.contains "/" ".mp4") with false.
  rewrite orb_false_r. reflexivity.
Qed.

Lemma GET_videos_unmatched name w :
  route_matches name = false ->
  GET_videos name w = (Raise (HTTPException 404 "Not Found"), w).
Proof. intros H. unfold GET_videos. rewrite H. reflexivity. Qed.


Lemma GET_videos_file name w key content :
  route_matches name = true ->
  Fs.stat (fs w) (cwd w) (video_path_str name) = inr (key, Fs.File content) ->
  GET_videos name w =
    (Return {| http_status := 200; content_type := "video/mp4"; body := content |}, w).
Proof.
  intros Hr H. unfold GET_videos, bind. rewrite Hr.
  rewrite (serve_video_present name w (stat_exists _ _ _ _ _ H)).
  unfold send_file. simpl path. rewrite H. reflexivity.
Qed.

Lemma GET_videos_directory name w key :
  route_matches name = true ->
  Fs.stat (fs w) (cwd w) (video_path_str name) = inr (key, Fs.Dir) ->
  GET_videos name w =
    (Raise (Exception ("File at path " +:+ video_path_str name +:+ " is not a file.")), w).
Proof.
  intros Hr H. unfold GET_videos, bind. rewrite Hr.
  rewrite (serve_video_present name w (stat_exists _ _ _ _ _ H)).
  unfold send_file. simpl path. rewrite H. reflexivity.
Qed.

(** C6, as amended: when [wait_for_video_completion] returns, the file
    stored under the job's file name holds the streamed chunks one after
    the other, so its byte count is the sum of their sizes. For a job
    whose id has no slash, [GET /videos/<that name>] answers with exactly
    those bytes for as long as the disk stays as it is; for an id with a
    slash the route does not take the name, and the answer is the
    router's 404. *)
Theorem download_then_serve key out fuel video_id max_wait w v :
  let run := wait_for_video_completion key out fuel video_id max_wait w in
  fst run = Return v ->
  exists n latency r content,
    trace (snd run) !! n = Some (EvStream (content_url video_id) (poll_headers key)) /\
    on_stream out n (content_url video_id) = Answered latency r /\
    content = concat (aiter_bytes r 8192) /\
    (exists d, v = Py.VDict d /\
       Py.lookup "video_filename" d = Some (Py.VStr (job_filename video_id))) /\
    (exists file,
       Fs.stat (fs (snd run)) (cwd (snd run)) (video_path_str (job_filename video_id)) =
         inr (file, Fs.File content)) /\
    length content = list_sum (map length (aiter_bytes r 8192)) /\
    forall later, fs later = fs (snd run) -> cwd later = cwd (snd run) ->
      GET_videos (job_filename video_id) later =
        if Py.contains "/" (Py.str video_id)
        then (Raise (HTTPException 404 "Not Found"), later)
        else (Return {| http_status := 200; content_type := "video/mp4";
                        body := content |}, later).
Proof.
  intros run Hv.
  assert (Hrun : poll_loop out fuel video_id max_wait (poll_headers key) (clock w) w =
                 (Return v, snd run)).
  { unfold run in *. rewrite wait_for_video_completion_unfold in *.
    destruct (poll_loop _ _ _ _ _ _ _) as [res w']. simpl in Hv. subst res.
    reflexivity. }
  generalize dependent (snd run). clear run Hv. intros w' Hrun.
  destruct (poll_loop_returns _ _ _ _ _ _ _ _ _ Hrun) as (w1 & d & _ & Hd).
  destruct (download_returns _ _ _ _ _ _ _ Hd)
    as (latency & r & file & Hstream & _ & _ & _ & Hstat & Hv).
  pose proof (download_trace out video_id (Py.VDict d) (poll_headers key) w1) as Ht.
  rewrite Hd in Ht. simpl in Ht.
  exists (length (trace w1)), latency, r, (concat (aiter_bytes r 8192)).
  repeat split.
  - rewrite Ht. apply list_lookup_middle. reflexivity.
  - exact Hstream.
  - exact Hv.
  - exists file. exact Hstat.
  - apply List.length_concat.
  - intros later Hfs Hcwd.
    pose proof (route_matches_job video_id) as Hroute.
    destruct (Py.contains "/" (Py.str video_id)).
    + apply GET_videos_unmatched. exact Hroute.
    + apply (GET_videos_file _ later file); [exact Hroute |].
      rewrite Hfs, Hcwd. exact Hstat.
Qed.

Lemma download_then_serve_witness :
  let run := wait_for_video_completion Sample.key (Sample.upstream Sample.done) 2
               Sample.video_1 600 Sample.world in
  exists n latency r content,
    trace (snd run) !! n =
      Some (EvStream (content_url Sample.video_1) (poll_headers Sample.key)) /\
    on_stream (Sample.upstream Sample.done) n (content_url Sample.video_1) =
      Answered latency r /\
    content = concat (aiter_bytes r 8192) /\
    (exists d, Sample.stored = Py.VDict d /\
       Py.lookup "video_filename" d = Some (Py.VStr (job_filename Sample.video_1))) /\
    (exists file,
       Fs.stat (fs (snd run)) (cwd (snd run)) (video_path_str (job_filename Sample.video_1)) =
         inr (file, Fs.File content)) /\
    length content = list_sum (map length (aiter_bytes r 8192)) /\
    forall later, fs later = fs (snd run) -> cwd later = cwd (snd run) ->
      GET_videos (job_filename Sample.video_1) later =
        (Return {| http_status := 200; content_type := "video/mp4";
                   body := content |}, later).
Proof.
  apply (download_then_serve Sample.key (Sample.upstream Sample.done) 2%nat
           Sample.video_1 600 Sample.world Sample.stored).
  vm_compute. reflexivity.
Defined.

(** C6, as first stated, fails for a job whose id has a slash: the
    download of the job [../video_1] completes and its four bytes are
    stored, under the file name [../video_1.mp4]; the route
    [/videos/{video_filename}] does not take that name, and serving it
    answers 404 instead of the bytes. *)
Lemma download_with_slash_not_served :
  (exists d, fst (Sample.escaped_run) = Return (Py.VDict d) /\
     Py.lookup "video_filename" d = Some (Py.VStr "../video_1.mp4")) /\
  job_filename Sample.escaping = "../video_1.mp4" /\
  aiter_bytes Sample.film 8192 = [[x66; x74; x79]; []; [x70]] /\
  Fs.stat (fs (snd Sample.escaped_run)) (cwd (snd Sample.escaped_run))
    (video_path_str "../video_1.mp4") =
    inr (["srv"; "app"; "video_1.mp4"], Fs.File [x66; x74; x79; x70]) /\
  GET_videos "../video_1.mp4" (snd Sample.escaped_run) =
    (Raise (HTTPException 404 "Not Found"), snd Sample.escaped_run) /\
  fst (GET_videos "../video_1.mp4" (snd Sample.escaped_run)) <>
    Return {| http_status := 200; content_type := "video/mp4";
              body := [x66; x74; x79; x70] |}.
Proof.
  split; [| split; [| split; [| split; [| split]]]].
  - eexists. split; vm_compute; reflexivity.
  - reflexivity.
  - reflexivity.
  - vm_compute. reflexivity.
  - apply GET_videos_unmatched. reflexivity.
  - rewrite GET_videos_unmatched by reflexivity. discriminate.
Qed.

(** C8: the handler tests [exists()] where its comment says it checks
    that the file exists. [".."] names the parent of the videos directory
    and ["."] the videos directory itself: neither is an existing file in
    the videos directory, yet the handler does not raise the 404 but
    hands back a [FileResponse], and sending it ends in a server
    error. *)
Theorem serve_video_directory_not_404 :
  (~ names_video_file ".." Sample.stocked /\
   route_matches ".." = true /\
   fst (serve_video ".." Sample.stocked) =
     Return {| path := "videos/.."; media_type := "video/mp4"; filename := ".." |} /\
   fst (GET_videos ".." Sample.stocked) =
     Raise (Exception "File at path videos/.. is not a file.") /\
   http_status_of http_status (fst (GET_videos ".." Sample.stocked)) = Some 500 /\
   is_server_error 500 = true)
  /\
  (~ names_video_file "." Sample.stocked /\
   route_matches "." = true /\
   fst (GET_videos "." Sample.stocked) =
     Raise (Exception "File at path videos is not a file.") /\
   http_status_of http_status (fst (GET_videos "." Sample.stocked)) = Some 500).
Proof.
  assert (Hup : Fs.stat (fs Sample.stocked) (cwd Sample.stocked) (video_path_str "..") =
                inr (["srv"; "app"], Fs.Dir)) by (vm_compute; reflexivity).
  assert (Hdot : Fs.stat (fs Sample.stocked) (cwd Sample.stocked) (video_path_str ".") =
                 inr (["srv"; "app"; "videos"], Fs.Dir)) by (vm_compute; reflexivity).
  split; [split; [| split; [| split; [| split; [| split]]]] | split; [| split; [| split]]].
  - intros (file & content & H). congruence.
  - reflexivity.
  - vm_compute. reflexivity.
  - rewrite (GET_videos_directory ".." _ _ eq_refl Hup). reflexivity.
  - rewrite (GET_videos_directory ".." _ _ eq_refl Hup). reflexivity.
  - reflexivity.
  - intros (file & content & H). congruence.
  - reflexivity.
  - rewrite (GET_videos_directory "." _ _ eq_refl Hdot). reflexivity.
  - rewrite (GET_videos_directory "." _ _ eq_refl Hdot). reflexivity.
Qed.

Lemma stat_videos_dir (t : Fs.tree) (cwd : list string) :
  Fs.node_at t cwd = Some Fs.Dir ->
  Fs.node_at t (cwd ++ ["videos"]) = Some Fs.Dir ->
  Fs.stat t cwd "videos" = inr (cwd ++ ["videos"], Fs.Dir).
Proof.
  intros Hcwd Hvid. unfold Fs.stat, Fs.origin.
  cbn -[Fs.node_at app removelast]. rewrite Hcwd, Hvid. reflexivity.
Qed.




(* ===================================================================== *)
(** * Whole runs of the poller: rounds, then one last iteration *)
(* ===================================================================== *)

(** A poll answered with another status than 200 ends the run with that
    status. *)
Lemma poll_loop_bad_status out fuel video_id max_wait h start w latency r :
  (clock w - start < inject_Z max_wait)%Q ->
  on_get out (length (trace w)) (status_url video_id) = Answered latency r ->
  status_code r <> 200 ->
  poll_loop out (S fuel) video_id max_wait h start w =
    (Raise (HTTPException (status_code r)
              ("Failed to check video status: " +:+ text r)),
     after_poll video_id h latency w).
Proof.
  intros Hlt Hget Hsc. rewrite poll_loop_unfold.
  destruct (Qlt_le_dec (clock w - start) (inject_Z max_wait)) as [_ | Hle]; [| lra].
  unfold bind at 1. unfold client_get. rewrite Hget. simpl settle. cbv iota beta.
  destruct (Z.eqb_spec (status_code r) 200) as [E | _]; [contradiction | reflexivity].
Qed.

(** A failed job whose answer names no message is reported with the
    stock text. *)
Lemma poll_loop_failed_unknown out fuel video_id max_wait h start w latency r d :
  (clock w - start < inject_Z max_wait)%Q ->
  on_get out (length (trace w)) (status_url video_id) = Answered latency r ->
  status_code r = 200 ->
  json r = inr (Py.VDict d) ->
  Py.lookup "status" d = Some (Py.VStr "failed") ->
  (Py.lookup "error" d = None \/
   exists e, Py.lookup "error" d = Some (Py.VDict e) /\ Py.lookup "message" e = None) ->
  poll_loop out (S fuel) video_id max_wait h start w =
    (Raise (HTTPException 500 "Video generation failed: Unknown error"),
     after_poll video_id h latency w).
Proof.
  intros Hlt Hget Hsc Hj Hs He. rewrite poll_loop_unfold.
  destruct (Qlt_le_dec (clock w - start) (inject_Z max_wait)) as [_ | Hle]; [| lra].
  unfold bind at 1. unfold client_get. rewrite Hget. simpl settle. cbv iota beta.
  rewrite Hsc. simpl negb. cbv iota.
  unfold response_json. rewrite Hj.
  unfold bind at 1. unfold ret at 1. cbv iota beta.
  unfold bind at 1. unfold py_get at 1, ret at 1. rewrite Hs. cbv iota beta.
  simpl eq_str. cbv iota.
  unfold bind at 1. unfold py_get at 1, ret at 1.
  destruct He as [He | (e & He & Hm)]; rewrite He; cbv iota beta.
  - reflexivity.
  - unfold bind at 1. unfold py_get at 1, ret at 1. rewrite Hm. reflexivity.
Qed.

(** An iteration that does not lead to another one does not look at the
    fuel that is left. *)
Lemma poll_loop_last out fuel video_id max_wait h start w :
  last_round out video_id max_wait start w ->
  poll_loop out (S fuel) video_id max_wait h start w =
  poll_loop out 1 video_id max_wait h start w.
Proof.
  intros Hlast. rewrite !poll_loop_unfold.
  destruct (Qlt_le_dec (clock w - start) (inject_Z max_wait)) as [Hlt | _];
    [| reflexivity].
  specialize (Hlast Hlt).
  generalize (poll_loop out fuel video_id max_wait h start).
  generalize (poll_loop out 0 video_id max_wait h start).
  intros k0 k.
  unfold bind, client_get.
  destruct (on_get out (length (trace w)) (status_url video_id))
    as [latency r | latency msg] eqn:Hget; [| reflexivity].
  specialize (Hlast latency r eq_refl).
  unfold pending, polled_status in Hlast.
  cbn [settle].
  destruct (status_code r =? 200); [| reflexivity].
  cbn [negb]. unfold response_json.
  destruct (json r) as [msg | v]; [reflexivity |].
  destruct v as [ | | | | | d]; try reflexivity.
  cbn [ret py_get].
  destruct (eq_str match Py.lookup "status" d with
                   | Some s => s
                   | None => Py.VNone
                   end "completed"); [reflexivity |].
  destruct (eq_str match Py.lookup "status" d with
                   | Some s => s
                   | None => Py.VNone
                   end "failed"); [reflexivity | discriminate].
Qed.

Section Rounds.

Variable out : Outside.
Variable video_id : Py.value.
Variable max_wait : Z.
Variable h : headers_t.
Variable start : Q.

(** Rounds are what the loop does first. *)
Lemma rounds_run n w w1 :
  rounds out video_id max_wait h start n w w1 -> forall fuel, poll_loop out (n + fuel)%nat video_id max_wait h start w = poll_loop out fuel video_id max_wait h start w1.
Proof.
  induction 1 as [w | n w latency r w1 Hlt Hget Hp _ IH]; intros fuel;
    [reflexivity |].
  change (S n + fuel)%nat with (S (n + fuel)).
  rewrite (poll_loop_pending out (n + fuel) video_id max_wait h start w latency r
             Hlt Hget Hp).
  apply IH.
Qed.

(** Rounds leave the disk and the working directory alone. *)
Lemma rounds_same_disk n w w1 :
  rounds out video_id max_wait h start n w w1 -> fs w1 = fs w /\ cwd w1 = cwd w.
Proof.
  induction 1 as [w | n w latency r w1 _ _ _ _ [IHf IHc]]; [split; reflexivity |].
  split; [rewrite IHf | rewrite IHc]; reflexivity.
Qed.

(** The events of [n] rounds: [n] polls, each answered with a job still
    running, and [n] sleeps, in turn; no download. *)
Lemma rounds_events n w w1 :
  rounds out video_id max_wait h start n w w1 ->
  exists evs,
    trace w1 = trace w ++ evs /\
    length evs = (2 * n)%nat /\
    count_polls evs = n /\
    Forall (fun e => is_stream e = false) evs /\
    forall k u h',
      evs !! k = Some (EvGet u h') ->
      exists latency r,
        on_get out (length (trace w) + k) (status_url video_id) = Answered latency r /\
        pending r = true.
Proof.
  induction 1 as [w | n w latency r w1 Hlt Hget Hp _ IH].
  - exists []. repeat split; try (symmetry; apply app_nil_r); try constructor.
    intros k u h' Hk. destruct k; discriminate.
  - destruct IH as (evs & Ht & Hlen & Hcount & Hns & Hpoll).
    set (d := poll_delay start (clock w + latency)) in *.
    exists (EvGet (status_url video_id) h :: EvSleep d :: evs).
    split; [| split; [| split; [| split]]].
    + rewrite Ht. simpl. rewrite <- !app_assoc. reflexivity.
    + simpl. rewrite Hlen. lia.
    + unfold count_polls in *. simpl. rewrite Hcount. reflexivity.
    + repeat constructor. exact Hns.
    + intros k u h' Hk. destruct k as [| [| k]].
      * exists latency, r. rewrite Nat.add_0_r. split; assumption.
      * discriminate.
      * destruct (Hpoll k u h' Hk) as (l' & r' & Hg & Hp').
        exists l', r'. split; [| exact Hp'].
        rewrite after_sleep_length in Hg.
        replace (length (trace w) + S (S k))%nat with (length (trace w) + 2 + k)%nat
          by lia.
        exact Hg.
Qed.

(** Every run is some rounds and then either no fuel, or one last
    iteration. *)
Lemma poll_loop_structure fuel : forall w,
  exists n w1,
    rounds out video_id max_wait h start n w w1 /\
    ((n = fuel /\ poll_loop out fuel video_id max_wait h start w = (OutOfFuel, w1)) \/
     ((n < fuel)%nat /\ last_round out video_id max_wait start w1 /\
      poll_loop out fuel video_id max_wait h start w = poll_loop out 1%nat video_id max_wait h start w1)).
Proof.
  induction fuel as [| fuel IH]; intros w.
  { exists 0%nat, w. split; [constructor | left; split; reflexivity]. }
  assert (Hstop : last_round out video_id max_wait start w ->
                  exists n w1, rounds out video_id max_wait h start n w w1 /\
                    ((n = S fuel /\ poll_loop out (S fuel) video_id max_wait h start w = (OutOfFuel, w1)) \/
                     ((n < S fuel)%nat /\ last_round out video_id max_wait start w1 /\
                      poll_loop out (S fuel) video_id max_wait h start w = poll_loop out 1%nat video_id max_wait h start w1))).
  { intros Hlast. exists 0%nat, w. split; [constructor |]. right.
    split; [lia |]. split; [exact Hlast |]. apply poll_loop_last, Hlast. }
  destruct (Qlt_le_dec (clock w - start) (inject_Z max_wait)) as [Hlt | Hle].
  2:{ apply Hstop. intros Hlt. lra. }
  destruct (on_get out (length (trace w)) (status_url video_id))
    as [latency r | latency msg] eqn:Hget.
  2:{ apply Hstop. intros _ l r Hg. congruence. }
  destruct (pending r) eqn:Hp.
  2:{ apply Hstop. intros _ l r' Hg. congruence. }
  destruct (IH (after_sleep out (poll_delay start (clock w + latency))
                  (after_poll video_id h latency w)))
    as (n & w1 & Hr & Hend).
  exists (S n), w1. split.
  - econstructor; eassumption.
  - rewrite (poll_loop_pending out fuel video_id max_wait h start w latency r
               Hlt Hget Hp).
    destruct Hend as [[-> Hout] | (Hn & Hlast & Hrun)].
    + left. split; [reflexivity | exact Hout].
    + right. split; [lia |]. split; assumption.
Qed.

(** The ways the last iteration can go. *)
Lemma last_iteration w :
  last_round out video_id max_wait start w ->
  ((inject_Z max_wait <= clock w - start)%Q /\
   poll_loop out 1%nat video_id max_wait h start w = (Raise (HTTPException 408 "Video generation timeout"), w))
  \/
  ((clock w - start < inject_Z max_wait)%Q /\
   ((exists latency msg,
       on_get out (length (trace w)) (status_url video_id) = Failed latency msg /\
       poll_loop out 1%nat video_id max_wait h start w = (Raise (Exception msg), after_poll video_id h latency w))
    \/
    (exists latency r d,
       on_get out (length (trace w)) (status_url video_id) = Answered latency r /\
       completed r = true /\ json r = inr (Py.VDict d) /\
       poll_loop out 1%nat video_id max_wait h start w = download out video_id (Py.VDict d) h
                        (after_poll video_id h latency w))
    \/
    (exists latency r e,
       on_get out (length (trace w)) (status_url video_id) = Answered latency r /\
       pending r = false /\ completed r = false /\
       poll_loop out 1%nat video_id max_wait h start w = (Raise e, after_poll video_id h latency w)))).
Proof.
  intros Hlast.
  destruct (Qlt_le_dec (clock w - start) (inject_Z max_wait)) as [Hlt | Hle].
  2:{ left. split; [exact Hle | apply poll_loop_timeout, Hle]. }
  right. split; [exact Hlt |].
  destruct (on_get out (length (trace w)) (status_url video_id))
    as [latency r | latency msg] eqn:Hget.
  2:{ left. exists latency, msg. split; [reflexivity |].
      apply poll_loop_transport; assumption. }
  right.
  pose proof (Hlast Hlt latency r Hget) as Hp.
  destruct (completed r) eqn:Hc.
  - left.
    destruct (poll_loop_completed out 0%nat video_id max_wait h start w latency r
                Hlt Hget Hc) as (d & Hj & E).
    exists latency, r, d. repeat split; assumption.
  - right.
    destruct (poll_loop_stops out 0%nat video_id max_wait h start w latency r
                Hlt Hget Hp Hc) as (e & E & _).
    exists latency, r, e. repeat split; assumption.
Qed.

End Rounds.

Lemma rounds_grows out video_id max_wait h start n w w1 :
  rounds out video_id max_wait h start n w w1 -> grows w w1.
Proof.
  intros Hr. destruct (rounds_same_disk _ _ _ _ _ _ _ _ Hr) as [_ Hc].
  destruct (rounds_events _ _ _ _ _ _ _ _ Hr) as (evs & Ht & _).
  split; [exact Hc | exists evs; exact Ht].
Qed.

Lemma rounds_length out video_id max_wait h start n w w1 :
  rounds out video_id max_wait h start n w w1 ->
  length (trace w1) = (length (trace w) + 2 * n)%nat.
Proof.
  intros Hr. destruct (rounds_events _ _ _ _ _ _ _ _ Hr) as (evs & Ht & Hlen & _).
  rewrite Ht, length_app, Hlen. reflexivity.
Qed.

(** The events of a whole run, split at the start of its last iteration. *)
Lemma run_events out video_id max_wait h start n fuel w w1 res w' :
  rounds out video_id max_wait h start n w w1 ->
  poll_loop out fuel video_id max_wait h start w1 = (res, w') ->
  new_events w w' = new_events w w1 ++ new_events w1 w'.
Proof.
  intros Hr Hrun. apply new_events_via.
  - eapply rounds_grows; eassumption.
  - eapply appends_snd; [apply appends_poll_loop | exact Hrun].
Qed.

(** A download found among the events of a run is the download of its
    last iteration, which polled a completed job. *)
Lemma locate_stream out video_id max_wait h start fuel w res w' k u h' :
  poll_loop out fuel video_id max_wait h start w = (res, w') ->
  new_events w w' !! k = Some (EvStream u h') ->
  exists n w1 latency r d,
    rounds out video_id max_wait h start n w w1 /\
    k = (2 * n + 1)%nat /\
    on_get out (length (trace w1)) (status_url video_id) = Answered latency r /\
    completed r = true /\
    json r = inr (Py.VDict d) /\
    download out video_id (Py.VDict d) h (after_poll video_id h latency w1) = (res, w') /\
    u = content_url video_id /\ h' = h /\
    length (new_events w w') = S k.
Proof.
  intros Hrun Hk.
  destruct (poll_loop_structure out video_id max_wait h start fuel w)
    as (n & w1 & Hr & Hend).
  destruct (rounds_events _ _ _ _ _ _ _ _ Hr) as (evs & Ht & Hlen & _ & Hns & _).
  pose proof (new_events_exact w w1 evs Ht) as Hev.
  assert (Hno : forall i x y, evs !! i = Some (EvStream x y) -> False).
  { intros i x y Hi. rewrite Forall_lookup in Hns. specialize (Hns i _ Hi).
    discriminate. }
  destruct Hend as [[-> Hout] | (Hn & Hlast & Hone)].
  { rewrite Hout in Hrun. injection Hrun as <- <-. rewrite Hev in Hk.
    destruct (Hno _ _ _ Hk). }
  rewrite Hone in Hrun.
  pose proof (run_events _ _ _ _ _ _ _ _ _ _ _ Hr Hrun) as Hsplit.
  rewrite Hev in Hsplit. rewrite Hsplit in Hk.
  apply lookup_app_Some in Hk as [Hk | [Hge Hk]]; [destruct (Hno _ _ _ Hk) |].
  rewrite Hlen in Hge, Hk.
  destruct (last_iteration out video_id max_wait h start w1 Hlast)
    as [[_ E] | [Hlt [(l & msg & _ & E) | [(l & r & d & Hget & Hc & Hj & E)
                                          | (l & r & e & _ & _ & _ & E)]]]];
    rewrite E in Hrun.
  - injection Hrun as <- <-. rewrite new_events_self in Hk.
    destruct (k - 2 * n)%nat; discriminate.
  - injection Hrun as <- <-. rewrite after_poll_events in Hk.
    destruct (k - 2 * n)%nat as [| [| j]]; discriminate.
  - assert (Hlast_events : new_events w1 w' =
              [EvGet (status_url video_id) h; EvStream (content_url video_id) h]).
    { replace w' with (snd (download out video_id (Py.VDict d) h
                              (after_poll video_id h l w1)))
        by (rewrite Hrun; reflexivity).
      apply download_events. }
    rewrite Hlast_events in Hk, Hsplit.
    destruct (k - 2 * n)%nat as [| [| j]] eqn:Ek; try discriminate.
    injection Hk as <- <-.
    exists n, w1, l, r, d.
    split; [exact Hr |]. split; [lia |]. split; [exact Hget |].
    split; [exact Hc |]. split; [exact Hj |]. split; [exact Hrun |].
    split; [reflexivity |]. split; [reflexivity |].
    rewrite Hsplit, length_app, Hlen. simpl. lia.
  - injection Hrun as <- <-. rewrite after_poll_events in Hk.
    destruct (k - 2 * n)%nat as [| [| j]]; discriminate.
Qed.

(** A poll found among the events of a run, whose answer does not tell of
    a job still running, is the poll of its last iteration. *)
Lemma locate_poll out video_id max_wait h start fuel w res w' k u h' latency r :
  poll_loop out fuel video_id max_wait h start w = (res, w') ->
  new_events w w' !! k = Some (EvGet u h') ->
  on_get out (length (trace w) + k) (status_url video_id) = Answered latency r ->
  pending r = false ->
  exists n w1,
    rounds out video_id max_wait h start n w w1 /\
    k = (2 * n)%nat /\
    (clock w1 - start < inject_Z max_wait)%Q /\
    on_get out (length (trace w1)) (status_url video_id) = Answered latency r /\
    poll_loop out 1 video_id max_wait h start w1 = (res, w').
Proof.
  intros Hrun Hk Hget Hp.
  destruct (poll_loop_structure out video_id max_wait h start fuel w)
    as (n & w1 & Hr & Hend).
  destruct (rounds_events _ _ _ _ _ _ _ _ Hr) as (evs & Ht & Hlen & _ & _ & Hpoll).
  pose proof (new_events_exact w w1 evs Ht) as Hev.
  pose proof (rounds_length _ _ _ _ _ _ _ _ Hr) as Hlw1.
  assert (Hno : forall x y, evs !! k = Some (EvGet x y) -> False).
  { intros x y Hi. destruct (Hpoll k x y Hi) as (l' & r' & Hg & Hp').
    congruence. }
  destruct Hend as [[-> Hout] | (Hn & Hlast & Hone)].
  { rewrite Hout in Hrun. injection Hrun as <- <-. rewrite Hev in Hk.
    destruct (Hno _ _ Hk). }
  rewrite Hone in Hrun.
  rewrite (run_events _ _ _ _ _ _ _ _ _ _ _ Hr Hrun), Hev in Hk.
  apply lookup_app_Some in Hk as [Hk | [Hge Hk]]; [destruct (Hno _ _ Hk) |].
  rewrite Hlen in Hge, Hk.
  assert (Hzero : (k - 2 * n)%nat = 0%nat /\
                  (clock w1 - start < inject_Z max_wait)%Q).
  { destruct (last_iteration out video_id max_wait h start w1 Hlast)
      as [[_ E] | [Hlt [(l & msg & _ & E) | [(l & r0 & d & _ & _ & _ & E)
                                            | (l & r0 & e & _ & _ & _ & E)]]]];
      rewrite E in Hrun.
    - injection Hrun as <- <-. rewrite new_events_self in Hk.
      destruct (k - 2 * n)%nat; discriminate.
    - injection Hrun as <- <-. rewrite after_poll_events in Hk.
      destruct (k - 2 * n)%nat as [| [| j]]; try discriminate. split; [lia | exact Hlt].
    - replace w' with (snd (download out video_id (Py.VDict d) h
                              (after_poll video_id h l w1))) in Hk
        by (rewrite Hrun; reflexivity).
      rewrite download_events in Hk.
      destruct (k - 2 * n)%nat as [| [| j]]; try discriminate. split; [lia | exact Hlt].
    - injection Hrun as <- <-. rewrite after_poll_events in Hk.
      destruct (k - 2 * n)%nat as [| [| j]]; try discriminate. split; [lia | exact Hlt]. }
  destruct Hzero as [Hz Hlt].
  assert (Hkn : k = (2 * n)%nat) by lia.
  exists n, w1. repeat split; try assumption.
  rewrite Hlw1, <- Hkn. exact Hget.
Qed.

(* ===================================================================== *)
(** * The download, case by case *)
(* ===================================================================== *)

(** A content request answered with another status than 200 ends in that
    status; the disk is not touched. *)
Lemma download_refused out video_id video_data h w latency r error_text :
  on_stream out (length (trace w)) (content_url video_id) = Answered latency r ->
  stream_status_code r <> 200 ->
  decoded r = inr error_text ->
  download out video_id video_data h w =
    (Raise (HTTPException (stream_status_code r)
              ("Failed to download video content: " +:+ error_text)),
     tick latency (EvStream (content_url video_id) h) w).
Proof.
  intros Hs Hsc Hd. unfold download. unfold bind at 1. unfold client_stream.
  fold (content_url video_id). rewrite Hs. simpl settle. cbv iota beta.
  destruct (Z.eqb_spec (stream_status_code r) 200) as [E | _]; [contradiction |].
  rewrite Hd. reflexivity.
Qed.

(** What is opened for writing is never the root and never a directory. *)
Lemma open_wb_target (t : Fs.tree) cwd s key t' :
  Fs.open_wb t cwd s = inr (key, t') ->
  key <> [] /\ Fs.node_at t key <> Some Fs.Dir.
Proof.
  unfold Fs.open_wb.
  destruct (String.eqb s EmptyString); [discriminate |].
  destruct (Fs.walk t (Fs.origin cwd s) (removelast (PathLib.components s)))
    as [e | d]; [discriminate |].
  destruct (Fs.node_at t d) as [[content |] |]; try discriminate.
  set (c := List.last (PathLib.components s) EmptyString).
  destruct (String.eqb c EmptyString || String.eqb c "." || String.eqb c "..");
    [discriminate |].
  intros H.
  assert (Hkey : key = d ++ [c])
    by (destruct (t !! (d ++ [c])) as [[x |] |]; try discriminate;
        injection H as <- _; reflexivity).
  subst key. split; [destruct d; discriminate |].
  destruct (d ++ [c]) as [| c0 k0] eqn:E; [destruct d; discriminate |].
  simpl. intros Hdir. rewrite Hdir in H. discriminate.
Qed.

(** Once the file is open, the chunks are on the disk whatever comes
    next. *)
Lemma download_saved out video_id video_data h w latency r file t :
  on_stream out (length (trace w)) (content_url video_id) = Answered latency r ->
  stream_status_code r = 200 ->
  Fs.open_wb (fs w) (cwd w) (video_path_str (job_filename video_id)) = inr (file, t) ->
  let run := download out video_id video_data h w in
  fs (snd run) = <[file := Fs.File (concat (aiter_bytes r 8192))]> (fs w) /\
  cwd (snd run) = cwd w /\
  Fs.stat (fs (snd run)) (cwd (snd run)) (video_path_str (job_filename video_id)) =
    inr (file, Fs.File (concat (aiter_bytes r 8192))) /\
  (forall msg, abort r = Some msg -> fst run = Raise (Exception msg)).
Proof.
  intros Hs Hsc Hopen run.
  destruct (open_wb_stat _ _ _ _ _ Hopen) as [Ht Hstat].
  pose proof (stat_insert_file _ _ _ _ _ (concat (aiter_bytes r 8192)) Hstat) as Hstat'.
  rewrite Ht, insert_insert_eq in Hstat'.
  assert (E : exists res,
             run = (res, with_fs (<[file := Fs.File (concat (aiter_bytes r 8192))]> (fs w))
                           (tick latency (EvStream (content_url video_id) h) w)) /\
             forall msg, abort r = Some msg -> res = Raise (Exception msg)).
  { unfold run, download. unfold bind at 1. unfold client_stream.
    fold (content_url video_id). fold (job_filename video_id).
    fold (video_path_str (job_filename video_id)).
    rewrite Hs. simpl settle. cbv iota beta. rewrite Hsc. change (200 =? 200) with true. cbv iota beta.
    unfold bind at 1. unfold open_wb.
    change (fs (tick latency (EvStream (content_url video_id) h) w)) with (fs w).
    change (cwd (tick latency (EvStream (content_url video_id) h) w)) with (cwd w).
    rewrite Hopen. cbv iota beta.
    subst t. unfold bind at 1.
    rewrite (save_chunks_spec file (aiter_bytes r 8192) 0 _ [])
      by (simpl; apply lookup_insert_eq).
    cbv iota beta. simpl app. simpl fs. rewrite insert_insert_eq.
    destruct (abort r) as [msg |].
    - eexists. split; [reflexivity |]. intros m Hm. congruence.
    - destruct video_data; simpl; eexists; (split; [reflexivity | discriminate]). }
  destruct E as (res & -> & Habort). simpl.
  split; [reflexivity |]. split; [reflexivity |]. split; [exact Hstat' |]. exact Habort.
Qed.

(** A download touches one entry of the disk at most: the file it
    opened. *)
Lemma download_footprint out video_id video_data h w :
  let run := download out video_id video_data h w in
  cwd (snd run) = cwd w /\
  (fs (snd run) = fs w \/
   exists file content,
     fs (snd run) = <[file := Fs.File content]> (fs w) /\
     file <> [] /\ Fs.node_at (fs w) file <> Some Fs.Dir /\
     Fs.stat (fs (snd run)) (cwd (snd run)) (video_path_str (job_filename video_id)) =
       inr (file, Fs.File content)).
Proof.
  intros run.
  assert (Hcwd : cwd (snd run) = cwd w)
    by (destruct (appends_download out video_id video_data h w) as [Hc _]; exact Hc).
  split; [exact Hcwd |].
  destruct (on_stream out (length (trace w)) (content_url video_id))
    as [latency r | latency msg] eqn:Hs.
  2:{ left. unfold run, download. unfold bind at 1. unfold client_stream.
      fold (content_url video_id). rewrite Hs. reflexivity. }
  destruct (Z.eqb_spec (stream_status_code r) 200) as [E200 | N200].
  2:{ left. unfold run, download. unfold bind at 1. unfold client_stream.
      fold (content_url video_id). rewrite Hs. simpl settle. cbv iota beta.
      destruct (Z.eqb_spec (stream_status_code r) 200); [contradiction |].
      destruct (decoded r); reflexivity. }
  destruct (Fs.open_wb (fs w) (cwd w) (video_path_str (job_filename video_id)))
    as [e | [file t]] eqn:Hopen.
  { left. unfold run, download. unfold bind at 1. unfold client_stream.
    fold (content_url video_id). fold (job_filename video_id).
    fold (video_path_str (job_filename video_id)).
    rewrite Hs. simpl settle. cbv iota beta. rewrite E200. change (200 =? 200) with true. cbv iota beta.
    unfold bind at 1. unfold open_wb.
    change (fs (tick latency (EvStream (content_url video_id) h) w)) with (fs w).
    change (cwd (tick latency (EvStream (content_url video_id) h) w)) with (cwd w).
    rewrite Hopen. reflexivity. }
  right.
  destruct (download_saved out video_id video_data h w latency r file t Hs E200 Hopen)
    as (Hfs & _ & Hstat & _).
  destruct (open_wb_target _ _ _ _ _ Hopen) as [Hne Hnd].
  exists file, (concat (aiter_bytes r 8192)). repeat split; assumption.
Qed.

Lemma lookup_set_ne k k' v d :
  k <> k' -> Py.lookup k' (Py.set k v d) = Py.lookup k' d.
Proof.
  intros Hne. induction d as [| [k0 v0] d IH]; simpl.
  - destruct (String.eqb_spec k' k); [congruence | reflexivity].
  - destruct (String.eqb_spec k k0) as [-> | Hk0]; simpl.
    + destruct (String.eqb_spec k' k0); [congruence | reflexivity].
    + destruct (String.eqb_spec k' k0); [reflexivity | exact IH].
Qed.

(** What a download returns: the job as polled, with the two local
    entries set. *)
Lemma download_returns_data out video_id d h w v w' :
  download out video_id (Py.VDict d) h w = (Return v, w') ->
  v = Py.VDict
        (Py.set "video_filename" (Py.VStr (job_filename video_id))
           (Py.set "local_path" (Py.VStr (video_path_str (job_filename video_id))) d)).
Proof.
  unfold download. unfold bind at 1. unfold client_stream.
  fold (content_url video_id). fold (job_filename video_id).
  fold (video_path_str (job_filename video_id)).
  destruct (on_stream out (length (trace w)) (content_url video_id))
    as [latency r | latency msg]; simpl settle; cbv iota beta; [| discriminate].
  destruct (stream_status_code r =? 200).
  2:{ destruct (decoded r); discriminate. }
  unfold bind at 1. unfold open_wb.
  destruct (Fs.open_wb _ _ _) as [e | [key t]]; [discriminate |].
  cbv iota beta. unfold bind at 1.
  destruct (save_chunks_returns key (aiter_bytes r 8192) 0
              (with_fs t (tick latency (EvStream (content_url video_id) h) w)))
    as (n & t' & E).
  rewrite E. cbv iota beta.
  destruct (abort r); [discriminate |].
  simpl. unfold bind, ret. intros H. injection H as <- _. reflexivity.
Qed.

(* ===================================================================== *)
(** * The anatomy of a run *)
(* ===================================================================== *)

(** A run is some rounds, and then either the fuel is spent or the last
    iteration ends it. *)
Lemma run_anatomy out video_id max_wait h start fuel w res w' :
  poll_loop out fuel video_id max_wait h start w = (res, w') ->
  exists n w1,
    rounds out video_id max_wait h start n w w1 /\
    ((n = fuel /\ res = OutOfFuel /\ w' = w1) \/
     ((n < fuel)%nat /\ ended out video_id max_wait h start w1 res w')).
Proof.
  intros Hrun.
  destruct (poll_loop_structure out video_id max_wait h start fuel w)
    as (n & w1 & Hr & Hend).
  exists n, w1. split; [exact Hr |].
  destruct Hend as [[-> Hout] | (Hn & Hlast & Hone)].
  { left. rewrite Hout in Hrun. injection Hrun as <- <-. repeat split. }
  right. split; [exact Hn |]. rewrite Hone in Hrun.
  destruct (last_iteration out video_id max_wait h start w1 Hlast)
    as [[Hle E] | [Hlt [(l & msg & Hg & E) | [(l & r & d & Hg & Hc & Hj & E)
                                             | (l & r & e & Hg & Hp & Hc & E)]]]];
    rewrite E in Hrun.
  - injection Hrun as <- <-. constructor. exact Hle.
  - injection Hrun as <- <-. econstructor; eassumption.
  - eapply ended_download; eassumption.
  - injection Hrun as <- <-. eapply ended_stop; eassumption.
Qed.

(** What the last iteration adds to the events, and to the disk. *)
Lemma ended_events out video_id max_wait h start w1 res w' :
  ended out video_id max_wait h start w1 res w' ->
  (new_events w1 w' = [] /\ (inject_Z max_wait <= clock w1 - start)%Q) \/
  ((clock w1 - start < inject_Z max_wait)%Q /\
   (new_events w1 w' = [EvGet (status_url video_id) h] \/
    new_events w1 w' = [EvGet (status_url video_id) h;
                        EvStream (content_url video_id) h])).
Proof.
  intros [Hle | l msg Hlt _ | l r d res0 w0 Hlt _ _ _ Hd | l r e Hlt _ _ _].
  - left. split; [apply new_events_self | exact Hle].
  - right. split; [exact Hlt |]. left. apply after_poll_events.
  - right. split; [exact Hlt |]. right.
    replace w0 with (snd (download out video_id (Py.VDict d) h
                            (after_poll video_id h l w1)))
      by (rewrite Hd; reflexivity).
    apply download_events.
  - right. split; [exact Hlt |]. left. apply after_poll_events.
Qed.

Lemma ended_grows out video_id max_wait h start w1 res w' :
  ended out video_id max_wait h start w1 res w' -> grows w1 w'.
Proof.
  intros [Hle | l msg _ _ | l r d res0 w0 _ _ _ _ Hd | l r e _ _ _ _].
  - apply grows_refl.
  - apply grows_tick.
  - eapply grows_trans; [apply grows_tick |].
    eapply appends_snd; [apply appends_download | exact Hd].
  - apply grows_tick.
Qed.

Lemma count_polls_app a b : count_polls (a ++ b) = (count_polls a + count_polls b)%nat.
Proof. unfold count_polls. rewrite List.filter_app, length_app. reflexivity. Qed.

(** While time moves forward, every round lasts a second at least, and a
    round that starts is within the budget. *)
Lemma rounds_clock out video_id max_wait h start n w w1 :
  time_moves_forward out video_id ->
  rounds out video_id max_wait h start n w w1 ->
  (0 <= clock w - start)%Q ->
  (0 <= clock w1 - start)%Q /\
  (inject_Z (Z.of_nat n) <= clock w1 - clock w)%Q /\
  ((1 <= n)%nat ->
   (inject_Z (Z.of_nat n) < inject_Z max_wait - (clock w - start) + 1)%Q) /\
  sleeps_within 1 5 (new_events w w1).
Proof.
  intros [Hlat Hover] Hr.
  induction Hr as [w | n w latency r w1 Hlt Hget Hp Hr IH]; intros H0.
  { change (inject_Z (Z.of_nat 0)) with 0%Q. rewrite new_events_self.
    repeat split; try lra; try lia. constructor. }
  pose proof (Hlat _ _ _ Hget) as Hl.
  set (w0 := after_poll video_id h latency w) in *.
  set (d := poll_delay start (clock w + latency)) in *.
  set (w2 := after_sleep out d w0) in *.
  assert (Hd : (1 <= d <= 5)%Q) by (apply poll_delay_bounds; lra).
  assert (Hmax : (Qmax 0 d == d)%Q) by (apply Q.max_r; lra).
  pose proof (Hover (length (trace w0))) as Ho.
  assert (Hclock : (clock w2 == clock w + latency + d + oversleep out (length (trace w0)))%Q).
  { simpl. rewrite Hmax. ring. }
  assert (Hsucc : (inject_Z (Z.of_nat (S n)) == inject_Z (Z.of_nat n) + 1)%Q).
  { rewrite Nat2Z.inj_succ. unfold Z.succ. rewrite inject_Z_plus. reflexivity. }
  destruct IH as (H1 & Hn & Hbudget & Hsl); [rewrite Hclock; lra |].
  assert (Hev : new_events w w1 =
                [EvGet (status_url video_id) h; EvSleep d] ++ new_events w2 w1).
  { rewrite (new_events_via w w2 w1).
    - unfold w2, w0. rewrite after_sleep_events. reflexivity.
    - eapply grows_trans; apply grows_tick.
    - eapply rounds_grows; exact Hr. }
  split; [exact H1 |]. split; [| split].
  - rewrite Hsucc. rewrite Hclock in Hn. lra.
  - intros _. rewrite Hsucc.
    destruct n as [| n'].
    + change (inject_Z (Z.of_nat 0)) with 0%Q. lra.
    + specialize (Hbudget ltac:(lia)). rewrite Hclock in Hbudget. lra.
  - rewrite Hev. repeat constructor; try apply Hd. exact Hsl.
Qed.

(* ===================================================================== *)
(** * More about [wait_for_video_completion] *)
(* ===================================================================== *)

Lemma wait_run key out fuel video_id max_wait w :
  poll_loop out fuel video_id max_wait (poll_headers key) (clock w) w =
  (fst (wait_for_video_completion key out fuel video_id max_wait w),
   snd (wait_for_video_completion key out fuel video_id max_wait w)).
Proof.
  rewrite wait_for_video_completion_unfold.
  destruct (poll_loop _ _ _ _ _ _ _); reflexivity.
Qed.

Lemma bad_status_not_pending r : status_code r <> 200 -> pending r = false.
Proof.
  intros H. unfold pending, polled_status.
  destruct (Z.eqb_spec (status_code r) 200); [contradiction | reflexivity].
Qed.

Lemma new_events_length w w' :
  grows w w' -> length (trace w') = (length (trace w) + length (new_events w w'))%nat.
Proof.
  intros [_ [evs H]]. rewrite (new_events_exact w w' evs H), H, length_app.
  reflexivity.
Qed.

(** X1: when a status poll of [wait_for_video_completion] is answered with
    a status code other than 200, the call raises an [HTTPException] with
    that very status code and the answer's body in its detail; that poll
    is the last event of the run, and the disk is as it was. *)
Theorem poll_error_status_propagates key out fuel video_id max_wait w k latency r :
  let run := wait_for_video_completion key out fuel video_id max_wait w in
  new_events w (snd run) !! k = Some (EvGet (status_url video_id) (poll_headers key)) ->
  on_get out (length (trace w) + k) (status_url video_id) = Answered latency r ->
  status_code r <> 200 ->
  fst run = Raise (HTTPException (status_code r)
                     ("Failed to check video status: " +:+ text r)) /\
  length (new_events w (snd run)) = S k /\
  fs (snd run) = fs w.
Proof.
  intros run Hk Hget Hsc.
  pose proof (wait_run key out fuel video_id max_wait w) as Hrun. fold run in Hrun.
  destruct (locate_poll _ _ _ _ _ _ _ _ _ _ _ _ _ _ Hrun Hk Hget
              (bad_status_not_pending r Hsc))
    as (n & w1 & Hr & Hkn & Hlt & Hget1 & Hone).
  rewrite (poll_loop_bad_status _ _ _ _ _ _ _ _ _ Hlt Hget1 Hsc) in Hone.
  injection Hone as Hres Hw.
  destruct (rounds_same_disk _ _ _ _ _ _ _ _ Hr) as [Hfs _].
  pose proof (rounds_length _ _ _ _ _ _ _ _ Hr) as Hlen.
  split; [symmetry; exact Hres |]. split.
  - unfold new_events. rewrite length_drop, <- Hw. simpl.
    rewrite length_app, Hlen. simpl. lia.
  - rewrite <- Hw. exact Hfs.
Qed.

Lemma poll_error_status_propagates_witness :
  let run := wait_for_video_completion Sample.key (Sample.upstream Sample.unavailable) 5
               Sample.video_1 600 Sample.world in
  fst run = Raise (HTTPException 503 ("Failed to check video status: " +:+ "upstream down"))
  /\ length (new_events Sample.world (snd run)) = 3%nat
  /\ fs (snd run) = fs Sample.world.
Proof.
  apply (poll_error_status_propagates Sample.key (Sample.upstream Sample.unavailable)
           5%nat Sample.video_1 600 Sample.world 2%nat (1 # 2) Sample.unavailable).
  - vm_compute. reflexivity.
  - reflexivity.
  - discriminate.
Defined.

(** X2: when the content request of [wait_for_video_completion] is
    answered with a status code other than 200, the call raises an
    [HTTPException] with that status code and the decoded body in its
    detail, and nothing is written: the disk is as it was. *)
Theorem content_error_status_propagates key out fuel video_id max_wait w k u h' latency r
    error_text :
  let run := wait_for_video_completion key out fuel video_id max_wait w in
  new_events w (snd run) !! k = Some (EvStream u h') ->
  on_stream out (length (trace w) + k) (content_url video_id) = Answered latency r ->
  stream_status_code r <> 200 ->
  decoded r = inr error_text ->
  fst run = Raise (HTTPException (stream_status_code r)
                     ("Failed to download video content: " +:+ error_text)) /\
  fs (snd run) = fs w.
Proof.
  intros run Hk Hs Hsc Hd.
  pose proof (wait_run key out fuel video_id max_wait w) as Hrun. fold run in Hrun.
  destruct (locate_stream _ _ _ _ _ _ _ _ _ _ _ _ Hrun Hk)
    as (n & w1 & l & r0 & d & Hr & Hkn & _ & _ & _ & Hdl & _ & _ & _).
  destruct (rounds_same_disk _ _ _ _ _ _ _ _ Hr) as [Hfs _].
  pose proof (rounds_length _ _ _ _ _ _ _ _ Hr) as Hlen.
  assert (Hidx : length (trace (after_poll video_id (poll_headers key) l w1)) =
                 (length (trace w) + k)%nat).
  { simpl. rewrite length_app, Hlen. simpl. lia. }
  rewrite <- Hidx in Hs.
  rewrite (download_refused _ _ _ _ _ _ _ _ Hs Hsc Hd) in Hdl.
  injection Hdl as Hres Hw.
  split; [symmetry; exact Hres |]. rewrite <- Hw. exact Hfs.
Qed.

Lemma content_error_status_propagates_witness :
  let run := wait_for_video_completion Sample.key (Sample.serving Sample.gone) 5
               Sample.video_1 600 Sample.world in
  fst run = Raise (HTTPException 404
                     ("Failed to download video content: " +:+ "no such video"))
  /\ fs (snd run) = fs Sample.world.
Proof.
  apply (content_error_status_propagates Sample.key (Sample.serving Sample.gone) 5%nat
           Sample.video_1 600 Sample.world 3%nat
           (content_url Sample.video_1) (poll_headers Sample.key) 2 Sample.gone
           "no such video").
  - vm_compute. reflexivity.
  - reflexivity.
  - discriminate.
  - reflexivity.
Defined.

Lemma failed_silent_not_pending r d :
  status_code r = 200 -> json r = inr (Py.VDict d) ->
  Py.lookup "status" d = Some (Py.VStr "failed") -> pending r = false.
Proof.
  intros H200 Hj Hs. unfold pending, polled_status. rewrite H200, Hj, Hs. reflexivity.
Qed.

(** X3: when a status poll reports a failed job whose answer carries no
    error object, or an error object without a message, the call raises
    the 500 with the stock text "Unknown error", and no download is
    attempted. *)
Theorem failed_job_without_message key out fuel video_id max_wait w k latency r d :
  let run := wait_for_video_completion key out fuel video_id max_wait w in
  new_events w (snd run) !! k = Some (EvGet (status_url video_id) (poll_headers key)) ->
  on_get out (length (trace w) + k) (status_url video_id) = Answered latency r ->
  status_code r = 200 ->
  json r = inr (Py.VDict d) ->
  Py.lookup "status" d = Some (Py.VStr "failed") ->
  (Py.lookup "error" d = None \/
   exists e, Py.lookup "error" d = Some (Py.VDict e) /\ Py.lookup "message" e = None) ->
  fst run = Raise (HTTPException 500 "Video generation failed: Unknown error") /\
  length (new_events w (snd run)) = S k /\
  Forall (fun e => is_stream e = false) (new_events w (snd run)).
Proof.
  intros run Hk Hget H200 Hj Hs He.
  pose proof (wait_run key out fuel video_id max_wait w) as Hrun. fold run in Hrun.
  destruct (locate_poll _ _ _ _ _ _ _ _ _ _ _ _ _ _ Hrun Hk Hget
              (failed_silent_not_pending r d H200 Hj Hs))
    as (n & w1 & Hr & Hkn & Hlt & Hget1 & Hone).
  rewrite (poll_loop_failed_unknown _ _ _ _ _ _ _ _ _ _ Hlt Hget1 H200 Hj Hs He) in Hone.
  injection Hone as Hres Hw.
  destruct (rounds_events _ _ _ _ _ _ _ _ Hr) as (evs & Ht & Hlen & _ & Hns & _).
  assert (Hall : new_events w (snd run) = evs ++ [EvGet (status_url video_id) (poll_headers key)]).
  { apply new_events_exact. rewrite <- Hw. simpl. rewrite Ht, <- app_assoc. reflexivity. }
  split; [symmetry; exact Hres |]. rewrite Hall. split.
  - rewrite length_app, Hlen. simpl. lia.
  - apply Forall_app. split; [exact Hns | repeat constructor].
Qed.

Lemma failed_job_without_message_witness :
  let run := wait_for_video_completion Sample.key (Sample.upstream Sample.silent) 5
               Sample.video_1 600 Sample.world in
  fst run = Raise (HTTPException 500 "Video generation failed: Unknown error")
  /\ length (new_events Sample.world (snd run)) = 3%nat
  /\ Forall (fun e => is_stream e = false) (new_events Sample.world (snd run)).
Proof.
  apply (failed_job_without_message Sample.key (Sample.upstream Sample.silent) 5%nat
           Sample.video_1 600 Sample.world 2%nat (1 # 2) Sample.silent
           [("id", Py.VStr "video_1"); ("status", Py.VStr "failed")]).
  - vm_compute. reflexivity.
  - reflexivity.
  - reflexivity.
  - reflexivity.
  - reflexivity.
  - left. reflexivity.
Defined.

(** X4: with a budget of zero or less, [wait_for_video_completion] raises
    the timeout at once: it sends no request, does not sleep, and leaves
    the world as it was. *)
Theorem no_budget_no_poll key out fuel video_id max_wait w :
  max_wait <= 0 ->
  wait_for_video_completion key out (S fuel) video_id max_wait w =
    (Raise (HTTPException 408 "Video generation timeout"), w).
Proof.
  intros Hmax. rewrite wait_for_video_completion_unfold.
  apply poll_loop_timeout.
  assert (inject_Z max_wait <= 0)%Q
    by (change 0%Q with (inject_Z 0); rewrite <- Zle_Qle; exact Hmax).
  lra.
Qed.

Lemma no_budget_no_poll_witness :
  wait_for_video_completion Sample.key Sample.stuck 1 Sample.video_1 0 Sample.world =
    (Raise (HTTPException 408 "Video generation timeout"), Sample.world).
Proof.
  apply (no_budget_no_poll Sample.key Sample.stuck 0%nat Sample.video_1 0 Sample.world).
  lia.
Defined.

(** The events of a run, split at its last iteration. *)
Lemma anatomy_events out video_id max_wait h start n w w1 res w' :
  rounds out video_id max_wait h start n w w1 ->
  ended out video_id max_wait h start w1 res w' ->
  new_events w w' = new_events w w1 ++ new_events w1 w'.
Proof.
  intros Hr He. apply new_events_via.
  - eapply rounds_grows; exact Hr.
  - eapply ended_grows; exact He.
Qed.

Lemma rounds_count out video_id max_wait h start n w w1 :
  rounds out video_id max_wait h start n w w1 ->
  count_polls (new_events w w1) = n /\
  Forall (fun e => is_stream e = false) (new_events w w1).
Proof.
  intros Hr. destruct (rounds_events _ _ _ _ _ _ _ _ Hr) as (evs & Ht & _ & Hc & Hns & _).
  rewrite (new_events_exact w w1 evs Ht). split; assumption.
Qed.

(** The download has no loop of its own to run out of fuel in. *)
Lemma download_ends out video_id video_data h w :
  fst (download out video_id video_data h w) <> OutOfFuel.
Proof.
  unfold download. unfold bind at 1. unfold client_stream.
  destruct (on_stream out (length (trace w)) _) as [latency r | latency msg];
    simpl settle; cbv iota beta; [| discriminate].
  destruct (stream_status_code r =? 200).
  2:{ destruct (decoded r); discriminate. }
  unfold bind at 1. unfold open_wb.
  destruct (Fs.open_wb _ _ _) as [e | [key t]]; [discriminate |].
  cbv iota beta. unfold bind at 1.
  destruct (save_chunks_returns key (aiter_bytes r 8192) 0
              (with_fs t (tick latency
                            (EvStream (OPENAI_API_BASE +:+ "/videos/" +:+ Py.str video_id
                                       +:+ "/content") h) w)))
    as (n & t' & E).
  rewrite E. cbv iota beta.
  destruct (abort r); [discriminate |].
  destruct video_data; discriminate.
Qed.

Lemma ended_ends out video_id max_wait h start w1 res w' :
  ended out video_id max_wait h start w1 res w' -> res <> OutOfFuel.
Proof.
  intros [Hle | l msg _ _ | l r d res0 w0 _ _ _ _ Hd | l r e _ _ _ _];
    try discriminate.
  pose proof (download_ends out video_id (Py.VDict d) h (after_poll video_id h l w1)) as H.
  rewrite Hd in H. exact H.
Qed.

(** X5: while no poll takes a negative time and no sleep ends early, the
    loop of [wait_for_video_completion] cannot go on: with fuel for more
    than [max_wait] iterations the call ends in a Python outcome, and it
    has sent at most [max_wait] status polls. *)
Theorem polls_bounded_by_budget key out fuel video_id max_wait w :
  time_moves_forward out video_id ->
  (Z.to_nat max_wait < fuel)%nat ->
  let run := wait_for_video_completion key out fuel video_id max_wait w in
  fst run <> OutOfFuel /\
  (count_polls (new_events w (snd run)) <= Z.to_nat max_wait)%nat.
Proof.
  intros Hfw Hfuel run.
  pose proof (wait_run key out fuel video_id max_wait w) as Hrun. fold run in Hrun.
  destruct (run_anatomy _ _ _ _ _ _ _ _ _ Hrun) as (n & w1 & Hr & Hend).
  destruct (rounds_clock _ _ _ _ _ _ _ _ Hfw Hr) as (_ & Hn & Hbudget & _); [lra |].
  destruct (rounds_count _ _ _ _ _ _ _ _ Hr) as [Hcount _].
  assert (Hstarted : (1 <= n)%nat -> Z.of_nat n < max_wait + 1).
  { intros H1. specialize (Hbudget H1).
    rewrite Zlt_Qlt, inject_Z_plus. change (inject_Z 1) with 1%Q. lra. }
  destruct Hend as [(-> & _ & _) | [Hlt He]].
  { exfalso. assert (1 <= fuel)%nat by lia. specialize (Hstarted ltac:(lia)). lia. }
  split.
  - eapply ended_ends; exact He.
  - rewrite (anatomy_events _ _ _ _ _ _ _ _ _ _ Hr He), count_polls_app, Hcount.
    destruct (ended_events _ _ _ _ _ _ _ _ He) as [[-> _] | [Hin Hev]].
    + unfold count_polls. simpl. destruct n as [| n']; [lia |].
      specialize (Hstarted ltac:(lia)). lia.
    + assert (Hnz : Z.of_nat n < max_wait) by (rewrite Zlt_Qlt; lra).
      destruct Hev as [-> | ->]; unfold count_polls; simpl; lia.
Qed.

Lemma polls_bounded_by_budget_witness :
  let run := wait_for_video_completion Sample.key Sample.stuck 3 Sample.video_1 2
               Sample.world in
  fst run <> OutOfFuel /\
  (count_polls (new_events Sample.world (snd run)) <= Z.to_nat 2)%nat.
Proof.
  apply (polls_bounded_by_budget Sample.key Sample.stuck 3%nat Sample.video_1 2
           Sample.world).
  - split.
    + intros n latency r H. simpl in H. injection H as <- _. discriminate.
    + intros n. simpl. discriminate.
  - simpl. lia.
Defined.

(** X6: while no poll takes a negative time and no sleep ends early, every
    sleep a run of [wait_for_video_completion] asks for lasts between one
    and five seconds. *)
Theorem sleeps_between_one_and_five key out fuel video_id max_wait w :
  time_moves_forward out video_id ->
  sleeps_within 1 5
    (new_events w (snd (wait_for_video_completion key out fuel video_id max_wait w))).
Proof.
  intros Hfw.
  pose proof (wait_run key out fuel video_id max_wait w) as Hrun.
  destruct (run_anatomy _ _ _ _ _ _ _ _ _ Hrun) as (n & w1 & Hr & Hend).
  destruct (rounds_clock _ _ _ _ _ _ _ _ Hfw Hr) as (_ & _ & _ & Hsl); [lra |].
  destruct Hend as [(_ & _ & ->) | [_ He]]; [exact Hsl |].
  rewrite (anatomy_events _ _ _ _ _ _ _ _ _ _ Hr He).
  apply Forall_app. split; [exact Hsl |].
  destruct (ended_events _ _ _ _ _ _ _ _ He) as [[-> _] | [_ [-> | ->]]];
    repeat constructor.
Qed.

Lemma sleeps_between_one_and_five_witness :
  sleeps_within 1 5
    (new_events Sample.world
       (snd (wait_for_video_completion Sample.key Sample.stuck 3 Sample.video_1 2
               Sample.world))).
Proof.
  apply (sleeps_between_one_and_five Sample.key Sample.stuck 3%nat Sample.video_1 2
           Sample.world).
  split.
  - intros n latency r H. simpl in H. injection H as <- _. discriminate.
  - intros n. simpl. discriminate.
Defined.

(** X7: a run of [wait_for_video_completion] downloads at most once, from
    the job's content URL, and the download is its last event: no poll,
    no sleep and no second download follows. *)
Theorem download_is_the_last_event key out fuel video_id max_wait w k u h' :
  let run := wait_for_video_completion key out fuel video_id max_wait w in
  new_events w (snd run) !! k = Some (EvStream u h') ->
  length (new_events w (snd run)) = S k /\
  u = content_url video_id /\
  h' = poll_headers key /\
  forall j u2 h2, new_events w (snd run) !! j = Some (EvStream u2 h2) -> j = k.
Proof.
  intros run Hk.
  pose proof (wait_run key out fuel video_id max_wait w) as Hrun. fold run in Hrun.
  destruct (locate_stream _ _ _ _ _ _ _ _ _ _ _ _ Hrun Hk)
    as (n & w1 & l & r & d & _ & _ & _ & _ & _ & _ & Hu & Hh & Hlen).
  repeat split; try assumption.
  intros j u2 h2 Hj.
  destruct (locate_stream _ _ _ _ _ _ _ _ _ _ _ _ Hrun Hj)
    as (n2 & w2 & l2 & r2 & d2 & _ & _ & _ & _ & _ & _ & _ & _ & Hlen2).
  lia.
Qed.

Lemma download_is_the_last_event_witness :
  let run := wait_for_video_completion Sample.key (Sample.upstream Sample.done) 5
               Sample.video_1 600 Sample.world in
  length (new_events Sample.world (snd run)) = 4%nat /\
  content_url Sample.video_1 = content_url Sample.video_1 /\
  poll_headers Sample.key = poll_headers Sample.key /\
  forall j u2 h2,
    new_events Sample.world (snd run) !! j = Some (EvStream u2 h2) -> j = 3%nat.
Proof.
  apply (download_is_the_last_event Sample.key (Sample.upstream Sample.done) 5%nat
           Sample.video_1 600 Sample.world 3%nat
           (content_url Sample.video_1) (poll_headers Sample.key)).
  vm_compute. reflexivity.
Defined.

(** X8: whatever the outside does, a run of [wait_for_video_completion]
    changes one entry of the disk at most, the file the job's path leads
    to, which then is a regular file; nothing else is created, changed or
    removed, no directory is replaced, and the working directory stays. *)
Theorem run_touches_only_the_job_file key out fuel video_id max_wait w :
  let run := wait_for_video_completion key out fuel video_id max_wait w in
  cwd (snd run) = cwd w /\
  (fs (snd run) = fs w \/
   exists file content,
     fs (snd run) = <[file := Fs.File content]> (fs w) /\
     file <> [] /\
     Fs.node_at (fs w) file <> Some Fs.Dir /\
     Fs.stat (fs (snd run)) (cwd (snd run)) (video_path_str (job_filename video_id)) =
       inr (file, Fs.File content)).
Proof.
  intros run.
  pose proof (wait_run key out fuel video_id max_wait w) as Hrun. fold run in Hrun.
  destruct (run_anatomy _ _ _ _ _ _ _ _ _ Hrun) as (n & w1 & Hr & Hend).
  destruct (rounds_same_disk _ _ _ _ _ _ _ _ Hr) as [Hfs Hcwd].
  destruct Hend as [(_ & _ & ->) | [_ He]]; [split; [exact Hcwd | left; exact Hfs] |].
  destruct He as [Hle | l msg _ _ | l r d res0 w0 _ _ _ _ Hd | l r e _ _ _ _];
    try (split; [exact Hcwd | left; exact Hfs]).
  pose proof (download_footprint out video_id (Py.VDict d) (poll_headers key)
                (after_poll video_id (poll_headers key) l w1)) as Hfoot.
  rewrite Hd in Hfoot. simpl in Hfoot. rewrite Hfs, Hcwd in Hfoot.
  exact Hfoot.
Qed.

(** X9: when the content stream breaks after the file has been opened,
    the call raises the stream's error, and the chunks [aiter_bytes] had
    yielded before the break stay on the disk under the job's file name,
    one after the other: nothing cleans the partial file up. *)
Theorem interrupted_download_leaves_partial_file key out fuel video_id max_wait w k u h'
    latency r msg file t :
  let run := wait_for_video_completion key out fuel video_id max_wait w in
  new_events w (snd run) !! k = Some (EvStream u h') ->
  on_stream out (length (trace w) + k) (content_url video_id) = Answered latency r ->
  stream_status_code r = 200 ->
  abort r = Some msg ->
  Fs.open_wb (fs w) (cwd w) (video_path_str (job_filename video_id)) = inr (file, t) ->
  fst run = Raise (Exception msg) /\
  Fs.stat (fs (snd run)) (cwd (snd run)) (video_path_str (job_filename video_id)) =
    inr (file, Fs.File (concat (aiter_bytes r 8192))).
Proof.
  intros run Hk Hs H200 Hab Hopen.
  pose proof (wait_run key out fuel video_id max_wait w) as Hrun. fold run in Hrun.
  destruct (locate_stream _ _ _ _ _ _ _ _ _ _ _ _ Hrun Hk)
    as (n & w1 & l & r0 & d & Hr & Hkn & _ & _ & _ & Hdl & _ & _ & _).
  destruct (rounds_same_disk _ _ _ _ _ _ _ _ Hr) as [Hfs Hcwd].
  pose proof (rounds_length _ _ _ _ _ _ _ _ Hr) as Hlen.
  set (w0 := after_poll video_id (poll_headers key) l w1) in *.
  assert (Hidx : length (trace w0) = (length (trace w) + k)%nat).
  { simpl. rewrite length_app, Hlen. simpl. lia. }
  rewrite <- Hidx in Hs.
  assert (Hopen0 : Fs.open_wb (fs w0) (cwd w0) (video_path_str (job_filename video_id)) =
                   inr (file, t)).
  { change (fs w0) with (fs w1). change (cwd w0) with (cwd w1).
    rewrite Hfs, Hcwd. exact Hopen. }
  destruct (download_saved out video_id (Py.VDict d) (poll_headers key) w0 latency r
              file t Hs H200 Hopen0) as (_ & _ & Hstat & Habort).
  rewrite Hdl in Hstat, Habort. simpl in Hstat, Habort.
  split; [apply Habort, Hab | exact Hstat].
Qed.

Lemma interrupted_download_leaves_partial_file_witness :
  let run := wait_for_video_completion Sample.key (Sample.serving Sample.cut) 5
               Sample.video_1 600 Sample.world in
  fst run = Raise (Exception "peer closed connection") /\
  Fs.stat (fs (snd run)) (cwd (snd run)) (video_path_str (job_filename Sample.video_1)) =
    inr (["srv"; "app"; "videos"; "video_1.mp4"],
         Fs.File (concat (aiter_bytes Sample.cut 8192))).
Proof.
  apply (interrupted_download_leaves_partial_file Sample.key (Sample.serving Sample.cut)
           5%nat Sample.video_1 600 Sample.world 3%nat
           (content_url Sample.video_1) (poll_headers Sample.key) 2 Sample.cut
           "peer closed connection" ["srv"; "app"; "videos"; "video_1.mp4"]
           (<[ ["srv"; "app"; "videos"; "video_1.mp4"] := Fs.File [] ]> Sample.disk)).
  - vm_compute. reflexivity.
  - reflexivity.
  - reflexivity.
  - reflexivity.
  - vm_compute. reflexivity.
Defined.

(** X10: what [wait_for_video_completion] returns is the JSON object of
    the poll that reported the job completed, with ["local_path"] set to
    the path of the stored file and ["video_filename"] to its name: every
    other field is as the upstream sent it. *)
Theorem returned_data_is_the_polled_job key out fuel video_id max_wait w v :
  let run := wait_for_video_completion key out fuel video_id max_wait w in
  fst run = Return v ->
  exists k latency r d,
    new_events w (snd run) !! k = Some (EvGet (status_url video_id) (poll_headers key)) /\
    on_get out (length (trace w) + k) (status_url video_id) = Answered latency r /\
    completed r = true /\
    json r = inr (Py.VDict d) /\
    v = Py.VDict
          (Py.set "video_filename" (Py.VStr (job_filename video_id))
             (Py.set "local_path" (Py.VStr (video_path_str (job_filename video_id))) d)) /\
    forall field x,
      v = Py.VDict x ->
      (field <> "local_path" -> field <> "video_filename" ->
       Py.lookup field x = Py.lookup field d) /\
      Py.lookup "local_path" x = Some (Py.VStr (video_path_str (job_filename video_id))) /\
      Py.lookup "video_filename" x = Some (Py.VStr (job_filename video_id)).
Proof.
  intros run Hv.
  pose proof (wait_run key out fuel video_id max_wait w) as Hrun. fold run in Hrun.
  rewrite Hv in Hrun.
  destruct (run_anatomy _ _ _ _ _ _ _ _ _ Hrun) as (n & w1 & Hr & Hend).
  destruct Hend as [(_ & Hbad & _) | [_ He]]; [discriminate |].
  pose proof (anatomy_events _ _ _ _ _ _ _ _ _ _ Hr He) as Hsplit.
  destruct (rounds_events _ _ _ _ _ _ _ _ Hr) as (evs & Ht & Hlen & _).
  rewrite (new_events_exact w w1 evs Ht) in Hsplit.
  pose proof (rounds_length _ _ _ _ _ _ _ _ Hr) as Hlw1.
  inversion He as [Hle | l msg _ _ | l r d res0 w0 Hlt Hget Hc Hj Hd | l r e _ _ _ _];
    subst.
  pose proof (download_returns_data _ _ _ _ _ _ _ Hd) as Hdata.
  assert (Hlast : new_events w1 (snd run) =
                  [EvGet (status_url video_id) (poll_headers key);
                   EvStream (content_url video_id) (poll_headers key)]).
  { replace (snd run) with (snd (download out video_id (Py.VDict d) (poll_headers key)
                                   (after_poll video_id (poll_headers key) l w1)))
      by (rewrite Hd; reflexivity).
    apply download_events. }
  exists (2 * n)%nat, l, r, d.
  split; [| split; [| split; [| split; [| split]]]]; try assumption.
  - rewrite Hsplit, Hlast. rewrite lookup_app_r by lia.
    rewrite Hlen, Nat.sub_diag. reflexivity.
  - rewrite <- Hlw1. exact Hget.
  - intros field x Hx. rewrite Hdata in Hx. injection Hx as <-.
    split; [| split].
    + intros H1 H2. rewrite !lookup_set_ne by congruence. reflexivity.
    + rewrite lookup_set_ne by discriminate. apply lookup_set_eq.
    + apply lookup_set_eq.
Qed.

Lemma returned_data_is_the_polled_job_witness :
  let run := wait_for_video_completion Sample.key (Sample.upstream Sample.done) 5
               Sample.video_1 600 Sample.world in
  exists k latency r d,
    new_events Sample.world (snd run) !! k =
      Some (EvGet (status_url Sample.video_1) (poll_headers Sample.key)) /\
    on_get (Sample.upstream Sample.done) (length (trace Sample.world) + k)
      (status_url Sample.video_1) = Answered latency r /\
    completed r = true /\
    json r = inr (Py.VDict d) /\
    Sample.stored = Py.VDict
          (Py.set "video_filename" (Py.VStr (job_filename Sample.video_1))
             (Py.set "local_path"
                (Py.VStr (video_path_str (job_filename Sample.video_1))) d)) /\
    forall field x,
      Sample.stored = Py.VDict x ->
      (field <> "local_path" -> field <> "video_filename" ->
       Py.lookup field x = Py.lookup field d) /\
      Py.lookup "local_path" x =
        Some (Py.VStr (video_path_str (job_filename Sample.video_1))) /\
      Py.lookup "video_filename" x = Some (Py.VStr (job_filename Sample.video_1)).
Proof.
  apply (returned_data_is_the_polled_job Sample.key (Sample.upstream Sample.done) 5%nat
           Sample.video_1 600 Sample.world Sample.stored).
  vm_compute. reflexivity.
Defined.

(* ===================================================================== *)
(** * More about [generate_video] *)
(* ===================================================================== *)

Lemma accepted_status r :
  status_code r = 200 \/ status_code r = 201 ->
  negb ((status_code r =? 200) || (status_code r =? 201)) = false.
Proof. intros [-> | ->]; reflexivity. Qed.

Lemma refused_status r :
  status_code r <> 200 -> status_code r <> 201 ->
  negb ((status_code r =? 200) || (status_code r =? 201)) = true.
Proof.
  intros H0 H1.
  destruct (Z.eqb_spec (status_code r) 200); [contradiction |].
  destruct (Z.eqb_spec (status_code r) 201); [contradiction | reflexivity].
Qed.

(** The world once the creation request has been answered. *)
Lemma generate_video_unfold key out fuel request w :
  key_missing key = false ->
  generate_video key out fuel request w =
  try_except
    (bind (client_post out create_url (create_headers key)
             (Py.VDict (payload_of request)))
       (fun response =>
          if negb ((status_code response =? 200) || (status_code response =? 201)) then
            raise (HTTPException (status_code response)
                     ("Failed to create video: "
                      +:+ Py.str (create_error_detail response)))
          else
            video_data <- response_json response ;;
            video_id <- py_get video_data "id" Py.VNone ;;
            if negb (Py.truthy video_id) then
              raise (HTTPException 500 "No video ID returned")
            else
              completed_video <- wait_for_video_completion key out fuel video_id 600 ;;
              video_filename <- py_get completed_video "video_filename" Py.VNone ;;
              if negb (Py.truthy video_filename) then
                raise (HTTPException 500
                         ("No video file found. Response: "
                          +:+ Py.take 500 (Py.str completed_video)))
              else
                ret {| video_url := "/videos/" +:+ Py.str video_filename;
                       status := "success";
                       message := "Video generated successfully" |}))
    (fun e => match e with
              | HTTPException _ _ => raise e
              | Exception error_message =>
                  raise (HTTPException 500
                           ("Error generating video: " +:+ error_message))
              end) w.
Proof.
  intros Hkey. unfold generate_video, generate_video_try. rewrite Hkey. reflexivity.
Qed.

(** The creation request itself fails: a 500 with the error's text. *)
Lemma generate_video_offline key out fuel request w latency msg :
  key_missing key = false ->
  on_post out (length (trace w)) create_url (Py.VDict (payload_of request)) =
    Failed latency msg ->
  generate_video key out fuel request w =
    (Raise (HTTPException 500 ("Error generating video: " +:+ msg)),
     tick latency (EvPost create_url (create_headers key)
                     (Py.VDict (payload_of request))) w).
Proof.
  intros Hkey Hpost. rewrite generate_video_unfold by exact Hkey.
  unfold try_except, bind, client_post. rewrite Hpost. reflexivity.
Qed.

(** The creation request is refused. *)
Lemma generate_video_refused key out fuel request w latency r :
  key_missing key = false ->
  on_post out (length (trace w)) create_url (Py.VDict (payload_of request)) =
    Answered latency r ->
  status_code r <> 200 -> status_code r <> 201 ->
  generate_video key out fuel request w =
    (Raise (HTTPException (status_code r)
              ("Failed to create video: " +:+ Py.str (create_error_detail r))),
     tick latency (EvPost create_url (create_headers key)
                     (Py.VDict (payload_of request))) w).
Proof.
  intros Hkey Hpost H0 H1. rewrite generate_video_unfold by exact Hkey.
  unfold try_except, bind, client_post. rewrite Hpost. simpl settle. cbv iota beta.
  rewrite (refused_status r H0 H1). reflexivity.
Qed.

(** The job is created: the rest is the wait, and what is made of its
    outcome. *)
Lemma generate_video_created key out fuel request w latency r video_id waited w2 :
  key_missing key = false ->
  on_post out (length (trace w)) create_url (Py.VDict (payload_of request)) =
    Answered latency r ->
  created_with video_id r ->
  wait_for_video_completion key out fuel video_id 600
    (tick latency (EvPost create_url (create_headers key)
                     (Py.VDict (payload_of request))) w) = (waited, w2) ->
  snd (generate_video key out fuel request w) = w2 /\
  match waited with
  | Return completed_video =>
      forall d, completed_video = Py.VDict d ->
        Py.lookup "video_filename" d = Some (Py.VStr (job_filename video_id)) ->
        fst (generate_video key out fuel request w) =
          Return {| video_url := "/videos/" +:+ job_filename video_id;
                    status := "success";
                    message := "Video generated successfully" |}
  | other => surfaced other (fst (generate_video key out fuel request w))
  end.
Proof.
  intros Hkey Hpost (Hsc & d & Hj & Hid & Htruthy) Hwait.
  remember (generate_video key out fuel request w) as run eqn:Erun.
  rewrite generate_video_unfold in Erun by exact Hkey.
  unfold try_except in Erun. unfold bind at 1 in Erun. unfold client_post in Erun.
  rewrite Hpost in Erun. simpl settle in Erun. cbv iota beta in Erun.
  rewrite (accepted_status r Hsc) in Erun.
  unfold bind at 1 in Erun. unfold response_json in Erun. rewrite Hj in Erun.
  unfold ret at 1 in Erun. cbv iota beta in Erun.
  unfold bind at 1 in Erun. unfold py_get at 1 in Erun. rewrite Hid in Erun.
  unfold ret at 1 in Erun. cbv iota beta in Erun.
  rewrite Htruthy in Erun. change (negb true) with false in Erun. cbv iota in Erun.
  unfold bind at 1 in Erun. rewrite Hwait in Erun.
  destruct waited as [v | [sc detail | t] | ]; cbv iota beta in Erun.
  - split.
    + subst run. unfold bind, py_get. destruct v as [ | | | | | d0]; try reflexivity.
      unfold ret.
      destruct (Py.truthy match Py.lookup "video_filename" d0 with
                          | Some x => x
                          | None => Py.VNone
                          end); reflexivity.
    + intros d' -> Hname. subst run. unfold bind. unfold py_get, ret. rewrite Hname.
      assert (Hne : Py.truthy (Py.VStr (job_filename video_id)) = true).
      { unfold job_filename. simpl. destruct (Py.str video_id); reflexivity. }
      rewrite Hne. reflexivity.
  - subst run. split; reflexivity.
  - subst run. split; reflexivity.
  - subst run. split; reflexivity.
Qed.

(** X11: when the upstream refuses to create the job (a status other than
    200 and 201), [generate_video] raises an [HTTPException] with that
    status and sends nothing more; the detail carries the message of the
    answer's error object when there is one, and the raw body when the
    answer is not JSON or has no error object. *)
Theorem creation_refusal_propagates key out fuel request w latency r :
  key_missing key = false ->
  on_post out (length (trace w)) create_url (Py.VDict (payload_of request)) =
    Answered latency r ->
  status_code r <> 200 -> status_code r <> 201 ->
  let run := generate_video key out fuel request w in
  exists detail,
    fst run = Raise (HTTPException (status_code r)
                       ("Failed to create video: " +:+ detail)) /\
    new_events w (snd run) =
      [EvPost create_url (create_headers key) (Py.VDict (payload_of request))] /\
    (forall d e m,
       json r = inr (Py.VDict d) ->
       Py.lookup "error" d = Some (Py.VDict e) ->
       Py.lookup "message" e = Some (Py.VStr m) ->
       detail = m) /\
    (forall msg, json r = inl msg -> detail = text r) /\
    (forall d, json r = inr (Py.VDict d) -> Py.lookup "error" d = None ->
               detail = text r).
Proof.
  intros Hkey Hpost H0 H1 run.
  unfold run. rewrite (generate_video_refused _ _ _ _ _ _ _ Hkey Hpost H0 H1).
  exists (Py.str (create_error_detail r)).
  split; [reflexivity |]. split; [apply new_events_exact; reflexivity |].
  unfold create_error_detail.
  split; [| split].
  - intros d e m Hj He Hm. rewrite Hj, He, Hm. reflexivity.
  - intros msg Hj. rewrite Hj. reflexivity.
  - intros d Hj He. rewrite Hj, He. reflexivity.
Qed.

Lemma creation_refusal_propagates_witness :
  let run := generate_video Sample.key (Sample.refusing Sample.rejected) 5
               Sample.request Sample.world in
  exists detail,
    fst run = Raise (HTTPException 400 ("Failed to create video: " +:+ detail)) /\
    new_events Sample.world (snd run) =
      [EvPost create_url (create_headers Sample.key)
         (Py.VDict (payload_of Sample.request))] /\
    (forall d e m,
       json Sample.rejected = inr (Py.VDict d) ->
       Py.lookup "error" d = Some (Py.VDict e) ->
       Py.lookup "message" e = Some (Py.VStr m) ->
       detail = m) /\
    (forall msg, json Sample.rejected = inl msg -> detail = text Sample.rejected) /\
    (forall d, json Sample.rejected = inr (Py.VDict d) -> Py.lookup "error" d = None ->
               detail = text Sample.rejected).
Proof.
  apply (creation_refusal_propagates Sample.key (Sample.refusing Sample.rejected) 5%nat
           Sample.request Sample.world (1 # 2) Sample.rejected).
  - reflexivity.
  - reflexivity.
  - discriminate.
  - discriminate.
Defined.

(** X12: when the upstream accepts the creation but its answer has no
    ["id"], or an empty one, [generate_video] raises the 500 "No video ID
    returned" and never starts polling. *)
Theorem missing_job_id_is_an_error key out fuel request w latency r d :
  key_missing key = false ->
  on_post out (length (trace w)) create_url (Py.VDict (payload_of request)) =
    Answered latency r ->
  status_code r = 200 \/ status_code r = 201 ->
  json r = inr (Py.VDict d) ->
  Py.truthy (match Py.lookup "id" d with Some x => x | None => Py.VNone end) = false ->
  let run := generate_video key out fuel request w in
  fst run = Raise (HTTPException 500 "No video ID returned") /\
  new_events w (snd run) =
    [EvPost create_url (create_headers key) (Py.VDict (payload_of request))].
Proof.
  intros Hkey Hpost Hsc Hj Hid run.
  assert (E : run = (Raise (HTTPException 500 "No video ID returned"),
                     tick latency (EvPost create_url (create_headers key)
                                     (Py.VDict (payload_of request))) w)).
  { unfold run. rewrite generate_video_unfold by exact Hkey.
    unfold try_except. unfold bind at 1. unfold client_post. rewrite Hpost.
    simpl settle. cbv iota beta. rewrite (accepted_status r Hsc).
    unfold bind at 1. unfold response_json. rewrite Hj. unfold ret at 1. cbv iota beta.
    unfold bind at 1. unfold py_get at 1. unfold ret at 1. cbv iota beta.
    rewrite Hid. reflexivity. }
  rewrite E. split; [reflexivity | apply new_events_exact; reflexivity].
Qed.

Lemma missing_job_id_is_an_error_witness :
  let run := generate_video Sample.key (Sample.refusing Sample.anonymous) 5
               Sample.request Sample.world in
  fst run = Raise (HTTPException 500 "No video ID returned") /\
  new_events Sample.world (snd run) =
    [EvPost create_url (create_headers Sample.key)
       (Py.VDict (payload_of Sample.request))].
Proof.
  apply (missing_job_id_is_an_error Sample.key (Sample.refusing Sample.anonymous) 5%nat
           Sample.request Sample.world (1 # 2) Sample.anonymous
           [("status", Py.VStr "queued")]).
  - reflexivity.
  - reflexivity.
  - left. reflexivity.
  - reflexivity.
  - reflexivity.
Defined.

(** The handler of the outer [try] lets nothing out but an
    [HTTPException]. *)
Lemma generate_video_raises_http_only key out fuel request w text :
  fst (generate_video key out fuel request w) <> Raise (Exception text).
Proof.
  unfold generate_video, try_except.
  destruct (generate_video_try key out fuel request w) as [[a | [sc d | t] | ] w1];
    discriminate.
Qed.

(** X14: when the creation request cannot be sent or answered, the
    transport error comes out of [generate_video] as a 500 whose detail is
    "Error generating video: " and the error's text. *)
Theorem transport_failure_becomes_500 key out fuel request w latency msg :
  key_missing key = false ->
  on_post out (length (trace w)) create_url (Py.VDict (payload_of request)) =
    Failed latency msg ->
  let run := generate_video key out fuel request w in
  fst run = Raise (HTTPException 500 ("Error generating video: " +:+ msg)) /\
  new_events w (snd run) =
    [EvPost create_url (create_headers key) (Py.VDict (payload_of request))].
Proof.
  intros Hkey Hpost run. unfold run.
  rewrite (generate_video_offline _ _ _ _ _ _ _ Hkey Hpost).
  split; [reflexivity | apply new_events_exact; reflexivity].
Qed.

Lemma transport_failure_becomes_500_witness :
  let run := generate_video Sample.key Sample.offline 5 Sample.request Sample.world in
  fst run = Raise (HTTPException 500
                     ("Error generating video: " +:+ "All connection attempts failed")) /\
  new_events Sample.world (snd run) =
    [EvPost create_url (create_headers Sample.key)
       (Py.VDict (payload_of Sample.request))].
Proof.
  apply (transport_failure_becomes_500 Sample.key Sample.offline 5%nat Sample.request
           Sample.world 30 "All connection attempts failed").
  - reflexivity.
  - reflexivity.
Defined.

(** X15: once the job is created, whatever ends the wait ends
    [generate_video]: an [HTTPException] of the poller (a failed job, a
    refused poll or download, the timeout) comes out unchanged, any other
    exception of the poller comes out as a 500 that carries its text, and
    the world is the one the poller left. *)
Theorem poller_outcome_surfaces key out fuel request w latency r video_id :
  key_missing key = false ->
  on_post out (length (trace w)) create_url (Py.VDict (payload_of request)) =
    Answered latency r ->
  created_with video_id r ->
  let run := generate_video key out fuel request w in
  let waited :=
    wait_for_video_completion key out fuel video_id 600
      (tick latency (EvPost create_url (create_headers key)
                       (Py.VDict (payload_of request))) w) in
  snd run = snd waited /\
  (forall sc detail,
     fst waited = Raise (HTTPException sc detail) ->
     fst run = Raise (HTTPException sc detail)) /\
  (forall text,
     fst waited = Raise (Exception text) ->
     fst run = Raise (HTTPException 500 ("Error generating video: " +:+ text))).
Proof.
  intros Hkey Hpost Hcreated run waited.
  assert (Hwait : wait_for_video_completion key out fuel video_id 600
                    (tick latency (EvPost create_url (create_headers key)
                                     (Py.VDict (payload_of request))) w) =
                  (fst waited, snd waited))
    by (unfold waited; destruct (wait_for_video_completion _ _ _ _ _ _); reflexivity).
  destruct (generate_video_created _ _ _ _ _ _ _ _ _ _ Hkey Hpost Hcreated Hwait)
    as [Hsnd Hfst].
  split; [exact Hsnd |]. split.
  - intros sc detail E. rewrite E in Hfst. exact Hfst.
  - intros t E. rewrite E in Hfst. exact Hfst.
Qed.

Lemma poller_outcome_surfaces_witness :
  let run := generate_video Sample.key (Sample.upstream Sample.broken) 5
               Sample.request Sample.world in
  let waited :=
    wait_for_video_completion Sample.key (Sample.upstream Sample.broken) 5
      Sample.video_1 600
      (tick (1 # 2) (EvPost create_url (create_headers Sample.key)
                       (Py.VDict (payload_of Sample.request))) Sample.world) in
  snd run = snd waited /\
  (forall sc detail,
     fst waited = Raise (HTTPException sc detail) ->
     fst run = Raise (HTTPException sc detail)) /\
  (forall text,
     fst waited = Raise (Exception text) ->
     fst run = Raise (HTTPException 500 ("Error generating video: " +:+ text))).
Proof.
  apply (poller_outcome_surfaces Sample.key (Sample.upstream Sample.broken) 5%nat
           Sample.request Sample.world (1 # 2) Sample.queued Sample.video_1).
  - reflexivity.
  - reflexivity.
  - split; [left; reflexivity |].
    exists [("id", Py.VStr "video_1"); ("status", Py.VStr "queued")].
    repeat split; reflexivity.
Defined.

(** X16: when the job is created and every poll reports it still running,
    [generate_video] raises the 408 timeout, not a 500, and does so no
    sooner than 600 seconds after it was called. *)
Theorem stuck_job_times_out_as_408 key out fuel request w latency r video_id L J :
  key_missing key = false ->
  on_post out (length (trace w)) create_url (Py.VDict (payload_of request)) =
    Answered latency r ->
  created_with video_id r ->
  (0 <= latency)%Q ->
  (forall n, exists l p,
      on_get out n (status_url video_id) = Answered l p /\
      pending p = true /\ (0 <= l <= L)%Q) ->
  (forall n, (0 <= oversleep out n <= J)%Q) ->
  (600 < fuel)%nat ->
  let run := generate_video key out fuel request w in
  fst run = Raise (HTTPException 408 "Video generation timeout") /\
  (600 <= clock (snd run) - clock w)%Q.
Proof.
  intros Hkey Hpost Hcreated Hlat Hpoll Hsleep Hfuel run.
  set (w1 := tick latency (EvPost create_url (create_headers key)
                             (Py.VDict (payload_of request))) w).
  destruct (Hpoll 0%nat) as (l0 & _ & _ & _ & Hl0).
  pose proof (Hsleep 0%nat) as Hj0.
  assert (Hf : (inject_Z 600 + 1 <= inject_Z (Z.of_nat fuel))%Q).
  { change 1%Q with (inject_Z 1). rewrite <- inject_Z_plus, <- Zle_Qle. lia. }
  destruct (poll_loop_times_out out video_id 600 (poll_headers key) (clock w1) L J
              Hpoll Hsleep fuel w1) as (w' & Hrun & Hlo & _ & _).
  - lra.
  - change (inject_Z 600) with 600%Q. lra.
  - lra.
  - lia.
  - rewrite <- wait_for_video_completion_unfold in Hrun.
    destruct (generate_video_created _ _ _ _ _ _ _ _ _ _ Hkey Hpost Hcreated Hrun)
      as [Hsnd Hfst].
    split; [exact Hfst |].
    unfold run. rewrite Hsnd. change (inject_Z 600) with 600%Q in Hlo.
    change (clock w1) with (clock w + latency)%Q in Hlo. lra.
Qed.

Lemma stuck_job_times_out_as_408_witness :
  let run := generate_video Sample.key Sample.stuck 601 Sample.request Sample.world in
  fst run = Raise (HTTPException 408 "Video generation timeout") /\
  (600 <= clock (snd run) - clock Sample.world)%Q.
Proof.
  apply (stuck_job_times_out_as_408 Sample.key Sample.stuck 601%nat Sample.request
           Sample.world (1 # 2) Sample.queued Sample.video_1 (1 # 2) 0).
  - reflexivity.
  - reflexivity.
  - split; [left; reflexivity |].
    exists [("id", Py.VStr "video_1"); ("status", Py.VStr "queued")].
    repeat split; reflexivity.
  - discriminate.
  - intros n. exists (1 # 2)%Q, Sample.queued. simpl.
    destruct (n <? 2)%nat; repeat split; discriminate.
  - intros n. simpl. split; discriminate.
  - lia.
Defined.

(** When [generate_video] returns, the job was created. *)
Lemma generate_video_returns_created key out fuel request w resp :
  fst (generate_video key out fuel request w) = Return resp ->
  key_missing key = false /\
  exists latency r video_id,
    on_post out (length (trace w)) create_url (Py.VDict (payload_of request)) =
      Answered latency r /\
    created_with video_id r.
Proof.
  intros H.
  destruct (key_missing key) eqn:Hkey.
  { unfold generate_video, try_except, generate_video_try in H. rewrite Hkey in H.
    discriminate. }
  split; [reflexivity |].
  destruct (on_post out (length (trace w)) create_url (Py.VDict (payload_of request)))
    as [latency r | latency msg] eqn:Hpost.
  2:{ rewrite (generate_video_offline _ _ _ _ _ _ _ Hkey Hpost) in H. discriminate. }
  exists latency, r.
  destruct (Z.eqb_spec (status_code r) 200) as [E200 | N200];
    [| destruct (Z.eqb_spec (status_code r) 201) as [E201 | N201]].
  3:{ rewrite (generate_video_refused _ _ _ _ _ _ _ Hkey Hpost N200 N201) in H.
      discriminate. }
  all: (assert (Hsc : status_code r = 200 \/ status_code r = 201) by tauto;
        rewrite generate_video_unfold in H by exact Hkey;
        unfold try_except in H; unfold bind at 1 in H; unfold client_post in H;
        rewrite Hpost in H; simpl settle in H; cbv iota beta in H;
        rewrite (accepted_status r Hsc) in H;
        unfold bind at 1 in H; unfold response_json in H;
        destruct (json r) as [msg | v] eqn:Hj; [discriminate |];
        unfold ret at 1 in H; cbv iota beta in H;
        unfold bind at 1 in H; unfold py_get at 1 in H;
        destruct v as [ | | | | | d]; try discriminate;
        unfold ret at 1 in H; cbv iota beta in H;
        destruct (Py.lookup "id" d) as [video_id |] eqn:Hid; [| discriminate];
        destruct (Py.truthy video_id) eqn:Ht; [| discriminate];
        exists video_id; split; [reflexivity |];
        split; [exact Hsc |]; exists d; repeat split; assumption).
Qed.

(** X17: when [generate_video] returns, it answers with the URL
    [/videos/<id>.mp4] of the job the upstream created and the status
    "success", and the streamed content is stored under that name. For
    an id without a slash, [GET /videos/<id>.mp4] serves exactly those
    bytes for as long as the disk stays as it is; for an id with a slash
    the URL that was handed out is answered with the router's 404. *)
Theorem generated_video_is_served key out fuel request w resp :
  let run := generate_video key out fuel request w in
  fst run = Return resp ->
  exists video_id content,
    (exists latency r,
       on_post out (length (trace w)) create_url (Py.VDict (payload_of request)) =
         Answered latency r /\
       created_with video_id r) /\
    resp = {| video_url := "/videos/" +:+ job_filename video_id;
              status := "success";
              message := "Video generated successfully" |} /\
    (exists n latency r,
       on_stream out n (content_url video_id) = Answered latency r /\
       content = concat (aiter_bytes r 8192)) /\
    forall later, fs later = fs (snd run) -> cwd later = cwd (snd run) ->
      GET_videos (job_filename video_id) later =
        if Py.contains "/" (Py.str video_id)
        then (Raise (HTTPException 404 "Not Found"), later)
        else (Return {| http_status := 200; content_type := "video/mp4";
                        body := content |}, later).
Proof.
  intros run Hret.
  destruct (generate_video_returns_created _ _ _ _ _ _ Hret)
    as (Hkey & latency & r & video_id & Hpost & Hcreated).
  set (w1 := tick latency (EvPost create_url (create_headers key)
                             (Py.VDict (payload_of request))) w).
  destruct (wait_for_video_completion key out fuel video_id 600 w1)
    as [waited w2] eqn:Hwait.
  destruct (generate_video_created _ _ _ _ _ _ _ _ _ _ Hkey Hpost Hcreated Hwait)
    as [Hsnd Hfst].
  fold run in Hsnd, Hfst.
  destruct waited as [v | [sc detail | t] | ];
    try (simpl in Hfst; rewrite Hfst in Hret; discriminate).
  rewrite wait_for_video_completion_unfold in Hwait.
  destruct (poll_loop_returns _ _ _ _ _ _ _ _ _ Hwait) as (w0 & d & _ & Hd).
  destruct (download_returns _ _ _ _ _ _ _ Hd)
    as (l & sr & file & Hstream & _ & _ & _ & Hstat & (dv & Hv & Hname)).
  specialize (Hfst dv Hv Hname). rewrite Hfst in Hret. injection Hret as <-.
  exists video_id, (concat (aiter_bytes sr 8192)).
  split; [exists latency, r; split; assumption |].
  split; [reflexivity |].
  split; [exists (length (trace w0)), l, sr; split; [exact Hstream | reflexivity] |].
  intros later Hfs Hcwd.
  pose proof (route_matches_job video_id) as Hroute.
  destruct (Py.contains "/" (Py.str video_id)).
  - apply GET_videos_unmatched. exact Hroute.
  - apply (GET_videos_file _ later file); [exact Hroute |].
    rewrite Hfs, Hcwd, Hsnd. exact Hstat.
Qed.

Lemma generated_video_is_served_witness :
  let run := generate_video Sample.key (Sample.upstream Sample.done) 5
               Sample.request Sample.world in
  exists video_id content,
    (exists latency r,
       on_post (Sample.upstream Sample.done) (length (trace Sample.world)) create_url
         (Py.VDict (payload_of Sample.request)) = Answered latency r /\
       created_with video_id r) /\
    {| video_url := "/videos/video_1.mp4"; status := "success";
       message := "Video generated successfully" |} =
    {| video_url := "/videos/" +:+ job_filename video_id;
       status := "success";
       message := "Video generated successfully" |} /\
    (exists n latency r,
       on_stream (Sample.upstream Sample.done) n (content_url video_id) =
         Answered latency r /\
       content = concat (aiter_bytes r 8192)) /\
    forall later, fs later = fs (snd run) -> cwd later = cwd (snd run) ->
      GET_videos (job_filename video_id) later =
        if Py.contains "/" (Py.str video_id)
        then (Raise (HTTPException 404 "Not Found"), later)
        else (Return {| http_status := 200; content_type := "video/mp4";
                        body := content |}, later).
Proof.
  apply (generated_video_is_served Sample.key (Sample.upstream Sample.done) 5%nat
           Sample.request Sample.world
           {| video_url := "/videos/video_1.mp4"; status := "success";
              message := "Video generated successfully" |}).
  vm_compute. reflexivity.
Defined.

(** X18: [health_check] and [generate_video] agree on the credential:
    either the health report says the key is configured and
    [generate_video] starts by posting to the upstream, or it says the key
    is not configured and [generate_video] fails with the configuration
    error without sending anything. *)
Theorem health_check_tells_what_generate_video_does key out fuel request w :
  let run := generate_video key out fuel request w in
  (health_check key =
     Py.VDict [("status", Py.VStr "ok"); ("api_key_configured", Py.VBool true)] /\
   exists rest,
     new_events w (snd run) =
       EvPost create_url (create_headers key) (Py.VDict (payload_of request)) :: rest)
  \/
  (health_check key =
     Py.VDict [("status", Py.VStr "ok"); ("api_key_configured", Py.VBool false)] /\
   run = (Raise (HTTPException 500
                   "OPENAI_API_KEY not configured. Please set it in .env file"), w)).
Proof.
  intros run. unfold health_check.
  destruct (key_missing key) eqn:Hkey.
  - right. split; [reflexivity |].
    unfold run, generate_video, try_except, generate_video_try. rewrite Hkey.
    reflexivity.
  - left. split; [reflexivity |].
    destruct (generate_video_posts key out fuel request w Hkey) as [rest Hrest].
    exists rest. apply new_events_exact. exact Hrest.
Qed.

(* ===================================================================== *)
(** * Start-up, and where the videos land *)
(* ===================================================================== *)

Lemma with_fs_same w : with_fs (fs w) w = w.
Proof. destruct w; reflexivity. Qed.

(** [Path("videos").mkdir(exist_ok=True)] in a working directory that is
    there. *)
Lemma mkdir_videos (t : Fs.tree) (cwd : list string) :
  Fs.node_at t cwd = Some Fs.Dir ->
  Fs.mkdir_exist_ok t cwd "videos" =
    match Fs.node_at t (cwd ++ ["videos"]) with
    | Some Fs.Dir => inr t
    | Some (Fs.File _) => inl Fs.EEXIST
    | None => inr (<[cwd ++ ["videos"] := Fs.Dir]> t)
    end.
Proof.
  intros Hcwd. unfold Fs.mkdir_exist_ok, Fs.stat, Fs.origin.
  cbn -[Fs.node_at app removelast].
  rewrite Hcwd.
  destruct (Fs.node_at t (cwd ++ ["videos"])) as [[content |] |]; try reflexivity.
  cbn -[Fs.node_at app]. rewrite Hcwd. reflexivity.
Qed.

(** X19: in a working directory that exists, start-up makes sure
    [videos/] is a directory: it creates it when nothing is there, leaves
    it alone when it is there already, and touches nothing else; running
    it again changes nothing. Only a regular file named [videos] makes it
    fail, with the [FileExistsError]. *)
Theorem startup_ensures_videos_directory w :
  Fs.node_at (fs w) (cwd w) = Some Fs.Dir ->
  (forall content,
     Fs.node_at (fs w) (cwd w ++ ["videos"]) = Some (Fs.File content) ->
     startup w = (Raise (Exception "[Errno 17] File exists: 'videos'"), w))
  /\
  ((forall content,
      Fs.node_at (fs w) (cwd w ++ ["videos"]) <> Some (Fs.File content)) ->
   let started := snd (startup w) in
   fst (startup w) = Return tt /\
   Fs.stat (fs started) (cwd started) "videos" = inr (cwd w ++ ["videos"], Fs.Dir) /\
   (forall key, key <> cwd w ++ ["videos"] -> fs started !! key = fs w !! key) /\
   (Fs.node_at (fs w) (cwd w ++ ["videos"]) = Some Fs.Dir -> started = w) /\
   trace started = trace w /\
   startup started = (Return tt, started)).
Proof.
  intros Hcwd.
  assert (Hunfold : startup w =
            match Fs.node_at (fs w) (cwd w ++ ["videos"]) with
            | Some Fs.Dir => (Return tt, w)
            | Some (Fs.File _) =>
                (Raise (Exception "[Errno 17] File exists: 'videos'"), w)
            | None => (Return tt, with_fs (<[cwd w ++ ["videos"] := Fs.Dir]> (fs w)) w)
            end).
  { unfold startup. change (PathLib.str VIDEOS_DIR) with "videos".
    rewrite (mkdir_videos (fs w) (cwd w) Hcwd).
    destruct (Fs.node_at (fs w) (cwd w ++ ["videos"])) as [[content |] |];
      try reflexivity.
    rewrite with_fs_same. reflexivity. }
  split.
  - intros content Hfile. rewrite Hunfold, Hfile. reflexivity.
  - intros Hnofile started.
    assert (Hne : cwd w <> cwd w ++ ["videos"]).
    { intros E. apply (f_equal (@length string)) in E.
      rewrite length_app in E. simpl in E. lia. }
    assert (Hnn : cwd w ++ ["videos"] <> []) by (destruct (cwd w); discriminate).
    assert (Hagain : forall w', Fs.node_at (fs w') (cwd w') = Some Fs.Dir ->
                       Fs.node_at (fs w') (cwd w' ++ ["videos"]) = Some Fs.Dir ->
                       startup w' = (Return tt, w')).
    { intros w' H1 H2. unfold startup. change (PathLib.str VIDEOS_DIR) with "videos".
      rewrite (mkdir_videos (fs w') (cwd w') H1), H2, with_fs_same. reflexivity. }
    unfold started. rewrite Hunfold.
    destruct (Fs.node_at (fs w) (cwd w ++ ["videos"])) as [[content |] |] eqn:Hvid.
    + destruct (Hnofile content eq_refl).
    + simpl. repeat split; try reflexivity.
      * apply stat_videos_dir; assumption.
      * apply Hagain; assumption.
    + simpl.
      assert (H1 : Fs.node_at (<[cwd w ++ ["videos"] := Fs.Dir]> (fs w)) (cwd w) =
                   Some Fs.Dir)
        by (rewrite node_at_insert_ne by exact Hne; exact Hcwd).
      assert (H2 : Fs.node_at (<[cwd w ++ ["videos"] := Fs.Dir]> (fs w))
                     (cwd w ++ ["videos"]) = Some Fs.Dir)
        by (apply node_at_insert_eq; exact Hnn).
      split; [reflexivity |]. split; [apply stat_videos_dir; assumption |].
      split; [intros key Hkey; apply lookup_insert_ne; congruence |].
      split; [discriminate |]. split; [reflexivity |].
      apply (Hagain (with_fs (<[cwd w ++ ["videos"] := Fs.Dir]> (fs w)) w)); assumption.
Qed.

Lemma startup_ensures_videos_directory_witness :
  let started := snd (startup Sample.bare) in
  fst (startup Sample.bare) = Return tt /\
  Fs.stat (fs started) (cwd started) "videos" =
    inr (cwd Sample.bare ++ ["videos"], Fs.Dir) /\
  (forall key, key <> cwd Sample.bare ++ ["videos"] ->
               fs started !! key = fs Sample.bare !! key) /\
  (Fs.node_at (fs Sample.bare) (cwd Sample.bare ++ ["videos"]) = Some Fs.Dir ->
   started = Sample.bare) /\
  trace started = trace Sample.bare /\
  startup started = (Return tt, started).
Proof.
  apply (proj2 (startup_ensures_videos_directory Sample.bare ltac:(vm_compute; reflexivity))).
  intros content H. vm_compute in H. discriminate.
Defined.

(** A name without a slash is one component. *)
Lemma components_plain s : plain s = true -> PathLib.components s = [s].
Proof.
  unfold plain. induction s as [| c s IH]; [reflexivity |].
  cbn [Py.contains PathLib.components].
  rewrite (Ascii.eqb_sym c "/").
  destruct (Ascii.eqb "/" c); [intros H; discriminate H |].
  intros H. rewrite (IH H). reflexivity.
Qed.

Lemma components_slash a b :
  plain a = true ->
  PathLib.components (a +:+ String "/" b) = a :: PathLib.components b.
Proof.
  unfold plain. induction a as [| c a IH]; [reflexivity |].
  cbn [Py.contains]. intros H.
  change (String c a +:+ String "/" b) with (String c (a +:+ String "/" b)).
  cbn [PathLib.components].
  rewrite (Ascii.eqb_sym c "/").
  destruct (Ascii.eqb "/" c); [discriminate H |].
  rewrite (IH H). reflexivity.
Qed.

Lemma prefix_plain s : plain s = true -> String.prefix "/" s = false.
Proof.
  unfold plain. destruct s as [| c s]; [reflexivity |].
  cbn [Py.contains String.prefix].
  destruct (ascii_dec "/" c) as [<- | _]; [| reflexivity].
  rewrite Ascii.eqb_refl. intros H; discriminate H.
Qed.

Lemma job_filename_plain video_id :
  plain (Py.str video_id) = true -> plain (job_filename video_id) = true.
Proof.
  unfold plain, job_filename. rewrite contains_append.
  destruct (Py.contains "/" (Py.str video_id)); [discriminate | reflexivity].
Qed.

(** For a job whose id has no slash, the path the code builds is
    [videos/<id>.mp4]. *)
Lemma video_path_plain name :
  plain name = true ->
  String.eqb name EmptyString = false ->
  String.eqb name "." = false ->
  video_path_str name = "videos/" +:+ name.
Proof.
  intros Hp He Hd. unfold video_path_str, PathLib.truediv, PathLib.of_str.
  rewrite (prefix_plain name Hp), (components_plain name Hp).
  simpl List.filter. unfold PathLib.kept. rewrite He, Hd. reflexivity.
Qed.

(** Whatever is found under [videos/<name>] sits in the videos directory
    of the working directory, under that name. *)
Lemma stat_plain (t : Fs.tree) (cwd : list string) name file n :
  plain name = true ->
  String.eqb name EmptyString = false ->
  String.eqb name "." = false ->
  String.eqb name ".." = false ->
  Fs.stat t cwd ("videos/" +:+ name) = inr (file, n) ->
  file = cwd ++ ["videos"; name] /\
  Fs.node_at t cwd = Some Fs.Dir /\
  Fs.node_at t (cwd ++ ["videos"]) = Some Fs.Dir.
Proof.
  intros Hp He Hd Hdd. unfold Fs.stat, Fs.origin.
  change (String.eqb ("videos/" +:+ name) EmptyString) with false.
  change (String.prefix "/" ("videos/" +:+ name)) with false.
  cbv iota.
  assert (Hc : PathLib.components ("videos/" +:+ name) = ["videos"; name]).
  { change ("videos/" +:+ name) with ("videos" +:+ String "/" name).
    rewrite components_slash by reflexivity.
    rewrite (components_plain name Hp). reflexivity. }
  rewrite Hc. cbn -[Fs.node_at app removelast].
  destruct (Fs.node_at t cwd) as [[c0 |] |]; try discriminate.
  destruct (Fs.node_at t (cwd ++ ["videos"])) as [[c1 |] |]; try discriminate.
  rewrite He, Hd, Hdd. cbn -[Fs.node_at app removelast].
  destruct (Fs.node_at t ((cwd ++ ["videos"]) ++ [name])) as [n' |]; [| discriminate].
  intros H. injection H as <- _. rewrite <- app_assoc. repeat split.
Qed.

(** X20: for a job whose id has no slash, a run of
    [wait_for_video_completion] that returns has stored the video in the
    videos directory of the working directory, under [<id>.mp4], and the
    ["local_path"] it reports is [videos/<id>.mp4]. *)
Theorem plain_job_lands_in_videos key out fuel video_id max_wait w v :
  plain (Py.str video_id) = true ->
  let run := wait_for_video_completion key out fuel video_id max_wait w in
  fst run = Return v ->
  exists content d,
    fs (snd run) !! (cwd w ++ ["videos"; job_filename video_id]) =
      Some (Fs.File content) /\
    Fs.node_at (fs w) (cwd w ++ ["videos"]) = Some Fs.Dir /\
    v = Py.VDict d /\
    Py.lookup "local_path" d = Some (Py.VStr ("videos/" +:+ job_filename video_id)).
Proof.
  intros Hplain run Hv.
  pose proof (wait_run key out fuel video_id max_wait w) as Hrun. fold run in Hrun.
  rewrite Hv in Hrun.
  destruct (job_filename_ordinary video_id) as (He & Hd & Hdd).
  pose proof (video_path_plain _ (job_filename_plain _ Hplain) He Hd) as Hpath.
  destruct (run_anatomy _ _ _ _ _ _ _ _ _ Hrun) as (n & w1 & Hr & Hend).
  destruct Hend as [(_ & Hbad & _) | [_ Hended]]; [discriminate |].
  destruct (rounds_same_disk _ _ _ _ _ _ _ _ Hr) as [Hfs Hcwd].
  inversion Hended as [Hle | l msg _ _ | l r d res0 w0 Hlt Hget Hc Hj Hd0 | l r e _ _ _ _];
    subst.
  pose proof (download_returns_data _ _ _ _ _ _ _ Hd0) as Hdata.
  destruct (download_returns _ _ _ _ _ _ _ Hd0)
    as (l' & sr & file & Hstream & H200 & _ & Hcwd' & Hstat & _).
  pose proof (download_footprint out video_id (Py.VDict d) (poll_headers key)
                (after_poll video_id (poll_headers key) l w1)) as [_ Hfoot].
  rewrite Hd0 in Hfoot. simpl in Hfoot.
  rewrite Hpath in Hstat, Hfoot.
  destruct (stat_plain _ _ _ _ _ (job_filename_plain _ Hplain) He Hd Hdd Hstat)
    as (Hfile & _ & _).
  simpl in Hcwd'. rewrite Hcwd', Hcwd in Hfile.
  exists (concat (aiter_bytes sr 8192)),
         (Py.set "video_filename" (Py.VStr (job_filename video_id))
            (Py.set "local_path" (Py.VStr (video_path_str (job_filename video_id))) d)).
  split; [| split; [| split]].
  - destruct (stat_file_key _ _ _ _ _ Hstat) as [Hnode Hne].
    rewrite Hfile in Hnode.
    destruct (cwd w ++ ["videos"; job_filename video_id]) eqn:E;
      [destruct (cwd w); discriminate |].
    exact Hnode.
  - destruct Hfoot as [Hsame | (file' & content' & Hins & Hne' & Hnd & Hstat')].
    + rewrite Hsame in Hstat.
      destruct (stat_plain _ _ _ _ _ (job_filename_plain _ Hplain) He Hd Hdd Hstat)
        as (_ & _ & Hvid).
      simpl in Hvid. rewrite Hfs, Hcwd', Hcwd in Hvid. exact Hvid.
    + destruct (stat_plain _ _ _ _ _ (job_filename_plain _ Hplain) He Hd Hdd Hstat')
        as (Hfile' & _ & Hvid).
      rewrite Hins in Hvid.
      rewrite node_at_insert_ne in Hvid.
      * simpl in Hvid. rewrite Hfs in Hvid. rewrite Hcwd', Hcwd in Hvid. exact Hvid.
      * rewrite Hfile'. intros E. apply (f_equal (@length string)) in E.
        rewrite !length_app in E. simpl in E. lia.
  - exact Hdata.
  - rewrite lookup_set_ne by discriminate. rewrite lookup_set_eq, Hpath. reflexivity.
Qed.

Lemma plain_job_lands_in_videos_witness :
  let run := wait_for_video_completion Sample.key (Sample.upstream Sample.done) 5
               Sample.video_1 600 Sample.world in
  exists content d,
    fs (snd run) !! (cwd Sample.world ++ ["videos"; job_filename Sample.video_1]) =
      Some (Fs.File content) /\
    Fs.node_at (fs Sample.world) (cwd Sample.world ++ ["videos"]) = Some Fs.Dir /\
    Sample.stored = Py.VDict d /\
    Py.lookup "local_path" d =
      Some (Py.VStr ("videos/" +:+ job_filename Sample.video_1)).
Proof.
  apply (plain_job_lands_in_videos Sample.key (Sample.upstream Sample.done) 5%nat
           Sample.video_1 600 Sample.world Sample.stored).
  - reflexivity.
  - vm_compute. reflexivity.
Defined.

(* ===================================================================== *)
(** * The errors that can come out *)
(* ===================================================================== *)

(** What kind of exception ends an iteration whose poll reports neither a
    running nor a completed job. *)
Lemma poll_loop_stops_kind out fuel video_id max_wait h start w latency r :
  (clock w - start < inject_Z max_wait)%Q ->
  on_get out (length (trace w)) (status_url video_id) = Answered latency r ->
  pending r = false ->
  completed r = false ->
  exists e,
    poll_loop out (S fuel) video_id max_wait h start w =
      (Raise e, after_poll video_id h latency w) /\
    forall sc detail, e = HTTPException sc detail -> poller_error sc detail.
Proof.
  intros Hlt Hget Hp Hc. rewrite poll_loop_unfold.
  destruct (Qlt_le_dec (clock w - start) (inject_Z max_wait)) as [_ | Hle]; [| lra].
  unfold bind at 1. unfold client_get. rewrite Hget. simpl settle. cbv iota beta.
  unfold pending, completed, polled_status in Hp, Hc.
  destruct (Z.eqb_spec (status_code r) 200) as [E200 | N200]; simpl negb; cbv iota.
  2:{ eexists; split; [reflexivity |]. intros sc detail E. injection E as <- <-.
      constructor. exact N200. }
  unfold response_json.
  destruct (json r) as [msg | v] eqn:Ej.
  { eexists; split; [reflexivity |]. intros sc detail E. discriminate. }
  unfold bind at 1. unfold ret at 1. cbv iota beta.
  destruct v as [ | | | | | d];
    try (eexists; split; [reflexivity |]; intros sc detail E; discriminate).
  unfold bind at 1. unfold py_get at 1, ret at 1. cbv iota beta.
  rewrite Hc in *. simpl in Hp. apply negb_false_iff in Hp. rewrite Hp.
  unfold bind at 1. unfold py_get at 1, ret at 1. cbv iota beta.
  destruct (match Py.lookup "error" d with
            | Some x => x
            | None => Py.VDict []
            end) as [ | | | | | e];
    try (eexists; split; [reflexivity |]; intros sc detail E; discriminate).
  unfold bind at 1. unfold py_get at 1, ret at 1. cbv iota beta.
  eexists; split; [reflexivity |]. intros sc detail E. injection E as <- <-.
  constructor.
Qed.

(** The only [HTTPException] of a download is the refused content
    request. *)
Lemma download_raises_http out video_id video_data h w sc detail :
  fst (download out video_id video_data h w) = Raise (HTTPException sc detail) ->
  poller_error sc detail.
Proof.
  unfold download. unfold bind at 1. unfold client_stream.
  destruct (on_stream out (length (trace w)) _) as [latency r | latency msg];
    simpl settle; cbv iota beta; [| discriminate].
  destruct (Z.eqb_spec (stream_status_code r) 200) as [E200 | N200].
  2:{ destruct (decoded r); [discriminate |]. simpl. intros E. injection E as <- <-.
      constructor. exact N200. }
  unfold bind at 1. unfold open_wb.
  destruct (Fs.open_wb _ _ _) as [e | [key t]]; [discriminate |].
  cbv iota beta. unfold bind at 1.
  destruct (save_chunks_returns key (aiter_bytes r 8192) 0
              (with_fs t (tick latency
                            (EvStream (OPENAI_API_BASE +:+ "/videos/" +:+ Py.str video_id
                                       +:+ "/content") h) w)))
    as (n & t' & E).
  rewrite E. cbv iota beta.
  destruct (abort r); [discriminate |].
  destruct video_data; discriminate.
Qed.

(** The [HTTPException]s of the loop. *)
Lemma poll_loop_raises_http out video_id max_wait h start fuel w res w' sc detail :
  poll_loop out fuel video_id max_wait h start w = (res, w') ->
  res = Raise (HTTPException sc detail) ->
  poller_error sc detail.
Proof.
  intros Hrun Hres.
  destruct (poll_loop_structure out video_id max_wait h start fuel w)
    as (n & w1 & Hr & Hend).
  destruct Hend as [[-> Hout] | (Hn & Hlast & Hone)].
  { rewrite Hout in Hrun. injection Hrun as <- _. discriminate. }
  rewrite Hone in Hrun.
  destruct (Qlt_le_dec (clock w1 - start) (inject_Z max_wait)) as [Hlt | Hle].
  2:{ rewrite poll_loop_timeout in Hrun by exact Hle. injection Hrun as <- _.
      injection Hres as <- <-. constructor. }
  destruct (on_get out (length (trace w1)) (status_url video_id))
    as [latency r | latency msg] eqn:Hget.
  2:{ rewrite (poll_loop_transport _ _ _ _ _ _ _ _ _ Hlt Hget) in Hrun.
      injection Hrun as <- _. discriminate. }
  pose proof (Hlast Hlt latency r Hget) as Hp.
  destruct (completed r) eqn:Hc.
  - destruct (poll_loop_completed _ 0%nat _ _ h start _ _ _ Hlt Hget Hc) as (d & _ & E).
    rewrite E in Hrun.
    apply (download_raises_http out video_id (Py.VDict d) h
             (after_poll video_id h latency w1)).
    rewrite Hrun. exact Hres.
  - destruct (poll_loop_stops_kind _ 0%nat _ _ h start _ _ _ Hlt Hget Hp Hc)
      as (e & E & Hkind).
    rewrite E in Hrun. injection Hrun as <- _. injection Hres as Hres.
    apply Hkind. exact Hres.
Qed.

(** X21: the only [HTTPException]s [wait_for_video_completion] raises are
    the timeout (408), a refused poll (the upstream's status, never 200),
    a failed job (500) and a refused download (the upstream's status,
    never 200); each detail starts with its fixed text. *)
Theorem poller_errors_are_four key out fuel video_id max_wait w sc detail :
  fst (wait_for_video_completion key out fuel video_id max_wait w) =
    Raise (HTTPException sc detail) ->
  poller_error sc detail.
Proof.
  intros H.
  apply (poll_loop_raises_http out video_id max_wait (poll_headers key) (clock w) fuel w
           _ _ sc detail (wait_run key out fuel video_id max_wait w) H).
Qed.

Lemma poller_errors_are_four_witness :
  poller_error 500 ("Video generation failed: " +:+ "moderation blocked").
Proof.
  apply (poller_errors_are_four Sample.key (Sample.upstream Sample.broken) 5%nat
           Sample.video_1 600 Sample.world 500
           ("Video generation failed: " +:+ "moderation blocked")).
  vm_compute. reflexivity.
Defined.

(** The creation answer that cannot be used: not JSON, no JSON object, or
    no id. *)
Lemma generate_video_unusable key out fuel request w latency r :
  key_missing key = false ->
  on_post out (length (trace w)) create_url (Py.VDict (payload_of request)) =
    Answered latency r ->
  status_code r = 200 \/ status_code r = 201 ->
  (forall video_id, ~ created_with video_id r) ->
  exists sc detail,
    fst (generate_video key out fuel request w) = Raise (HTTPException sc detail) /\
    handler_error sc detail.
Proof.
  intros Hkey Hpost Hsc Hnot.
  remember (generate_video key out fuel request w) as run eqn:Erun.
  rewrite generate_video_unfold in Erun by exact Hkey.
  unfold try_except in Erun. unfold bind at 1 in Erun. unfold client_post in Erun.
  rewrite Hpost in Erun. simpl settle in Erun. cbv iota beta in Erun.
  rewrite (accepted_status r Hsc) in Erun.
  unfold bind at 1 in Erun. unfold response_json in Erun.
  destruct (json r) as [msg | v] eqn:Hj.
  { subst run. do 2 eexists. split; [reflexivity | apply handler_other]. }
  unfold ret at 1 in Erun. cbv iota beta in Erun.
  unfold bind at 1 in Erun. unfold py_get at 1 in Erun.
  destruct v as [ | | | | | d];
    try (subst run; do 2 eexists; split; [reflexivity | apply handler_other]).
  unfold ret at 1 in Erun. cbv iota beta in Erun.
  destruct (Py.lookup "id" d) as [video_id |] eqn:Hid.
  - destruct (Py.truthy video_id) eqn:Ht.
    + exfalso. apply (Hnot video_id). split; [exact Hsc |].
      exists d. repeat split; assumption.
    + subst run. do 2 eexists. split; [reflexivity | apply handler_no_id].
  - subst run. do 2 eexists. split; [reflexivity | apply handler_no_id].
Qed.

(** An accepted creation either carries a job id or does not. *)
Lemma created_or_not r :
  (exists video_id, created_with video_id r) \/ (forall video_id, ~ created_with video_id r).
Proof.
  destruct (Z.eqb_spec (status_code r) 200) as [E200 | N200];
    [| destruct (Z.eqb_spec (status_code r) 201) as [E201 | N201]].
  3:{ right. intros vid ([H | H] & _); contradiction. }
  all: assert (Hsc : status_code r = 200 \/ status_code r = 201) by tauto.
  all: destruct (json r) as [msg | v] eqn:Hj;
    [right; intros vid (_ & d & Hd & _); congruence |].
  all: destruct v as [ | | | | | d];
    try (right; intros vid (_ & d' & Hd & _); congruence).
  all: destruct (Py.lookup "id" d) as [video_id |] eqn:Hid;
    [| right; intros vid (_ & d' & Hd & Hid' & _); congruence].
  all: destruct (Py.truthy video_id) eqn:Ht;
    [left; exists video_id; split; [exact Hsc |]; exists d; repeat split; assumption
    | right; intros vid (_ & d' & Hd & Hid' & Ht'); congruence].
Qed.

Lemma handler_error_not_dead sc detail :
  handler_error sc detail -> String.prefix "No video file" detail = false.
Proof.
  intros [ | sc0 reason _ _ | | sc0 d Hp | text]; try reflexivity.
  destruct Hp; reflexivity.
Qed.

(** X13: whatever the upstream and the disk do, every failure of
    [generate_video] is an [HTTPException], and of one of these kinds: the
    missing key, a refused creation (with the upstream's status), the
    missing job id, one of the poller's four errors, or a 500 that wraps
    any other exception as "Error generating video: ...". In particular it
    never raises the "No video file found" error its code provides
    for. *)
Theorem generate_video_errors key out fuel request w e :
  fst (generate_video key out fuel request w) = Raise e ->
  exists sc detail,
    e = HTTPException sc detail /\
    handler_error sc detail /\
    String.prefix "No video file" detail = false.
Proof.
  intros H.
  assert (Hmain : exists sc detail, e = HTTPException sc detail /\ handler_error sc detail).
  { destruct (key_missing key) eqn:Hkey.
    { unfold generate_video, try_except, generate_video_try in H. rewrite Hkey in H.
      injection H as <-. do 2 eexists. split; [reflexivity | apply handler_no_key]. }
    destruct (on_post out (length (trace w)) create_url (Py.VDict (payload_of request)))
      as [latency r | latency msg] eqn:Hpost.
    2:{ rewrite (generate_video_offline _ _ _ _ _ _ _ Hkey Hpost) in H.
        injection H as <-. do 2 eexists. split; [reflexivity | apply handler_other]. }
    destruct (Z.eqb_spec (status_code r) 200) as [E200 | N200];
      [| destruct (Z.eqb_spec (status_code r) 201) as [E201 | N201]].
    3:{ rewrite (generate_video_refused _ _ _ _ _ _ _ Hkey Hpost N200 N201) in H.
        injection H as <-. do 2 eexists. split; [reflexivity |].
        apply handler_creation_refused; assumption. }
    all: assert (Hsc : status_code r = 200 \/ status_code r = 201) by tauto.
    all: destruct (created_or_not r) as [[video_id Hcreated] | Hnot].
    2, 4: (destruct (generate_video_unusable key out fuel request w latency r Hkey Hpost Hsc Hnot)
             as (sc & detail & E & Hk);
           rewrite E in H; injection H as <-;
           exists sc, detail; split; [reflexivity | exact Hk]).
    all: (destruct (wait_for_video_completion key out fuel video_id 600
                      (tick latency (EvPost create_url (create_headers key)
                                       (Py.VDict (payload_of request))) w))
            as [waited w2] eqn:Hwait;
          destruct (generate_video_created _ _ _ _ _ _ _ _ _ _ Hkey Hpost Hcreated Hwait)
            as [_ Hfst];
          rewrite wait_for_video_completion_unfold in Hwait;
          destruct waited as [v | [sc detail | t] | ]; simpl in Hfst;
          [ destruct (poll_loop_returns _ _ _ _ _ _ _ _ _ Hwait) as (w0 & d0 & _ & Hd0);
            destruct (download_returns _ _ _ _ _ _ _ Hd0)
              as (_ & _ & _ & _ & _ & _ & _ & _ & (dv & Hv & Hname));
            rewrite (Hfst dv Hv Hname) in H; discriminate
          | rewrite Hfst in H; injection H as <-;
            do 2 eexists; split; [reflexivity |]; apply handler_poller;
            apply (poll_loop_raises_http _ _ _ _ _ _ _ _ _ sc detail Hwait eq_refl)
          | rewrite Hfst in H; injection H as <-;
            do 2 eexists; split; [reflexivity |]; apply handler_other
          | rewrite Hfst in H; discriminate ]). }
  destruct Hmain as (sc & detail & -> & Hk).
  exists sc, detail. split; [reflexivity |]. split; [exact Hk |].
  apply (handler_error_not_dead sc detail Hk).
Qed.

Lemma generate_video_errors_witness :
  exists sc detail,
    HTTPException 500 ("Error generating video: " +:+ "All connection attempts failed") =
      HTTPException sc detail /\
    handler_error sc detail /\
    String.prefix "No video file" detail = false.
Proof.
  apply (generate_video_errors Sample.key Sample.offline 5%nat Sample.request
           Sample.world
           (HTTPException 500
              ("Error generating video: " +:+ "All connection attempts failed"))).
  reflexivity.
Defined.



(* ===================================================================== *)
(** * What the videos endpoint serves *)
(* ===================================================================== *)









